(** * Blink Delete: the gesture detection core

    A shallow embedding of the detection hook [useBlinkDetection] and of
    the part of the page [BlinkDeletePage] that consumes its events.  Line
    numbers are those of [src/app/blink-delete/page.tsx].

    Numbers.  A JavaScript [number] is an IEEE 754 binary64 value, which is
    what Rocq's primitive [float] is: [+], [-], [*], [/], [sqrt], [<] and
    [===] below are the very operations the engine performs.  Timestamps
    ([Date.now()]) are integral milliseconds and are kept in [Z]; frame and
    blink counters are kept in [nat]. *)

From Stdlib Require Import ZArith List Bool Lia.
From Stdlib Require Import Floats.
From Stdlib Require String DecimalString Permutation.
Import ListNotations.

Set Implicit Arguments.
Set Warnings "-inexact-float".

(** ** Landmark geometry *)

Module Geometry.

Local Open Scope float_scope.

(** [{ x: number; y: number; z: number }], one face-mesh landmark. *)
Record Landmark : Type := mkLandmark { x : float; y : float; z : float }.

(** [Math.pow(a, 2)], the square. *)
Definition pow2 (a : float) : float := a * a.

(** [Math.sqrt]. *)
Definition Math_sqrt (a : float) : float := PrimFloat.sqrt a.

(** A landmark at the origin, the filler of the faces built below. *)
Definition origin : Landmark := mkLandmark 0 0 0.

(** What a call comes to: it returns a value, or it throws.  The one
    exception of this code is the [TypeError] of reading a property of
    [undefined]. *)
Inductive Completion (A : Type) : Type :=
| Return (v : A)
| Throw.
Arguments Throw {A}.

(** The array read [a[i]] followed by the read of a coordinate of the
    entry.  The entry is [undefined] past the end of the array and where
    the array holds [undefined] (what [landmarks[i]] was when the face has
    no landmark [i]); reading [.x] or [.y] of it throws. *)
Definition entry (a : list (option Landmark)) (i : nat)
  : Completion Landmark :=
  match nth_error a i with
  | Some (Some p) => Return p
  | _ => Throw
  end.

(** One statement after another: an exception ends the call. *)
Definition bind {A B : Type} (c : Completion A) (k : A -> Completion B)
  : Completion B :=
  match c with
  | Return v => k v
  | Throw => Throw
  end.

Notation "p <- c ;; k" := (bind c (fun p => k))
  (at level 61, c at next level, right associativity).

(** [calculateEAR(eyeLandmarks)], lines 1037-1060.  The argument is [None]
    for a falsy ([null]/[undefined]) array; an entry of the array is [None]
    when it is [undefined].  The entries are read in the order of the
    source: 1 and 5, 2 and 4, 0 and 3. *)
Definition calculateEAR (eyeLandmarks : option (list (option Landmark)))
  : Completion float :=
  match eyeLandmarks with
  | None => Return 1
  | Some e =>
      if (List.length e <? 6)%nat then Return 1
      else
        e1 <- entry e 1 ;; e5 <- entry e 5 ;;
        let v1 := Math_sqrt (pow2 (x e1 - x e5) + pow2 (y e1 - y e5)) in
        e2 <- entry e 2 ;; e4 <- entry e 4 ;;
        let v2 := Math_sqrt (pow2 (x e2 - x e4) + pow2 (y e2 - y e4)) in
        e0 <- entry e 0 ;; e3 <- entry e 3 ;;
        let h := Math_sqrt (pow2 (x e0 - x e3) + pow2 (y e0 - y e3)) in
        if h =? 0 then Return 1
        else Return ((v1 + v2) / (2.0 * h))
  end.


End Geometry.

(** ** The detection hook, [useBlinkDetection] *)

Module Hook.

Import Geometry.

(** ["neutral" | "left" | "right"] *)
Inductive Tilt : Type := TiltNeutral | TiltLeft | TiltRight.

Definition Tilt_eqb (a b : Tilt) : bool :=
  match a, b with
  | TiltNeutral, TiltNeutral | TiltLeft, TiltLeft | TiltRight, TiltRight => true
  | _, _ => false
  end.

(** The mutable [useRef] cells the frame callback reads and writes,
    lines 1103-1112 (the DOM, stream and animation-frame refs carry no
    classifier state and are left out). *)
Record Refs : Type := mkRefs {
  lastBlinkTimeRef : Z;
  lastTiltTimeRef : Z;
  isBlinkingRef : bool;
  eyeOpenSinceRef : Z;
  consecutiveLowEARRef : nat;
  consecutiveTiltFramesRef : nat;
  lastTiltDirectionRef : Tilt;
  hasFiredTiltRef : bool;
  wasNeutralRef : bool
}.

(** [interface BlinkDetectionState], lines 1017-1026: the React state the
    hook exposes.  [error] is [None] for [null]. *)
Record BlinkDetectionState : Type := mkState {
  isInitialized : bool;
  isLoading : bool;
  error : option String.string;
  blinkCount : nat;
  isBlinking : bool;
  lastBlinkTime : Z;
  faceDetected : bool;
  headTilt : Tilt
}.

(** One hook instance: its refs and its React state. *)
Record Instance : Type := mkInstance { refs : Refs; state : BlinkDetectionState }.

(** The initial values, lines 1103-1123. *)
Definition initialRefs : Refs :=
  {| lastBlinkTimeRef := 0; lastTiltTimeRef := 0; isBlinkingRef := false;
     eyeOpenSinceRef := 0; consecutiveLowEARRef := 0;
     consecutiveTiltFramesRef := 0; lastTiltDirectionRef := TiltNeutral;
     hasFiredTiltRef := false; wasNeutralRef := true |}.

Definition initialState : BlinkDetectionState :=
  {| isInitialized := false; isLoading := false; error := None;
     blinkCount := 0; isBlinking := false; lastBlinkTime := 0;
     faceDetected := false; headTilt := TiltNeutral |}.

Definition initial : Instance := {| refs := initialRefs; state := initialState |}.

(** Assignments to single refs, [ref.current = v]. *)
Definition set_lastBlinkTimeRef (v : Z) (r : Refs) : Refs :=
  mkRefs v (lastTiltTimeRef r) (isBlinkingRef r) (eyeOpenSinceRef r)
    (consecutiveLowEARRef r) (consecutiveTiltFramesRef r)
    (lastTiltDirectionRef r) (hasFiredTiltRef r) (wasNeutralRef r).
Definition set_lastTiltTimeRef (v : Z) (r : Refs) : Refs :=
  mkRefs (lastBlinkTimeRef r) v (isBlinkingRef r) (eyeOpenSinceRef r)
    (consecutiveLowEARRef r) (consecutiveTiltFramesRef r)
    (lastTiltDirectionRef r) (hasFiredTiltRef r) (wasNeutralRef r).
Definition set_isBlinkingRef (v : bool) (r : Refs) : Refs :=
  mkRefs (lastBlinkTimeRef r) (lastTiltTimeRef r) v (eyeOpenSinceRef r)
    (consecutiveLowEARRef r) (consecutiveTiltFramesRef r)
    (lastTiltDirectionRef r) (hasFiredTiltRef r) (wasNeutralRef r).
Definition set_eyeOpenSinceRef (v : Z) (r : Refs) : Refs :=
  mkRefs (lastBlinkTimeRef r) (lastTiltTimeRef r) (isBlinkingRef r) v
    (consecutiveLowEARRef r) (consecutiveTiltFramesRef r)
    (lastTiltDirectionRef r) (hasFiredTiltRef r) (wasNeutralRef r).
Definition set_consecutiveLowEARRef (v : nat) (r : Refs) : Refs :=
  mkRefs (lastBlinkTimeRef r) (lastTiltTimeRef r) (isBlinkingRef r)
    (eyeOpenSinceRef r) v (consecutiveTiltFramesRef r)
    (lastTiltDirectionRef r) (hasFiredTiltRef r) (wasNeutralRef r).
Definition set_consecutiveTiltFramesRef (v : nat) (r : Refs) : Refs :=
  mkRefs (lastBlinkTimeRef r) (lastTiltTimeRef r) (isBlinkingRef r)
    (eyeOpenSinceRef r) (consecutiveLowEARRef r) v
    (lastTiltDirectionRef r) (hasFiredTiltRef r) (wasNeutralRef r).
Definition set_lastTiltDirectionRef (v : Tilt) (r : Refs) : Refs :=
  mkRefs (lastBlinkTimeRef r) (lastTiltTimeRef r) (isBlinkingRef r)
    (eyeOpenSinceRef r) (consecutiveLowEARRef r) (consecutiveTiltFramesRef r)
    v (hasFiredTiltRef r) (wasNeutralRef r).
Definition set_hasFiredTiltRef (v : bool) (r : Refs) : Refs :=
  mkRefs (lastBlinkTimeRef r) (lastTiltTimeRef r) (isBlinkingRef r)
    (eyeOpenSinceRef r) (consecutiveLowEARRef r) (consecutiveTiltFramesRef r)
    (lastTiltDirectionRef r) v (wasNeutralRef r).
Definition set_wasNeutralRef (v : bool) (r : Refs) : Refs :=
  mkRefs (lastBlinkTimeRef r) (lastTiltTimeRef r) (isBlinkingRef r)
    (eyeOpenSinceRef r) (consecutiveLowEARRef r) (consecutiveTiltFramesRef r)
    (lastTiltDirectionRef r) (hasFiredTiltRef r) v.

(** The [setState(prev => ({ ...prev, ... }))] updaters.  React applies the
    queued updaters in the order they were queued, each to the result of
    the one before, so they are applied on the spot. *)
Definition set_faceDetected (v : bool) (s : BlinkDetectionState) :=
  mkState (isInitialized s) (isLoading s) (error s) (blinkCount s)
    (isBlinking s) (lastBlinkTime s) v (headTilt s).
Definition set_isBlinking (v : bool) (s : BlinkDetectionState) :=
  mkState (isInitialized s) (isLoading s) (error s) (blinkCount s)
    v (lastBlinkTime s) (faceDetected s) (headTilt s).
Definition set_blinkCount (v : nat) (s : BlinkDetectionState) :=
  mkState (isInitialized s) (isLoading s) (error s) v
    (isBlinking s) (lastBlinkTime s) (faceDetected s) (headTilt s).
Definition set_headTilt (v : Tilt) (s : BlinkDetectionState) :=
  mkState (isInitialized s) (isLoading s) (error s) (blinkCount s)
    (isBlinking s) (lastBlinkTime s) (faceDetected s) v.
(** [{ ...prev, blinkCount: prev.blinkCount + 1, isBlinking: true,
       lastBlinkTime: now }], lines 1297-1302. *)
Definition blinkFired (now : Z) (s : BlinkDetectionState) :=
  mkState (isInitialized s) (isLoading s) (error s) (S (blinkCount s))
    true now (faceDetected s) (headTilt s).

(** The state update of [stopDetection], line 1158. *)
Definition stopped (s : BlinkDetectionState) :=
  mkState false (isLoading s) (error s) (blinkCount s)
    (isBlinking s) (lastBlinkTime s) false TiltNeutral.

(** [resetBlinkCount], lines 1125-1127. *)
Definition resetBlinkCount (i : Instance) : Instance :=
  {| refs := refs i; state := set_blinkCount 0 (state i) |}.

(** The parameter list of [useBlinkDetection], lines 1089-1097, in its
    order.  [H] is the type of the consumer's handlers; an omitted
    (undefined) handler is [None]. *)
Record Args (H : Type) : Type := useBlinkDetection {
  onBlink : option H;
  blinkThreshold : float;
  debounceMs : Z;
  onTiltLeft : option H;
  onTiltRight : option H;
  tiltThreshold : float;
  tiltDebounceMs : Z
}.

(** The three call sites [onBlink?.()], [onTiltLeft?.()] and
    [onTiltRight?.()] of the frame callback.  A frame evaluation yields the
    list of the call sites it reached, in program order. *)
Inductive Callback : Type := OnBlink | OnTiltLeft | OnTiltRight.

(** [f?.()]: the handler bound to a call site, if any. *)
Definition handlerOf {H : Type} (a : Args H) (c : Callback) : option H :=
  match c with
  | OnBlink => onBlink a
  | OnTiltLeft => onTiltLeft a
  | OnTiltRight => onTiltRight a
  end.

Section Classifiers.

Variable H : Type.
Variable a : Args H.

(** Blink detection, lines 1274-1312, from the averaged eye aspect ratio
    of the frame and the frame's [Date.now()]. *)
Definition blinkDetection (avgEAR : float) (now : Z) (i : Instance)
  : Instance * list Callback :=
  let r := refs i in
  let s := state i in
  let isCurrentlyBlinking := (avgEAR <? blinkThreshold a)%float in
  let r :=
    if isCurrentlyBlinking
    then set_consecutiveLowEARRef (S (consecutiveLowEARRef r)) r
    else
      let r := set_consecutiveLowEARRef 0 r in
      if (eyeOpenSinceRef r =? 0)%Z then set_eyeOpenSinceRef now r else r in
  let isConfirmedBlink := (2 <=? consecutiveLowEARRef r)%nat in
  let '(r, s, calls) :=
    if isConfirmedBlink && negb (isBlinkingRef r) then
      let eyesWereOpenLongEnough := (now - eyeOpenSinceRef r >? 150)%Z in
      if (now - lastBlinkTimeRef r >? debounceMs a)%Z && eyesWereOpenLongEnough
      then (set_eyeOpenSinceRef 0 (set_lastBlinkTimeRef now r),
            blinkFired now s, [OnBlink])
      else (r, s, [])
    else (r, s, []) in
  let s :=
    if negb isCurrentlyBlinking && isBlinkingRef r
    then set_isBlinking false s else s in
  let r := set_isBlinkingRef isConfirmedBlink r in
  ({| refs := r; state := s |}, calls).

(** The direction a roll angle maps to, lines 1318-1323. *)
Definition detectTilt (tiltAngle : float) : Tilt :=
  if (tiltThreshold a <? tiltAngle)%float then TiltRight
  else if (tiltAngle <? - tiltThreshold a)%float then TiltLeft
  else TiltNeutral.

(** Head tilt detection, lines 1318-1381, from the roll angle of the
    frame and the frame's [Date.now()]. *)
Definition tiltDetection (tiltAngle : float) (now : Z) (i : Instance)
  : Instance * list Callback :=
  let r := refs i in
  let s := state i in
  let detectedTilt := detectTilt tiltAngle in
  let r :=
    if Tilt_eqb detectedTilt (lastTiltDirectionRef r)
       && negb (Tilt_eqb detectedTilt TiltNeutral)
    then set_consecutiveTiltFramesRef (S (consecutiveTiltFramesRef r)) r
    else set_consecutiveTiltFramesRef 0 r in
  let r := set_lastTiltDirectionRef detectedTilt r in
  let isConfirmedTilt := (3 <=? consecutiveTiltFramesRef r)%nat in
  let s :=
    if isConfirmedTilt && negb (Tilt_eqb detectedTilt TiltNeutral)
    then (if negb (Tilt_eqb (headTilt s) detectedTilt)
          then set_headTilt detectedTilt s else s)
    else s in
  let '(r, calls) :=
    if isConfirmedTilt
       && negb (Tilt_eqb detectedTilt TiltNeutral)
       && negb (hasFiredTiltRef r)
       && wasNeutralRef r
       && (now - lastTiltTimeRef r >? tiltDebounceMs a)%Z
    then
      let r := set_lastTiltTimeRef now r in
      let r := set_hasFiredTiltRef true r in
      let r := set_wasNeutralRef false r in
      (r, match detectedTilt with
          | TiltLeft => [OnTiltLeft]
          | TiltRight => [OnTiltRight]
          | TiltNeutral => []
          end)
    else (r, []) in
  let '(r, s) :=
    if Tilt_eqb detectedTilt TiltNeutral then
      let r :=
        if negb (wasNeutralRef r)
        then set_hasFiredTiltRef false (set_wasNeutralRef true r)
        else r in
      (r, if negb (Tilt_eqb (headTilt s) TiltNeutral)
          then set_headTilt TiltNeutral s else s)
    else (r, s) in
  ({| refs := r; state := s |}, calls).

(** Lines 1274-1381 as a whole: blink detection, then tilt detection, on
    the two scalars measured from the frame. *)
Definition evaluateFrame (avgEAR tiltAngle : float) (now : Z) (i : Instance)
  : Instance * list Callback :=
  let '(i1, c1) := blinkDetection avgEAR now i in
  let '(i2, c2) := tiltDetection tiltAngle now i1 in
  (i2, c1 ++ c2).

End Classifiers.

(** Eye landmark indices for MediaPipe Face Mesh, lines 1010-1011, and the
    two landmarks for head pose estimation, lines 1014-1015. *)
Definition LEFT_EYE_INDICES : list nat := [362; 385; 387; 263; 373; 380]%nat.
Definition RIGHT_EYE_INDICES : list nat := [33; 160; 158; 133; 153; 144]%nat.
Definition LEFT_EAR : nat := 234.
Definition RIGHT_EAR : nat := 454.

(** [Math.PI] and the other constants [Math.atan2] returns on the axes. *)
Definition Math_PI : float := 3.141592653589793.
Definition PI_2 : float := 1.5707963267948966.
Definition PI_4 : float := 0.7853981633974483.
Definition PI_3_4 : float := 2.356194490192345.

Section Engine.

(** What [Math.atan2] returns for a finite point off both axes is left to
    the engine by ECMAScript ("implementation-approximated"); it is the one
    parameter of the model.  [atan2_approx ny nx] stands for that value. *)
Variable atan2_approx : float -> float -> float.

(** [Math.atan2(ny, nx)], ECMAScript 21.3.2.8: the cases the language
    fixes, step by step, then the engine's approximation. *)
Definition Math_atan2 (ny nx : float) : float :=
  match PrimFloat.classify ny, PrimFloat.classify nx with
  | NaN, _ | _, NaN => nan
  | PInf, PInf => PI_4
  | PInf, NInf => PI_3_4
  | PInf, _ => PI_2
  | NInf, PInf => - PI_4
  | NInf, NInf => - PI_3_4
  | NInf, _ => - PI_2
  | (PNormal | PSubn | PZero), PInf => 0
  | _, PInf => -0
  | (PNormal | PSubn | PZero), NInf => Math_PI
  | _, NInf => - Math_PI
  | PZero, (PNormal | PSubn | PZero) => 0
  | PZero, _ => Math_PI
  | NZero, (PNormal | PSubn | PZero) => -0
  | NZero, _ => - Math_PI
  | (PNormal | PSubn), (PZero | NZero) => PI_2
  | (NNormal | NSubn), (PZero | NZero) => - PI_2
  | _, _ => atan2_approx ny nx
  end%float.

(** [calculateHeadTilt(landmarks)], lines 1063-1075.  An array read past
    the end yields [undefined], here [None]. *)
Definition calculateHeadTilt (landmarks : list Landmark) : float :=
  let leftEar := nth_error landmarks LEFT_EAR in
  let rightEar := nth_error landmarks RIGHT_EAR in
  match leftEar, rightEar with
  | Some leftEar, Some rightEar =>
      let deltaY := (y rightEar - y leftEar)%float in
      let deltaX := (x rightEar - x leftEar)%float in
      (Math_atan2 deltaY deltaX * (180 / Math_PI))%float
  | _, _ => 0%float
  end.

(** [INDICES.map(i => landmarks[i])]: an array of as many entries as there
    are indices, [undefined] where the face has no landmark of that
    index. *)
Definition eyeOf (landmarks : list Landmark) (indices : list nat)
  : list (option Landmark) :=
  map (fun i => nth_error landmarks i) indices.

Variable H : Type.
Variable a : Args H.

(** The [faceMesh.onResults] callback, lines 1255-1409 (the drawing on the
    hidden debug canvas apart).  [multiFaceLandmarks] is [None] when the
    field is undefined; [now] is the value [Date.now()] returns.  An
    exception leaves the callback after [faceDetected] was set; the caller,
    [processFrame], swallows it (lines 1173-1177). *)
Definition onResults (multiFaceLandmarks : option (list (list Landmark)))
  (now : Z) (i : Instance) : Instance * list Callback :=
  match multiFaceLandmarks with
  | None | Some [] =>
      ({| refs := refs i; state := set_faceDetected false (state i) |}, [])
  | Some (landmarks :: _) =>
      let i := {| refs := refs i; state := set_faceDetected true (state i) |} in
      let leftEye := eyeOf landmarks LEFT_EYE_INDICES in
      let rightEye := eyeOf landmarks RIGHT_EYE_INDICES in
      match calculateEAR (Some leftEye) with
      | Throw => (i, [])
      | Return leftEAR =>
          match calculateEAR (Some rightEye) with
          | Throw => (i, [])
          | Return rightEAR =>
              let avgEAR := ((leftEAR + rightEAR) / 2)%float in
              let tiltAngle := calculateHeadTilt landmarks in
              evaluateFrame a avgEAR tiltAngle now i
          end
      end
  end.

End Engine.

(** Successive evaluations of a step on a list of inputs: the instance
    reached and the call sites reached at each input. *)
Fixpoint runWith {I : Type} (step : I -> Instance -> Instance * list Callback)
  (inputs : list I) (i : Instance) : Instance * list (list Callback) :=
  match inputs with
  | [] => (i, [])
  | f :: rest =>
      let '(i1, c) := step f i in
      let '(i2, cs) := runWith step rest i1 in
      (i2, c :: cs)
  end.

(** A frame of a scalar signal: its value and its timestamp. *)
Definition Sample : Type := (float * Z)%type.

Definition runBlink {H} (a : Args H) : list Sample -> Instance -> _ :=
  runWith (fun f => blinkDetection a (fst f) (snd f)).

Definition runTilt {H} (a : Args H) : list Sample -> Instance -> _ :=
  runWith (fun f => tiltDetection a (fst f) (snd f)).

(** How often a call site was reached over a run. *)
Definition count (c : Callback) (trace : list (list Callback)) : nat :=
  List.length (filter (fun d => match c, d with
                                | OnBlink, OnBlink
                                | OnTiltLeft, OnTiltLeft
                                | OnTiltRight, OnTiltRight => true
                                | _, _ => false
                                end) (concat trace)).

End Hook.

(** ** The page, [BlinkDeletePage] *)

Module Page.

Import Hook.

(** [type AppState], line 24. *)
Inductive AppState : Type := hero | demo | upload | review | results.

(** [interface PhotoItem], lines 26-32 (the [File] object apart). *)
Record PhotoItem : Type := mkPhoto {
  id : String.string;
  url : String.string;
  marked : bool;
  originalName : String.string
}.

(** The [useState] cells and the mirroring [useRef] cells of the page that
    the gesture handlers read or write, lines 47-53, 88-91 and 136.
    Indices and lengths are JavaScript numbers that [len - 1] may take
    below zero, so they are in [Z]. *)
Record Page : Type := mkPage {
  appState : AppState;
  photos : list PhotoItem;
  currentIndex : Z;
  isCalibrating : bool;
  calibrationBlinks : nat;
  showFlash : bool;
  showTiltFlash : option Tilt;
  isCalibrationRef : bool;
  appStateRef : AppState;
  currentIndexRef : Z;
  photosLengthRef : Z
}.

Definition set_appState v (p : Page) :=
  mkPage v (photos p) (currentIndex p) (isCalibrating p) (calibrationBlinks p)
    (showFlash p) (showTiltFlash p) (isCalibrationRef p) (appStateRef p)
    (currentIndexRef p) (photosLengthRef p).
Definition set_photos v (p : Page) :=
  mkPage (appState p) v (currentIndex p) (isCalibrating p) (calibrationBlinks p)
    (showFlash p) (showTiltFlash p) (isCalibrationRef p) (appStateRef p)
    (currentIndexRef p) (photosLengthRef p).
Definition set_currentIndex v (p : Page) :=
  mkPage (appState p) (photos p) v (isCalibrating p) (calibrationBlinks p)
    (showFlash p) (showTiltFlash p) (isCalibrationRef p) (appStateRef p)
    (currentIndexRef p) (photosLengthRef p).
Definition set_isCalibrating v (p : Page) :=
  mkPage (appState p) (photos p) (currentIndex p) v (calibrationBlinks p)
    (showFlash p) (showTiltFlash p) (isCalibrationRef p) (appStateRef p)
    (currentIndexRef p) (photosLengthRef p).
Definition set_calibrationBlinks v (p : Page) :=
  mkPage (appState p) (photos p) (currentIndex p) (isCalibrating p) v
    (showFlash p) (showTiltFlash p) (isCalibrationRef p) (appStateRef p)
    (currentIndexRef p) (photosLengthRef p).
Definition set_showFlash v (p : Page) :=
  mkPage (appState p) (photos p) (currentIndex p) (isCalibrating p)
    (calibrationBlinks p) v (showTiltFlash p) (isCalibrationRef p)
    (appStateRef p) (currentIndexRef p) (photosLengthRef p).
Definition set_showTiltFlash v (p : Page) :=
  mkPage (appState p) (photos p) (currentIndex p) (isCalibrating p)
    (calibrationBlinks p) (showFlash p) v (isCalibrationRef p)
    (appStateRef p) (currentIndexRef p) (photosLengthRef p).

(** [prev.map((p, i) => i === idx ? { ...p, marked: !p.marked } : p)] *)
Fixpoint toggleAt (i : Z) (idx : Z) (l : list PhotoItem) : list PhotoItem :=
  match l with
  | [] => []
  | p :: rest =>
      (if (i =? idx)%Z
       then mkPhoto (id p) (url p) (negb (marked p)) (originalName p)
       else p) :: toggleAt (i + 1) idx rest
  end.

(** [handleBlink], lines 109-134.  The vibration and the timer that takes
    the flash away again are left out. *)
Definition handleBlink (p : Page) : Page :=
  if isCalibrationRef p
  then set_calibrationBlinks (S (calibrationBlinks p)) p
  else
    let p := set_showFlash true p in
    let state := appStateRef p in
    let idx := currentIndexRef p in
    let len := photosLengthRef p in
    if (match state with review | demo => true | _ => false end)
       && (idx <? len)%Z
    then set_photos (toggleAt 0 idx (photos p)) p
    else p.

(** [handleTiltRight], lines 138-161: advance to the next photo. *)
Definition handleTiltRight (p : Page) : Page :=
  if isCalibrationRef p then p
  else
    let p := set_showTiltFlash (Some TiltRight) p in
    let idx := currentIndexRef p in
    let len := photosLengthRef p in
    if (idx <? len - 1)%Z then set_currentIndex (currentIndex p + 1)%Z p
    else if (idx =? len - 1)%Z then set_appState results p
    else p.

(** [handleTiltLeft], lines 163-183: go to the previous photo. *)
Definition handleTiltLeft (p : Page) : Page :=
  if isCalibrationRef p then p
  else
    let p := set_showTiltFlash (Some TiltLeft) p in
    let idx := currentIndexRef p in
    if (idx >? 0)%Z then set_currentIndex (currentIndex p - 1)%Z p
    else p.

(** The call of the hook, line 196, argument for argument. *)
Definition hookArgs : Args (Page -> Page) :=
  useBlinkDetection (Some handleBlink) 0.18%float 500%Z
    (Some handleTiltRight) (Some handleTiltLeft) 15%float 600%Z.

(** The page together with its hook instance. *)
Record System : Type := mkSystem { page : Page; hook : Instance }.

(** The effects that mirror state into refs, lines 93-107. *)
Definition syncRefs (p : Page) : Page :=
  mkPage (appState p) (photos p) (currentIndex p) (isCalibrating p)
    (calibrationBlinks p) (showFlash p) (showTiltFlash p)
    (isCalibrating p) (appState p) (currentIndex p)
    (Z.of_nat (List.length (photos p))).

(** The effect that handles calibration completion, lines 338-344. *)
Definition calibrationEffect (s : System) : System :=
  if (3 <=? calibrationBlinks (page s))%nat && isCalibrating (page s)
  then {| page := set_calibrationBlinks 0 (set_isCalibrating false (page s));
          hook := resetBlinkCount (hook s) |}
  else s.

(** One render: the effects in the order they are declared.  (The effect
    on entering [results], lines 347-355, stops the camera and sends the
    mail; it takes no part in calibration and is left out.) *)
Definition commit (s : System) : System :=
  calibrationEffect {| page := syncRefs (page s); hook := hook s |}.

(** An effect that sets state causes one more render. *)
Definition settle (s : System) : System := commit (commit s).

(** A call site of the hook reached: the handler the page bound to it. *)
Definition invoke (c : Callback) (p : Page) : Page :=
  match handlerOf hookArgs c with
  | Some h => h p
  | None => p
  end.

(** The handlers run inside the frame callback; React renders afterwards. *)
Definition deliver (calls : list Callback) (s : System) : System :=
  settle {| page := fold_left (fun p c => invoke c p) calls (page s);
            hook := hook s |}.

(** One evaluated frame, given its two measured scalars. *)
Definition onMeasurement (avgEAR tiltAngle : float) (now : Z) (s : System)
  : System :=
  let '(h, calls) := evaluateFrame hookArgs avgEAR tiltAngle now (hook s) in
  deliver calls {| page := page s; hook := h |}.

(** One frame of the face mesh. *)
Definition onFrame (atan2_approx : float -> float -> float)
  (multiFaceLandmarks : option (list (list Geometry.Landmark))) (now : Z)
  (s : System) : System :=
  let '(h, calls) :=
    onResults atan2_approx hookArgs multiFaceLandmarks now (hook s) in
  deliver calls {| page := page s; hook := h |}.

(** The page as [useState] initialises it, lines 47-53. *)
Definition initialPage : Page :=
  mkPage hero [] 0 false 0 false None false hero 0 0.

(** The state changes of [handleStartDemo] and [handleFileUpload], lines
    410-464, for the photos given: calibration is switched on before the
    detection starts. *)
Definition startSession (isDemo : bool) (ps : list PhotoItem) (p : Page) : Page :=
  mkPage (if isDemo then demo else review) ps 0 true (calibrationBlinks p)
    (showFlash p) (showTiltFlash p) true (appStateRef p)
    (currentIndexRef p) (photosLengthRef p).

End Page.

(** ** Vocabulary of the statements, and concrete inputs *)

Module Scenario.

Import Geometry Hook.
Import String.

(** *** Geometry *)

(** A number that is [+0] or [-0]. *)
Definition isZero (d : float) : bool :=
  match PrimFloat.classify d with
  | PZero | NZero => true
  | _ => false
  end.

(** A number that is [+0] or greater than zero. *)
Definition isPlusZeroOrPositive (d : float) : bool :=
  match PrimFloat.classify d with
  | PZero | PSubn | PNormal | PInf => true
  | _ => false
  end.

(** The two ear landmarks of a face, when both are there. *)
Definition ears (landmarks : list Landmark) : option (Landmark * Landmark) :=
  match nth_error landmarks LEFT_EAR, nth_error landmarks RIGHT_EAR with
  | Some l, Some r => Some (l, r)
  | _, _ => None
  end.

(** An ear is absent, or the ears are level: their vertical delta is zero
    and their horizontal delta is [+0] or positive. *)
Definition earsAbsentOrLevel (landmarks : list Landmark) : bool :=
  match ears landmarks with
  | Some (l, r) =>
      isZero (y r - y l) && isPlusZeroOrPositive (x r - x l)
  | None => true
  end.

(** A face mesh of 478 landmarks with the given ears, every other landmark
    at the origin. *)
Definition faceWithEars (l r : Landmark) : list Landmark :=
  repeat origin 234 ++ l :: repeat origin 219 ++ r :: repeat origin 23.

(** Level ears; ears one above the other, first with the right ear at the
    larger [y] and then with the left ear at the larger [y]; level ears
    with the right ear at the smaller [x]. *)
Definition earsLevel : list Landmark :=
  faceWithEars (mkLandmark 0.3 0.5 0) (mkLandmark 0.7 0.5 0).
Definition earsVertical : list Landmark :=
  faceWithEars (mkLandmark 0.5 0.4 0) (mkLandmark 0.5 0.6 0).
Definition earsVerticalLeft : list Landmark :=
  faceWithEars (mkLandmark 0.5 0.6 0) (mkLandmark 0.5 0.4 0).
Definition earsMirrored : list Landmark :=
  faceWithEars (mkLandmark 0.7 0.5 0) (mkLandmark 0.3 0.5 0).

(** [!results.multiFaceLandmarks || results.multiFaceLandmarks.length === 0],
    line 1256: the frame shows no face. *)
Definition noFace (m : option (list (list Landmark))) : bool :=
  match m with
  | None | Some [] => true
  | Some (_ :: _) => false
  end.

(** An instance in the middle of a session: a blink was counted at 4000,
    a right tilt fired at 5000 and is still held. *)
Definition midSession : Instance :=
  {| refs := mkRefs 4000 5000 false 4300 1 5 TiltRight true false;
     state := mkState true false None 7 false 4000 true TiltRight |}.

(** *** The tilt classifier *)

(** The call site a direction is dispatched to, lines 1361-1365. *)
Definition callOf (d : Tilt) : list Callback :=
  match d with
  | TiltLeft => [OnTiltLeft]
  | TiltRight => [OnTiltRight]
  | TiltNeutral => []
  end.

(** The run-length counter after a frame of direction [d], lines
    1326-1330, and the condition under which the frame fires, lines
    1351-1355. *)
Definition nextCount (d : Tilt) (r : Refs) : nat :=
  if Tilt_eqb d (lastTiltDirectionRef r) && negb (Tilt_eqb d TiltNeutral)
  then S (consecutiveTiltFramesRef r) else 0.

Definition fires {H} (a : Args H) (d : Tilt) (now : Z) (r : Refs) : bool :=
  (3 <=? nextCount d r)%nat && negb (Tilt_eqb d TiltNeutral)
  && negb (hasFiredTiltRef r) && wasNeutralRef r
  && (now - lastTiltTimeRef r >? tiltDebounceMs a)%Z.

(** The latch is open: nothing fired in this excursion, and the head has
    been back to neutral since the last event. *)
Definition armed (r : Refs) : bool :=
  negb (hasFiredTiltRef r) && wasNeutralRef r.

(** The direction detected on a sample of the roll angle. *)
Definition direction {H} (a : Args H) (f : Sample) : Tilt :=
  detectTilt a (fst f).
Definition nonNeutral {H} (a : Args H) (f : Sample) : bool :=
  negb (Tilt_eqb (direction a f) TiltNeutral).

(** The samples of a run all show one direction. *)
Definition allTilted {H} (a : Args H) (d : Tilt) (fs : list Sample) : bool :=
  forallb (fun f => Tilt_eqb (direction a f) d) fs.

Definition nonEmpty {A} (l : list A) : bool :=
  match l with
  | [] => false
  | _ :: _ => true
  end.

(** The tilt events of a run, of either direction. *)
Definition tiltEvents (trace : list (list Callback)) : nat :=
  count OnTiltLeft trace + count OnTiltRight trace.

(** [n] frames at one angle, 50 ms apart, the first one at [t]. *)
Fixpoint steady (angle : float) (t : Z) (n : nat) : list Sample :=
  match n with
  | O => []
  | S n => (angle, t) :: steady angle (t + 50) n
  end.

(** The instance in which the right tilt of three frames at 20 degrees is
    about to be confirmed by a fourth. *)
Definition beforeFirstTilt : Instance :=
  fst (runTilt Page.hookArgs (steady 20 1000 3) Hook.initial).

(** *** The blink classifier *)

(** A frame is low when its averaged ratio is below the threshold, line
    1274; the counter of low frames after it, lines 1277-1284; the
    open-since marker after it, lines 1281-1283; and the condition under
    which it fires, lines 1287-1293. *)
Definition isLow {H} (a : Args H) (avgEAR : float) : bool :=
  (avgEAR <? blinkThreshold a)%float.

Definition lowCount {H} (a : Args H) (avgEAR : float) (r : Refs) : nat :=
  if isLow a avgEAR then S (consecutiveLowEARRef r) else 0.

Definition openSince {H} (a : Args H) (avgEAR : float) (now : Z) (r : Refs) : Z :=
  if isLow a avgEAR then eyeOpenSinceRef r
  else if (eyeOpenSinceRef r =? 0)%Z then now else eyeOpenSinceRef r.

Definition blinkFires {H} (a : Args H) (avgEAR : float) (now : Z) (r : Refs)
  : bool :=
  (2 <=? lowCount a avgEAR r)%nat && negb (isBlinkingRef r)
  && (now - lastBlinkTimeRef r >? debounceMs a)%Z
  && (now - openSince a avgEAR now r >? 150)%Z.


(** The timestamp of the last sample of a run on which a blink fired, and
    [t0] when none fired. *)
Fixpoint lastFired (t0 : Z) (fs : list Sample) (trace : list (list Callback))
  : Z :=
  match fs, trace with
  | f :: fs, c :: trace =>
      lastFired (match c with [] => t0 | _ :: _ => snd f end) fs trace
  | _, _ => t0
  end.







(** *** Eyes for [calculateEAR] *)




(** *** Sessions on the page *)

(** A frame by its two measured scalars and its timestamp, and a session
    of such frames on the page. *)
Definition Measurement : Type := (float * float * Z)%type.

Definition frame (avgEAR tiltAngle : float) (now : Z) : Measurement :=
  (avgEAR, tiltAngle, now).

Fixpoint session (ms : list Measurement) (s : Page.System) : Page.System :=
  match ms with
  | [] => s
  | (avgEAR, tiltAngle, now) :: rest =>
      session rest (Page.onMeasurement avgEAR tiltAngle now s)
  end.

(** Whole frames of the face mesh, one face each, on the page. *)
Fixpoint faceSession (atan2_approx : float -> float -> float)
  (fs : list (list Landmark * Z)) (s : Page.System) : Page.System :=
  match fs with
  | [] => s
  | (face, now) :: rest =>
      faceSession atan2_approx rest
        (Page.onFrame atan2_approx (Some [face]) now s)
  end.

(** The photos of the demo, lines 38-44 and 415-421. *)
Definition demoPhotos : list Page.PhotoItem :=
  [Page.mkPhoto "demo-0"
     "https://images.unsplash.com/photo-1506905925346-21bda4d32df4?w=800&q=80"
     false "sample-1.jpg";
   Page.mkPhoto "demo-1"
     "https://images.unsplash.com/photo-1469474968028-56623f02e42e?w=800&q=80"
     false "sample-2.jpg";
   Page.mkPhoto "demo-2"
     "https://images.unsplash.com/photo-1426604966848-d7adac402bff?w=800&q=80"
     false "sample-3.jpg";
   Page.mkPhoto "demo-3"
     "https://images.unsplash.com/photo-1501785888041-af3ef285b470?w=800&q=80"
     false "sample-4.jpg";
   Page.mkPhoto "demo-4"
     "https://images.unsplash.com/photo-1472214103451-9374bd1c798e?w=800&q=80"
     false "sample-5.jpg"]%string.

(** A demo session that has just started: the page calibrates, the hook is
    fresh. *)
Definition calibrationStart : Page.System :=
  {| Page.page :=
       Page.syncRefs (Page.startSession true demoPhotos Page.initialPage);
     Page.hook := Hook.initial |}.

(** Three blinks with the head upright: open, closed, closed, three
    times over, 200 ms apart. *)
Definition threeBlinks : list Measurement :=
  [frame 0.3 0 1000; frame 0.05 0 1200; frame 0.05 0 1400;
   frame 0.3 0 1600; frame 0.05 0 1800; frame 0.05 0 2000;
   frame 0.3 0 2200; frame 0.05 0 2400; frame 0.05 0 2600].

(** The session after its first eight frames: two blinks are counted. *)
Definition afterTwoBlinks : Page.System :=
  session (firstn 8 threeBlinks) calibrationStart.

(** A review of three photos, the second one shown, calibration over. *)
Definition reviewing : Page.System :=
  {| Page.page :=
       Page.syncRefs
         (Page.mkPage Page.review
            [Page.mkPhoto "a" "blob:a" false "a.jpg";
             Page.mkPhoto "b" "blob:b" false "b.jpg";
             Page.mkPhoto "c" "blob:c" false "c.jpg"]%string
            1 false 0 false None false Page.review 1 3);
     Page.hook := Hook.initial |}.

End Scenario.

(** ** Runs of the frame callback *)

Module Frames.

Import Geometry Hook Scenario.

(** What the face mesh hands to the callback, with the clock reading. *)
Definition Results : Type := (option (list (list Landmark)) * Z)%type.

(** Successive calls of [onResults]. *)
Definition runResults (atan2_approx : float -> float -> float) {H}
  (a : Args H) : list Results -> Instance -> Instance * list (list Callback) :=
  runWith (fun f => onResults atan2_approx a (fst f) (snd f)).

(** Every sample of a run is low. *)
Definition allLow {H} (a : Args H) (fs : list Sample) : bool :=
  forallb (fun f => isLow a (fst f)) fs.

(** The closure is held: the latch is set and a low frame was counted. *)
Definition held (r : Refs) : bool :=
  isBlinkingRef r && (1 <=? consecutiveLowEARRef r)%nat.

(** The indicator shown to the user agrees with the latch, and the latch
    with the counter. *)
Definition indicatorInv (i : Instance) : Prop :=
  isBlinkingRef (refs i) = (2 <=? consecutiveLowEARRef (refs i))%nat /\
  (isBlinking (state i) = true -> isBlinkingRef (refs i) = true).

(** The eye aspect ratio the callback averages from a face, when all
    twelve eye landmarks are there. *)
Definition faceEAR (face : list Landmark) : option float :=
  match calculateEAR (Some (eyeOf face LEFT_EYE_INDICES)),
        calculateEAR (Some (eyeOf face RIGHT_EYE_INDICES)) with
  | Return l, Return r => Some ((l + r) / 2)%float
  | _, _ => None
  end.

End Frames.

(** ** Built-ins of the language used on integers and strings *)

Module Js.

Import String.
Local Open Scope string_scope.

(** [n.toString()] and [`${n}`] for an integral number: its decimal
    digits, with a minus sign when negative. *)
Definition toString (n : Z) : string :=
  DecimalString.NilZero.string_of_int (Z.to_int n).

(** [(bytes / 1024 / 1024 / 1024).toFixed(2)] for a non-negative integral
    number of bytes below 2^53.  The three divisions by a power of two are
    exact in binary64, and [toFixed(2)] takes the integer [n] for which
    [n / 100] is nearest to the exact value, the larger one on a tie; it
    prints [n] with a point before its last two digits. *)
Definition gigabytesToFixed2 (bytes : Z) : string :=
  let n := ((200 * bytes + 2 ^ 30) / 2 ^ 31)%Z in
  let frac := (n mod 100)%Z in
  toString (n / 100) ++ "."
  ++ (if (frac <? 10)%Z then "0" else "") ++ toString frac.

End Js.

(** ** The page beyond the gestures: keys, buttons, restart *)

Module App.

Import Hook Page Scenario.
Import String.

(** The page with the [useState] cells the gesture handlers do not touch,
    lines 53-56. *)
Record App : Type := mkApp {
  sys : System;
  isDemoMode : bool;
  emailSent : bool;
  uploadError : option string
}.

Definition withSys (f : System -> System) (a : App) : App :=
  mkApp (f (sys a)) (isDemoMode a) (emailSent a) (uploadError a).
Definition withPage (f : Page -> Page) : App -> App :=
  withSys (fun s => {| page := f (page s); hook := hook s |}).
Definition withHook (f : Instance -> Instance) : App -> App :=
  withSys (fun s => {| page := page s; hook := f (hook s) |}).

(** [stopDetection], lines 1129-1159, on the state of the hook (the camera,
    the face mesh and the animation frame apart).  The refs of the
    classifiers are not touched. *)
Definition stopDetection (i : Instance) : Instance :=
  {| refs := refs i; state := stopped (state i) |}.

(** [photos.length], as a number. *)
Definition len (p : Page) : Z := Z.of_nat (List.length (photos p)).

(** [handleStartOver], lines 357-366. *)
Definition handleStartOver (a : App) : App :=
  let h := stopDetection (hook (sys a)) in
  let p := set_photos [] (page (sys a)) in
  let p := set_currentIndex 0 p in
  let p := set_appState hero p in
  let h := resetBlinkCount h in
  mkApp {| page := p; hook := h |} false false None.

(** The [keydown] listener, lines 369-408, on the key's name. *)
Definition handleKeyDown (key : string) (a : App) : App :=
  let p := page (sys a) in
  if negb (match appState p with review | demo => true | _ => false end)
  then a
  else if isCalibrating p then a
  else if (key =? "ArrowLeft")%string then
    if (currentIndex p >? 0)%Z
    then withPage (set_currentIndex (currentIndex p - 1)%Z) a
    else a
  else if (key =? "ArrowRight")%string then
    if (currentIndex p <? len p - 1)%Z
    then withPage (set_currentIndex (currentIndex p + 1)%Z) a
    else if (currentIndex p =? len p - 1)%Z
    then withHook stopDetection (withPage (set_appState results) a)
    else a
  else if ((key =? " ") || (key =? "d") || (key =? "D"))%string then
    if (len p >? 0)%Z && (currentIndex p <? len p)%Z
    then withPage (set_photos (toggleAt 0 (currentIndex p) (photos p))) a
    else a
  else if (key =? "Escape")%string then handleStartOver a
  else a.

(** [handleNextPhoto] and [handlePrevPhoto], lines 494-508. *)
Definition handleNextPhoto (a : App) : App :=
  let p := page (sys a) in
  if (currentIndex p <? len p - 1)%Z
  then withPage (set_currentIndex (currentIndex p + 1)%Z) a
  else withHook stopDetection (withPage (set_appState results) a).

Definition handlePrevPhoto (a : App) : App :=
  let p := page (sys a) in
  if (currentIndex p >? 0)%Z
  then withPage (set_currentIndex (currentIndex p - 1)%Z) a
  else a.

(** The button that marks or unmarks the photo shown, lines 832-836. *)
Definition markButton (a : App) : App :=
  let p := page (sys a) in
  withPage (set_photos (toggleAt 0 (currentIndex p) (photos p))) a.

(** The button that skips calibration, lines 769-773. *)
Definition skipCalibration (a : App) : App :=
  withPage (fun p =>
    mkPage (appState p) (photos p) (currentIndex p) false 0
      (showFlash p) (showTiltFlash p) false (appStateRef p)
      (currentIndexRef p) (photosLengthRef p)) a.

(** The state changes of [handleStartDemo], lines 410-430 (the start of
    the camera apart). *)
Definition handleStartDemo (a : App) : App :=
  mkApp {| page := startSession true demoPhotos (page (sys a));
           hook := hook (sys a) |}
        true (emailSent a) (uploadError a).

(** A file of the file input: its name, its size in bytes, and the object
    URL the browser makes for it. *)
Record UploadFile : Type := mkUploadFile {
  name : string;
  size : Z;
  objectURL : string
}.

(** 1GB max upload size, line 35. *)
Definition MAX_UPLOAD_SIZE : Z := 1024 * 1024 * 1024.

(** [files.map((file, i) => ({ id: `photo-${Date.now()}-${i}`, ... }))],
    lines 447-453; [clock i] is what [Date.now()] returns for file [i]. *)
Fixpoint newPhotos (clock : nat -> Z) (i : nat) (files : list UploadFile)
  : list PhotoItem :=
  match files with
  | [] => []
  | file :: rest =>
      mkPhoto ("photo-" ++ Js.toString (clock i) ++ "-"
               ++ Js.toString (Z.of_nat i))%string
              (objectURL file) false (name file)
      :: newPhotos clock (S i) rest
  end.

(** [handleFileUpload], lines 432-464 (the start of the camera apart).
    [files] is [None] when the input has no file list. *)
Definition handleFileUpload (files : option (list UploadFile))
  (clock : nat -> Z) (a : App) : App :=
  match files with
  | None | Some [] => a
  | Some files =>
      let totalSize := fold_left (fun sum file => (sum + size file)%Z) files 0%Z in
      if (totalSize >? MAX_UPLOAD_SIZE)%Z
      then mkApp (sys a) (isDemoMode a) (emailSent a)
             (Some ("Total file size (" ++ Js.gigabytesToFixed2 totalSize
                    ++ "GB) exceeds 1GB limit")%string)
      else
        mkApp {| page := startSession false (newPhotos clock 0 files)
                           (page (sys a));
                 hook := hook (sys a) |}
              false (emailSent a) None
  end.

(** The effect on entering [results], lines 347-355 (the mail apart). *)
Definition resultsEffect (a : App) : App :=
  match appState (page (sys a)) with
  | results => withHook stopDetection a
  | _ => a
  end.

(** One render of the page with all its effects, and the renders an
    event causes. *)
Definition commitApp (a : App) : App := resultsEffect (withSys commit a).
Definition settleApp (a : App) : App := commitApp (commitApp a).

(** What can happen to the page: a frame of the face mesh, a frame given
    by its two measured scalars, a key, a button, an upload. *)
Inductive Event : Type :=
| Results (atan2_approx : float -> float -> float)
    (multiFaceLandmarks : option (list (list Geometry.Landmark))) (now : Z)
| Frame (avgEAR tiltAngle : float) (now : Z)
| Key (key : string)
| NextButton
| PrevButton
| MarkButton
| SkipButton
| StartOverButton
| StartDemoButton
| Upload (files : option (list UploadFile)) (clock : nat -> Z).

Definition step (a : App) (e : Event) : App :=
  settleApp
    match e with
    | Results atan2_approx multiFaceLandmarks now =>
        withSys (onFrame atan2_approx multiFaceLandmarks now) a
    | Frame avgEAR tiltAngle now => withSys (onMeasurement avgEAR tiltAngle now) a
    | Key key => handleKeyDown key a
    | NextButton => handleNextPhoto a
    | PrevButton => handlePrevPhoto a
    | MarkButton => markButton a
    | SkipButton => skipCalibration a
    | StartOverButton => handleStartOver a
    | StartDemoButton => handleStartDemo a
    | Upload files clock => handleFileUpload files clock a
    end.

Definition run (events : list Event) (a : App) : App :=
  fold_left step events a.

(** The names of the keys the listener knows. *)
Definition arrowLeft : string := "ArrowLeft".
Definition arrowRight : string := "ArrowRight".
Definition space : string := " ".
Definition lowerD : string := "d".
Definition upperD : string := "D".
Definition escape : string := "Escape".

(** A review at its last photo, the hook one frame away from confirming a
    left tilt. *)
Definition atLastPhoto : App :=
  mkApp {| page :=
             syncRefs (set_currentIndex 2 (page reviewing));
           hook := fst (runTilt hookArgs (steady (-20) 1000 3) Hook.initial) |}
        false false None.

(** The page as it is mounted. *)
Definition initialApp : App :=
  mkApp {| page := initialPage; hook := Hook.initial |} false false None.

(** The refs mirror the state. *)
Definition synced (p : Page) : Prop :=
  isCalibrationRef p = isCalibrating p /\
  appStateRef p = appState p /\
  currentIndexRef p = currentIndex p /\
  photosLengthRef p = len p.

(** The index points at a photo, or is 0 when there is none. *)
Definition indexOk (p : Page) : Prop :=
  (0 <= currentIndex p <= Z.max 0 (len p - 1))%Z.

(** The marks of the photos, in order. *)
Definition marks (p : Page) : list bool := map marked (photos p).

(** The page is in a review, of uploaded or of demo photos. *)
Definition reviewingNow (p : Page) : bool :=
  match appState p with review | demo => true | _ => false end.

(** The events that come from the face mesh. *)
Definition isFrame (e : Event) : bool :=
  match e with
  | Results _ _ _ | Frame _ _ _ => true
  | _ => false
  end.

End App.

(** ** The mail of a session: names, counts, and the route that sends it *)

Module Mail.

Import Page App.
Import Ascii String.
Local Open Scope string_scope.

(** *** On the page *)

Fixpoint hasDot (s : string) : bool :=
  match s with
  | EmptyString => false
  | String c rest => Ascii.eqb c "."%char || hasDot rest
  end.

(** [name.replace(/\.[^.]+$/, ".jpg")], line 290: the leftmost place where
    a dot is followed by one character or more, none of them a dot, up to
    the end of the string, is replaced from the dot on. *)
Fixpoint replaceExtension (s : string) : string :=
  match s with
  | EmptyString => EmptyString
  | String c rest =>
      if Ascii.eqb c "."%char && negb (rest =? "") && negb (hasDot rest)
      then ".jpg"
      else String c (replaceExtension rest)
  end.

(** The name of a photo in the compressed zip, line 290, and in the zip of
    originals, lines 254 and 260. *)
Definition compressedName (p : PhotoItem) : string :=
  let renamed := replaceExtension (originalName p) in
  if renamed =? "" then id p ++ ".jpg" else renamed.

Definition zipName (p : PhotoItem) : string :=
  if originalName p =? "" then id p ++ ".jpg" else originalName p.

(** [markedCount] and [keptCount] as the page shows them, lines 510-511. *)
Definition markedCount (p : Page) : Z :=
  Z.of_nat (List.length (filter marked (photos p))).
Definition keptCount (p : Page) : Z :=
  (Z.of_nat (List.length (photos p)) - markedCount p)%Z.

(** A value of the form data: a zip, named by the photos it is made of and
    its file name, or a string. *)
Inductive FormValue : Type :=
| FormZip (photos : list PhotoItem) (filename : string)
| FormText (text : string).

(** The form data [handleSendEmail] posts, lines 298-335, and [None] when
    it posts nothing. *)
Definition sendEmailForm (a : App) : option (list (string * FormValue)) :=
  if isDemoMode a then None
  else
    let photos := photos (page (sys a)) in
    if (List.length photos =? 0)%nat then None
    else
      let keptPhotos := filter (fun p => negb (marked p)) photos in
      let deletedPhotos := filter (fun p => marked p) photos in
      Some
        ((if (0 <? List.length keptPhotos)%nat
          then [("keptZip", FormZip keptPhotos "kept.zip")] else [])
         ++ (if (0 <? List.length deletedPhotos)%nat
             then [("deletedZip", FormZip deletedPhotos "deleted.zip")]
             else [])
         ++ [("keptCount",
              FormText (Js.toString (Z.of_nat (List.length keptPhotos))));
             ("deletedCount",
              FormText (Js.toString (Z.of_nat (List.length deletedPhotos))));
             ("totalCount",
              FormText (Js.toString (Z.of_nat (List.length photos))))])%list.

(** [formData.get(key)]: the first value under the key. *)
Fixpoint formGet {V : Type} (key : string) (form : list (string * V))
  : option V :=
  match form with
  | [] => None
  | (k, v) :: rest => if k =? key then Some v else formGet key rest
  end.

(** The photos of the zip under a key, none when the key is absent. *)
Definition zipPhotos (key : string) (form : list (string * FormValue))
  : list PhotoItem :=
  match formGet key form with
  | Some (FormZip ps _) => ps
  | _ => []
  end.

(** *** On the server: [POST] of [api/blink-delete-email/route.ts] *)

(** Maximum attachment size, line 5. *)
Definition MAX_ATTACHMENT_SIZE : Z := 40 * 1024 * 1024.

(** An uploaded file by its size in bytes (its bytes are passed on as they
    are). *)
Record File : Type := mkFile { fileSize : Z }.

(** An entry of the posted form: a file or a string. *)
Inductive Entry : Type :=
| EFile (f : File)
| EText (s : string).

(** What the handler reads: three environment variables, the posted form
    ([None] when reading it fails), and the two readings of [Date.now()]
    for the file names. *)
Record Request : Type := mkRequest {
  RESEND_API_KEY : option string;
  EMAIL_NAME : option string;
  FROM_EMAIL : option string;
  formData : option (list (string * Entry));
  nowKept : Z;
  nowDeleted : Z
}.

Record Attachment : Type := mkAttachment {
  filename : string;
  content : File
}.

(** The part of the HTML body under "Attachments": the list of the files,
    or the paragraph "Attachments were too large to include. Total size
    exceeded 40MB limit." *)
Inductive AttachmentsSection : Type :=
| Listing (files : list Attachment)
| TooLargeNotice.

(** The argument of [resend.emails.send], lines 57-108 (subject and the
    rest of the HTML body apart). *)
Record Email : Type := mkEmail {
  from : string;
  to : list string;
  attachmentsSection : AttachmentsSection;
  attachments : option (list Attachment)
}.

Record Response : Type := mkResponse { message : string; status : Z }.

(** [x || fallback] on an environment variable: unset and empty are
    falsy. *)
Definition orElse (x : option string) (fallback : string) : string :=
  match x with
  | Some s => if s =? "" then fallback else s
  | None => fallback
  end.

(** [zip && zip.size > 0 && zip.size <= MAX_ATTACHMENT_SIZE], lines 28 and
    38-42, on what [formData.get] returned; a string has no [size]. *)
Definition attachable (e : option Entry) : option File :=
  match e with
  | Some (EFile f) =>
      if (fileSize f >? 0)%Z && (fileSize f <=? MAX_ATTACHMENT_SIZE)%Z
      then Some f else None
  | _ => None
  end.

(** The attachments gathered before the check of the total, lines 25-47. *)
Definition gathered (r : Request) (form : list (string * Entry))
  : list Attachment :=
  (match attachable (formGet "keptZip" form) with
   | Some f => [mkAttachment ("blink-delete-kept-" ++ Js.toString (nowKept r)
                              ++ ".zip") f]
   | None => []
   end
   ++
   match attachable (formGet "deletedZip" form) with
   | Some f => [mkAttachment ("blink-delete-deleted-"
                              ++ Js.toString (nowDeleted r) ++ ".zip") f]
   | None => []
   end)%list.

Definition totalSize (l : list Attachment) : Z :=
  fold_left (fun sum a => (sum + fileSize (content a))%Z) l 0%Z.

(** [POST], lines 7-120: the response, and the mail handed to Resend when
    one is.  Whether Resend then fails makes no difference to either: the
    [catch] answers as the success path does. *)
Definition POST (r : Request) : Response * option Email :=
  match RESEND_API_KEY r with
  | None | Some "" =>
      (mkResponse "Email disabled (no RESEND_API_KEY)" 200, None)
  | Some _ =>
      match formData r with
      | None => (mkResponse "Email sent successfully" 200, None)
      | Some form =>
          let attachments := gathered r form in
          let attachments :=
            if (totalSize attachments >? MAX_ATTACHMENT_SIZE)%Z
            then [] else attachments in
          let emailDestination := orElse (EMAIL_NAME r) "lawrencehua2@gmail.com" in
          (mkResponse "Email sent successfully" 200,
           Some (mkEmail
                   ("Blink Delete <"
                    ++ orElse (FROM_EMAIL r) "noreply@lawrencehua.com" ++ ">")
                   [emailDestination]
                   (if (0 <? List.length attachments)%nat
                    then Listing attachments else TooLargeNotice)
                   (if (0 <? List.length attachments)%nat
                    then Some attachments else None)))
      end
  end.

(** A request with a kept zip of 1000 bytes and an empty deleted zip, and
    the mail it leads to. *)
Definition smallRequest : Request :=
  mkRequest (Some "re_key") None None
    (Some [("keptZip", EFile (mkFile 1000));
           ("deletedZip", EFile (mkFile 0));
           ("keptCount", EText "3")])
    1700000000000 1700000000001.

Definition smallMail : Email :=
  mkEmail "Blink Delete <noreply@lawrencehua.com>" ["lawrencehua2@gmail.com"]
    (Listing [mkAttachment "blink-delete-kept-1700000000000.zip" (mkFile 1000)])
    (Some [mkAttachment "blink-delete-kept-1700000000000.zip" (mkFile 1000)]).

End Mail.

(** ** Images for the mail *)

Module Images.

Import String.

(** A blob by its size in bytes and its type. *)
Record Blob : Type := mkBlob { blobSize : Z; blobType : string }.

(** What the browser makes of the image: it fails to load it
    ([img.onerror]), or it loads it with a width and a height; then the
    canvas has a 2d context or not, and [canvas.toBlob], for a canvas of
    the size it was given, a type and a quality, calls back with a blob or
    with [null]. *)
Inductive Image : Type :=
| LoadError
| Loaded (width height : float) (hasContext : bool)
    (toBlob : float -> float -> string -> float -> option Blob).

(** [compressImage(blob, maxWidth, quality)], lines 199-242: the blob the
    promise resolves with. *)
Definition compressImage (blob : Blob) (maxWidth quality : float)
  (img : Image) : Blob :=
  match img with
  | LoadError => blob
  | Loaded width height hasContext toBlob =>
      let '(width, height) :=
        if (maxWidth <? width)%float
        then (maxWidth, (height * maxWidth / width)%float)
        else (width, height) in
      if negb hasContext then blob
      else
        match toBlob width height "image/jpeg"%string quality with
        | Some compressedBlob =>
            if (blobSize compressedBlob <? blobSize blob)%Z
            then compressedBlob else blob
        | None => blob
        end
  end.

End Images.

(** ** Landmark geometry: what the two functions return *)

Import Geometry Hook Page Scenario.




(** On its axes [Math.atan2] does not consult the engine's approximation. *)
Lemma calculateHeadTilt_axes : forall f g landmarks,
  match ears landmarks with
  | Some (l, r) =>
      isZero (y r - y l) || isZero (x r - x l) = true
  | None => True
  end ->
  calculateHeadTilt f landmarks = calculateHeadTilt g landmarks.
Proof.
  intros f g landmarks. unfold ears, calculateHeadTilt.
  destruct (nth_error landmarks LEFT_EAR) as [l|]; [|reflexivity].
  destruct (nth_error landmarks RIGHT_EAR) as [r|]; [|reflexivity].
  unfold isZero, Math_atan2.
  destruct (PrimFloat.classify (y r - y l));
    destruct (PrimFloat.classify (x r - x l));
    simpl; intros E; try reflexivity; discriminate E.
Qed.

(** C9, as the code has it.  When an ear landmark is absent, or when the
    vertical delta of the ears is zero and their horizontal delta is [+0]
    or positive, [calculateHeadTilt] returns zero. *)
Theorem calculateHeadTilt_level : forall atan2_approx landmarks,
  earsAbsentOrLevel landmarks = true ->
  (calculateHeadTilt atan2_approx landmarks =? 0)%float = true.
Proof.
  intros f landmarks. unfold earsAbsentOrLevel, ears, calculateHeadTilt.
  destruct (nth_error landmarks LEFT_EAR) as [l|]; [|reflexivity].
  destruct (nth_error landmarks RIGHT_EAR) as [r|]; [|reflexivity].
  unfold isZero, isPlusZeroOrPositive, Math_atan2.
  destruct (PrimFloat.classify (y r - y l));
    destruct (PrimFloat.classify (x r - x l));
    simpl; intros E; try discriminate E; reflexivity.
Qed.

Lemma calculateHeadTilt_level_witness :
  earsAbsentOrLevel earsLevel = true /\
  earsAbsentOrLevel [] = true /\
  (calculateHeadTilt (fun _ _ => nan) earsLevel =? 0)%float = true.
Proof.
  split; [reflexivity|]. split; [reflexivity|].
  apply (calculateHeadTilt_level (fun _ _ => nan) earsLevel). reflexivity.
Defined.

(** C9, as the claim has it, fails.  With the ears one above the other the
    horizontal delta is zero and the angle is 90 degrees; with the right
    ear to the left of the left ear the vertical delta is zero and the
    angle is 180 degrees. *)
Lemma calculateHeadTilt_zero_delta_counterexample :
  (match ears earsVertical with
   | Some (l, r) => (x r - x l =? 0)%float
   | None => false
   end = true /\
   forall atan2_approx,
     calculateHeadTilt atan2_approx earsVertical = 90%float) /\
  (match ears earsMirrored with
   | Some (l, r) => (y r - y l =? 0)%float
   | None => false
   end = true /\
   forall atan2_approx,
     calculateHeadTilt atan2_approx earsMirrored = 180%float).
Proof.
  split; (split; [vm_compute; reflexivity|]); intros f.
  - rewrite (calculateHeadTilt_axes f (fun _ _ => nan)) by reflexivity.
    vm_compute. reflexivity.
  - rewrite (calculateHeadTilt_axes f (fun _ _ => nan)) by reflexivity.
    vm_compute. reflexivity.
Qed.

(** ** Frames without a face *)

(** C10.  On a frame without face landmarks neither classifier runs: no
    call site is reached, every ref keeps its value, and of the exposed
    state only [faceDetected] changes, to [false]. *)
Theorem onResults_no_face :
  forall atan2_approx (H : Type) (a : Args H) m now i,
  noFace m = true ->
  let r := onResults atan2_approx a m now i in
  snd r = [] /\
  refs (fst r) = refs i /\
  faceDetected (state (fst r)) = false /\
  isInitialized (state (fst r)) = isInitialized (state i) /\
  isLoading (state (fst r)) = isLoading (state i) /\
  error (state (fst r)) = error (state i) /\
  blinkCount (state (fst r)) = blinkCount (state i) /\
  isBlinking (state (fst r)) = isBlinking (state i) /\
  lastBlinkTime (state (fst r)) = lastBlinkTime (state i) /\
  headTilt (state (fst r)) = headTilt (state i).
Proof.
  intros f H a m now i Hm.
  destruct m as [[|face faces]|]; try discriminate Hm;
    cbn; repeat split; reflexivity.
Qed.

Lemma onResults_no_face_witness :
  noFace (Some []) = true /\
  let r := onResults (fun _ _ => nan) hookArgs (Some []) 6000 midSession in
  snd r = [] /\
  refs (fst r) = refs midSession /\
  faceDetected (state (fst r)) = false /\
  blinkCount (state (fst r)) = 7%nat /\
  headTilt (state (fst r)) = TiltRight.
Proof.
  split; [reflexivity|].
  pose proof (onResults_no_face (fun _ _ => nan) hookArgs (Some []) 6000
                midSession eq_refl) as W.
  cbv zeta in W. intuition.
Defined.

(** ** The tilt classifier *)

Section TiltClassifier.

Variable H : Type.
Variable a : Args H.

(** What one evaluation does to the refs, and which call site it reaches. *)
Lemma tiltDetection_refs : forall tiltAngle now i,
  let d := detectTilt a tiltAngle in
  let r := refs i in
  let fire := fires a d now r in
  refs (fst (tiltDetection a tiltAngle now i)) =
    mkRefs (lastBlinkTimeRef r)
      (if fire then now else lastTiltTimeRef r)
      (isBlinkingRef r) (eyeOpenSinceRef r) (consecutiveLowEARRef r)
      (nextCount d r) d
      (if fire then true
       else if Tilt_eqb d TiltNeutral && negb (wasNeutralRef r) then false
            else hasFiredTiltRef r)
      (if fire then false
       else if Tilt_eqb d TiltNeutral then true else wasNeutralRef r) /\
  snd (tiltDetection a tiltAngle now i) = if fire then callOf d else [].
Proof.
  intros tiltAngle now [[bt tt ib eo cl ct ld hf wn] s].
  unfold tiltDetection, fires, nextCount.
  destruct (detectTilt a tiltAngle), ld, hf, wn;
    cbn -[Nat.leb Z.gtb Z.sub];
    try (split; reflexivity);
    destruct (3 <=? S ct)%nat; cbn -[Z.gtb Z.sub];
    try (split; reflexivity);
    destruct (now - tt >? tiltDebounceMs a)%Z; cbn; split; reflexivity.
Qed.

(** The direction shown to the user after one evaluation. *)
Lemma tiltDetection_headTilt : forall tiltAngle now i,
  let d := detectTilt a tiltAngle in
  headTilt (state (fst (tiltDetection a tiltAngle now i))) =
    if Tilt_eqb d TiltNeutral then TiltNeutral
    else if (3 <=? nextCount d (refs i))%nat then d
         else headTilt (state i).
Proof.
  intros tiltAngle now [[bt tt ib eo cl ct ld hf wn] [ii il er bc bl lb fd ht]].
  unfold tiltDetection, nextCount.
  destruct (detectTilt a tiltAngle), ld, hf, wn, ht;
    cbn -[Nat.leb Z.gtb Z.sub];
    try reflexivity;
    destruct (3 <=? S ct)%nat; cbn -[Z.gtb Z.sub];
    try reflexivity;
    destruct (now - tt >? tiltDebounceMs a)%Z; reflexivity.
Qed.

Lemma runTilt_cons : forall f fs i,
  runTilt a (f :: fs) i =
    (fst (runTilt a fs (fst (tiltDetection a (fst f) (snd f) i))),
     snd (tiltDetection a (fst f) (snd f) i)
       :: snd (runTilt a fs (fst (tiltDetection a (fst f) (snd f) i)))).
Proof.
  intros f fs i. unfold runTilt. cbn [runWith].
  destruct (tiltDetection a (fst f) (snd f) i) as [i1 c]. cbn [fst snd].
  match goal with |- context [runWith ?s fs i1] => destruct (runWith s fs i1) end.
  reflexivity.
Qed.

Lemma tiltEvents_cons : forall c cs,
  tiltEvents (c :: cs) = (tiltEvents [c] + tiltEvents cs)%nat.
Proof.
  intros c cs. unfold tiltEvents, count. cbn [concat].
  rewrite app_nil_r, !filter_app, !length_app. lia.
Qed.

Lemma tiltEvents_callOf : forall d,
  tiltEvents [callOf d] = if Tilt_eqb d TiltNeutral then 0%nat else 1%nat.
Proof. intros []; reflexivity. Qed.

(** Away from neutral a closed latch stays closed and nothing fires. *)
Lemma disarmed_run_silent : forall fs i,
  forallb (nonNeutral a) fs = true ->
  armed (refs i) = false ->
  tiltEvents (snd (runTilt a fs i)) = 0%nat.
Proof.
  induction fs as [|f fs IH]; intros i Hfs Hi; [reflexivity|].
  cbn [forallb] in Hfs. apply andb_prop in Hfs as [Hf Hfs].
  rewrite runTilt_cons. cbn [snd]. rewrite tiltEvents_cons.
  destruct (tiltDetection_refs (fst f) (snd f) i) as [Hr Hc].
  cbv zeta in Hr, Hc.
  assert (Hfire : fires a (detectTilt a (fst f)) (snd f) (refs i) = false).
  { unfold fires. unfold armed in Hi.
    rewrite <- !andb_assoc. rewrite (andb_assoc (negb (hasFiredTiltRef _))).
    rewrite Hi. rewrite andb_false_l, !andb_false_r. reflexivity. }
  rewrite Hfire in Hr, Hc. rewrite Hc.
  rewrite IH; [reflexivity|assumption|].
  rewrite Hr. unfold nonNeutral, direction in Hf.
  apply negb_true_iff in Hf. rewrite Hf. exact Hi.
Qed.

End TiltClassifier.

(** Away from neutral the latch only ever closes: a run fires once at most
    when it starts with the latch open, and not at all otherwise. *)
Lemma nonNeutral_run_events :
  forall (H : Type) (a : Args H) (fs : list Sample) (i : Instance),
  forallb (nonNeutral a) fs = true ->
  (tiltEvents (snd (runTilt a fs i)) <= if armed (refs i) then 1 else 0)%nat.
Proof.
  intros H a. induction fs as [|f fs IH]; intros i Hfs.
  - cbn. destruct (armed (refs i)); lia.
  - destruct (armed (refs i)) eqn:Harmed;
      [|rewrite disarmed_run_silent by assumption; lia].
    cbn [forallb] in Hfs. apply andb_prop in Hfs as [Hf Hfs].
    rewrite runTilt_cons. cbn [snd]. rewrite tiltEvents_cons.
    destruct (tiltDetection_refs a (fst f) (snd f) i) as [Hr Hc].
    cbv zeta in Hr, Hc.
    unfold nonNeutral, direction in Hf. apply negb_true_iff in Hf.
    specialize (IH (fst (tiltDetection a (fst f) (snd f) i)) Hfs).
    rewrite Hr in IH. unfold armed in IH. cbn in IH.
    destruct (fires a (detectTilt a (fst f)) (snd f) (refs i)) eqn:Hfire.
    + rewrite Hc, tiltEvents_callOf, Hf. cbn in IH. lia.
    + rewrite Hc. rewrite Hf in IH. cbn [andb] in IH.
      fold (armed (refs i)) in IH. rewrite Harmed in IH. cbn. exact IH.
Qed.

(** C3.  Over frames whose detected direction is never neutral the tilt
    classifier fires at most one tilt event, whatever the state it starts
    from, the directions, the timestamps and the number of frames. *)
Theorem tilt_fires_once_per_excursion :
  forall (H : Type) (a : Args H) (fs : list Sample) (i : Instance),
  forallb (nonNeutral a) fs = true ->
  (tiltEvents (snd (runTilt a fs i)) <= 1)%nat.
Proof.
  intros H a fs i Hfs.
  pose proof (nonNeutral_run_events a fs i Hfs) as Hle.
  destruct (armed (refs i)); lia.
Qed.

Lemma tilt_fires_once_per_excursion_witness :
  forallb (nonNeutral hookArgs) (steady 20 1000 20) = true /\
  (tiltEvents (snd (runTilt hookArgs (steady 20 1000 20) Hook.initial)) <= 1)%nat /\
  tiltEvents (snd (runTilt hookArgs (steady 20 1000 20) Hook.initial)) = 1%nat.
Proof.
  split; [reflexivity|]. split.
  - apply (tilt_fires_once_per_excursion hookArgs (steady 20 1000 20)
             Hook.initial). reflexivity.
  - reflexivity.
Defined.

(** Two tilt events in a run have a neutral frame in the run. *)
Corollary second_tilt_needs_neutral :
  forall (H : Type) (a : Args H) (fs : list Sample) (i : Instance),
  (2 <= tiltEvents (snd (runTilt a fs i)))%nat ->
  existsb (fun f => Tilt_eqb (direction a f) TiltNeutral) fs = true.
Proof.
  intros H a fs i Htwo.
  destruct (forallb (nonNeutral a) fs) eqn:Hall.
  - pose proof (nonNeutral_run_events a fs i Hall) as Hle.
    destruct (armed (refs i)); lia.
  - clear Htwo. induction fs as [|f fs IH]; [discriminate Hall|].
    cbn [forallb] in Hall. cbn [existsb].
    unfold nonNeutral at 1 in Hall.
    destruct (Tilt_eqb (direction a f) TiltNeutral); [reflexivity|].
    cbn in Hall |- *. auto.
Qed.

Section TiltRuns.

Variable H : Type.
Variable a : Args H.

Lemma Tilt_eqb_refl : forall d, Tilt_eqb d d = true.
Proof. intros []; reflexivity. Qed.

Lemma Tilt_eqb_eq : forall d e, Tilt_eqb d e = true -> d = e.
Proof. intros [] []; cbn; congruence. Qed.

Lemma count_cons : forall c x tr,
  count c (x :: tr) = (count c [x] + count c tr)%nat.
Proof.
  intros c x tr. unfold count. cbn [concat].
  rewrite app_nil_r, filter_app, length_app. reflexivity.
Qed.

Lemma runTilt_app : forall fs gs i,
  runTilt a (fs ++ gs) i =
    (fst (runTilt a gs (fst (runTilt a fs i))),
     snd (runTilt a fs i) ++ snd (runTilt a gs (fst (runTilt a fs i)))).
Proof.
  induction fs as [|f fs IH]; intros gs i.
  - cbn [app]. change (runTilt a [] i) with (i, @nil (list Callback)).
    cbn [fst snd app]. destruct (runTilt a gs i); reflexivity.
  - cbn [app]. rewrite !runTilt_cons, IH. reflexivity.
Qed.

(** A frame of a direction other than the one before starts the count
    at zero: the first frame of a run is not counted. *)
Lemma first_frame_counts_zero : forall f i d,
  direction a f = d ->
  Tilt_eqb d (lastTiltDirectionRef (refs i)) = false ->
  let i1 := fst (tiltDetection a (fst f) (snd f) i) in
  consecutiveTiltFramesRef (refs i1) = 0%nat /\
  lastTiltDirectionRef (refs i1) = d /\
  snd (tiltDetection a (fst f) (snd f) i) = [].
Proof.
  intros f i d Hd Hne. unfold direction in Hd.
  destruct (tiltDetection_refs a (fst f) (snd f) i) as [Hr Hc].
  cbv zeta in Hr, Hc |- *. rewrite Hd in Hr, Hc.
  assert (Hn : nextCount d (refs i) = 0%nat)
    by (unfold nextCount; rewrite Hne; reflexivity).
  assert (Hf : fires a d (snd f) (refs i) = false)
    by (unfold fires; rewrite Hn; reflexivity).
  rewrite Hf, Hn in Hr. rewrite Hf in Hc. rewrite Hr. auto.
Qed.

(** A frame of the direction of the one before adds one to the count. *)
Lemma next_frame_counts_up : forall f i d,
  direction a f = d ->
  Tilt_eqb d TiltNeutral = false ->
  lastTiltDirectionRef (refs i) = d ->
  let i1 := fst (tiltDetection a (fst f) (snd f) i) in
  consecutiveTiltFramesRef (refs i1) = S (consecutiveTiltFramesRef (refs i)) /\
  lastTiltDirectionRef (refs i1) = d.
Proof.
  intros f i d Hd Hnn Hl. unfold direction in Hd.
  destruct (tiltDetection_refs a (fst f) (snd f) i) as [Hr _].
  cbv zeta in Hr |- *. rewrite Hd in Hr. rewrite Hr. cbn.
  unfold nextCount. rewrite Hl, Tilt_eqb_refl, Hnn. auto.
Qed.

(** Below the count of three a frame away from neutral reaches no call
    site and leaves the displayed direction alone. *)
Lemma unconfirmed_frame_silent : forall f i d,
  direction a f = d ->
  Tilt_eqb d TiltNeutral = false ->
  (consecutiveTiltFramesRef (refs (fst (tiltDetection a (fst f) (snd f) i))) < 3)%nat ->
  snd (tiltDetection a (fst f) (snd f) i) = [] /\
  headTilt (state (fst (tiltDetection a (fst f) (snd f) i))) = headTilt (state i).
Proof.
  intros f i d Hd Hnn Hlt. unfold direction in Hd.
  destruct (tiltDetection_refs a (fst f) (snd f) i) as [Hr Hc].
  pose proof (tiltDetection_headTilt a (fst f) (snd f) i) as Hh.
  cbv zeta in Hr, Hc, Hh. rewrite Hd in Hr, Hc, Hh.
  rewrite Hr in Hlt. cbn in Hlt.
  assert (Hn : (3 <=? nextCount d (refs i))%nat = false)
    by (apply Nat.leb_gt; exact Hlt).
  rewrite Hh, Hnn, Hn. unfold fires in Hc. rewrite Hn in Hc. auto.
Qed.

End TiltRuns.

(** C1, as the code has it.  Three consecutive frames of one non-neutral
    direction that follow a frame of another direction (or none) do not
    confirm the direction: the counter stands at two, no call site is
    reached and the displayed direction is unchanged. *)
Theorem three_tilt_frames_not_confirmed :
  forall (H : Type) (a : Args H) (i : Instance) (f1 f2 f3 : Sample) (d : Tilt),
  Tilt_eqb d TiltNeutral = false ->
  allTilted a d [f1; f2; f3] = true ->
  Tilt_eqb d (lastTiltDirectionRef (refs i)) = false ->
  consecutiveTiltFramesRef (refs (fst (runTilt a [f1; f2; f3] i))) = 2%nat /\
  snd (runTilt a [f1; f2; f3] i) = [[]; []; []] /\
  headTilt (state (fst (runTilt a [f1; f2; f3] i))) = headTilt (state i).
Proof.
  intros H a i f1 f2 f3 d Hnn Hall Hne.
  unfold allTilted in Hall. cbn [forallb] in Hall.
  apply andb_prop in Hall as [H1 Hall]. apply andb_prop in Hall as [H2 Hall].
  apply andb_prop in Hall as [H3 _].
  apply Tilt_eqb_eq in H1, H2, H3.
  rewrite !runTilt_cons. cbn [fst snd runTilt runWith].
  set (i1 := fst (tiltDetection a (fst f1) (snd f1) i)).
  set (i2 := fst (tiltDetection a (fst f2) (snd f2) i1)).
  set (i3 := fst (tiltDetection a (fst f3) (snd f3) i2)).
  destruct (first_frame_counts_zero a f1 i H1 Hne) as (C1 & L1 & S1).
  fold i1 in C1, L1.
  destruct (next_frame_counts_up a f2 i1 H2 Hnn L1) as (C2 & L2).
  fold i2 in C2, L2. rewrite C1 in C2.
  destruct (next_frame_counts_up a f3 i2 H3 Hnn L2) as (C3 & L3).
  fold i3 in C3, L3. rewrite C2 in C3.
  assert (U1 : (consecutiveTiltFramesRef (refs i1) < 3)%nat) by lia.
  assert (U2 : (consecutiveTiltFramesRef (refs i2) < 3)%nat) by lia.
  assert (U3 : (consecutiveTiltFramesRef (refs i3) < 3)%nat) by lia.
  destruct (unconfirmed_frame_silent a f1 i H1 Hnn U1) as (Q1 & T1).
  destruct (unconfirmed_frame_silent a f2 i1 H2 Hnn U2) as (Q2 & T2).
  destruct (unconfirmed_frame_silent a f3 i2 H3 Hnn U3) as (Q3 & T3).
  fold i1 in T1. fold i2 in T2. fold i3 in T3.
  split; [exact C3|]. split.
  - rewrite Q1, Q2, Q3. reflexivity.
  - congruence.
Qed.

Lemma three_tilt_frames_not_confirmed_witness :
  Tilt_eqb TiltRight TiltNeutral = false /\
  allTilted hookArgs TiltRight (steady 20 1000 3) = true /\
  consecutiveTiltFramesRef
    (refs (fst (runTilt hookArgs (steady 20 1000 3) Hook.initial))) = 2%nat /\
  snd (runTilt hookArgs (steady 20 1000 3) Hook.initial) = [[]; []; []] /\
  headTilt (state (fst (runTilt hookArgs (steady 20 1000 3) Hook.initial)))
    = TiltNeutral.
Proof.
  split; [reflexivity|]. split; [reflexivity|].
  exact (@three_tilt_frames_not_confirmed _ hookArgs Hook.initial
           (20%float, 1000%Z) (20%float, 1050%Z) (20%float, 1100%Z)
           TiltRight eq_refl eq_refl eq_refl).
Defined.

(** The fourth frame is the one that confirms, and fires. *)
Example four_tilt_frames_confirm :
  snd (runTilt hookArgs (steady 20 1000 4) Hook.initial)
    = [[]; []; []; [OnTiltRight]] /\
  headTilt (state (fst (runTilt hookArgs (steady 20 1000 4) Hook.initial)))
    = TiltRight.
Proof. split; reflexivity. Qed.

Section TiltLatch.

Variable H : Type.
Variable a : Args H.

Lemma count_le_tiltEvents : forall tr,
  (count OnTiltRight tr <= tiltEvents tr)%nat.
Proof. intros tr. unfold tiltEvents. lia. Qed.

(** A fired event closes the latch and records its time. *)
Lemma fired_closes_latch : forall x now i c,
  snd (tiltDetection a x now i) = c :: nil ->
  hasFiredTiltRef (refs (fst (tiltDetection a x now i))) = true /\
  wasNeutralRef (refs (fst (tiltDetection a x now i))) = false /\
  lastTiltTimeRef (refs (fst (tiltDetection a x now i))) = now.
Proof.
  intros x now i c Hc.
  destruct (tiltDetection_refs a x now i) as [Hr Hs]. cbv zeta in Hr, Hs.
  destruct (fires a (detectTilt a x) now (refs i)).
  - rewrite Hr. auto.
  - rewrite Hs in Hc. discriminate Hc.
Qed.

(** A neutral frame opens the latch again, fires nothing and keeps the
    time of the last event. *)
Lemma neutral_frame_arms : forall f i,
  direction a f = TiltNeutral ->
  wasNeutralRef (refs i) = false \/ armed (refs i) = true ->
  armed (refs (fst (tiltDetection a (fst f) (snd f) i))) = true /\
  lastTiltTimeRef (refs (fst (tiltDetection a (fst f) (snd f) i)))
    = lastTiltTimeRef (refs i) /\
  snd (tiltDetection a (fst f) (snd f) i) = [].
Proof.
  intros f i Hd Hi. unfold direction in Hd.
  destruct (tiltDetection_refs a (fst f) (snd f) i) as [Hr Hs].
  cbv zeta in Hr, Hs. rewrite Hd in Hr, Hs.
  assert (Hf : fires a TiltNeutral (snd f) (refs i) = false)
    by (unfold fires; cbn; rewrite andb_false_r; reflexivity).
  rewrite Hf in Hr, Hs. rewrite Hr, Hs. unfold armed in *. cbn.
  destruct (hasFiredTiltRef (refs i)), (wasNeutralRef (refs i));
    cbn in *; auto; destruct Hi; discriminate.
Qed.

Lemma neutral_run_arms : forall ns i,
  allTilted a TiltNeutral ns = true ->
  armed (refs i) = true ->
  armed (refs (fst (runTilt a ns i))) = true /\
  lastTiltTimeRef (refs (fst (runTilt a ns i))) = lastTiltTimeRef (refs i) /\
  count OnTiltRight (snd (runTilt a ns i)) = 0%nat.
Proof.
  induction ns as [|f ns IH]; intros i Hns Hi; [auto|].
  unfold allTilted in Hns. cbn [forallb] in Hns.
  apply andb_prop in Hns as [Hf Hns]. apply Tilt_eqb_eq in Hf.
  destruct (neutral_frame_arms f i Hf (or_intror Hi)) as (A & T & S).
  rewrite runTilt_cons. cbn [fst snd]. rewrite count_cons, S.
  destruct (IH _ Hns A) as (A' & T' & S'). rewrite T', S'. auto.
Qed.

(** With the latch open, a run of right tilts whose last frame is
    confirmed and past the debounce fires exactly once. *)
Lemma armed_right_run_fires : forall gs f j,
  allTilted a TiltRight (gs ++ [f]) = true ->
  armed (refs j) = true ->
  (3 <= consecutiveTiltFramesRef (refs (fst (runTilt a (gs ++ [f]) j))))%nat ->
  (snd f - lastTiltTimeRef (refs j) > tiltDebounceMs a)%Z ->
  count OnTiltRight (snd (runTilt a (gs ++ [f]) j)) = 1%nat.
Proof.
  induction gs as [|g gs IH]; intros f j Hall Hj Hcnt Ht.
  - cbn [app] in *. unfold allTilted in Hall. cbn [forallb] in Hall.
    apply andb_prop in Hall as [Hf _]. apply Tilt_eqb_eq in Hf.
    unfold direction in Hf.
    rewrite runTilt_cons in Hcnt |- *. cbn [fst snd runTilt runWith] in Hcnt |- *.
    destruct (tiltDetection_refs a (fst f) (snd f) j) as [Hr Hs].
    cbv zeta in Hr, Hs. rewrite Hf in Hr, Hs.
    rewrite Hr in Hcnt. cbn in Hcnt.
    assert (Hfire : fires a TiltRight (snd f) (refs j) = true).
    { unfold fires. unfold armed in Hj. apply andb_prop in Hj as [Hh Hw].
      rewrite Hh, Hw. apply Nat.leb_le in Hcnt. rewrite Hcnt.
      apply Z.gtb_gt in Ht. rewrite Ht. reflexivity. }
    rewrite Hs, Hfire. reflexivity.
  - cbn [app] in *. pose proof Hall as Hall'.
    unfold allTilted in Hall. cbn [forallb] in Hall.
    apply andb_prop in Hall as [Hg Hrest]. apply Tilt_eqb_eq in Hg.
    unfold direction in Hg.
    rewrite runTilt_cons in Hcnt |- *. cbn [fst snd] in Hcnt |- *.
    rewrite count_cons.
    destruct (tiltDetection_refs a (fst g) (snd g) j) as [Hr Hs].
    cbv zeta in Hr, Hs. rewrite Hg in Hr, Hs.
    destruct (fires a TiltRight (snd g) (refs j)) eqn:Hfire.
    + rewrite Hs. cbn [callOf].
      assert (Hz : tiltEvents
                (snd (runTilt a (gs ++ [f])
                        (fst (tiltDetection a (fst g) (snd g) j)))) = 0%nat).
      { apply disarmed_run_silent.
        - unfold nonNeutral. clear - Hrest.
          induction (gs ++ [f]) as [|e l IHl]; [reflexivity|].
          cbn [forallb] in *. apply andb_prop in Hrest as [He Hl].
          apply Tilt_eqb_eq in He. rewrite He, IHl by assumption. reflexivity.
        - rewrite Hr. reflexivity. }
      pose proof (count_le_tiltEvents
                    (snd (runTilt a (gs ++ [f])
                            (fst (tiltDetection a (fst g) (snd g) j))))).
      replace (count OnTiltRight [[OnTiltRight]]) with 1%nat by reflexivity.
      lia.
    + rewrite Hs. replace (count OnTiltRight [[]]) with 0%nat by reflexivity.
      cbn [Nat.add]. apply IH; try assumption.
      * rewrite Hr. exact Hj.
      * rewrite Hr. cbn. exact Ht.
Qed.

End TiltLatch.

(** C4, as the code has it.  After a right-tilt event has fired at [t0],
    at least one neutral frame followed by consecutive right tilts, the
    last of which is confirmed by the run-length counter and comes more
    than [tiltDebounceMs] after [t0], makes exactly one more right-tilt
    event fire. *)
Theorem tilt_refires_after_neutral :
  forall (H : Type) (a : Args H) (i0 : Instance) (x0 : float) (t0 : Z)
         (ns rs : list Sample) (f : Sample),
  snd (tiltDetection a x0 t0 i0) = [OnTiltRight] ->
  nonEmpty ns = true ->
  allTilted a TiltNeutral ns = true ->
  allTilted a TiltRight (rs ++ [f]) = true ->
  (3 <= consecutiveTiltFramesRef
          (refs (fst (runTilt a (ns ++ rs ++ [f])
                        (fst (tiltDetection a x0 t0 i0))))))%nat ->
  (snd f - t0 > tiltDebounceMs a)%Z ->
  count OnTiltRight
    (snd (runTilt a (ns ++ rs ++ [f]) (fst (tiltDetection a x0 t0 i0))))
  = 1%nat.
Proof.
  intros H a i0 x0 t0 ns rs f Hfired Hne Hns Hrs Hcnt Ht.
  destruct (fired_closes_latch a x0 t0 i0 Hfired) as (Hh & Hw & Hl).
  set (i := fst (tiltDetection a x0 t0 i0)) in *.
  destruct ns as [|n ns]; [discriminate Hne|].
  unfold allTilted in Hns. cbn [forallb] in Hns.
  apply andb_prop in Hns as [Hn Hns]. apply Tilt_eqb_eq in Hn.
  destruct (neutral_frame_arms a n i Hn (or_introl Hw)) as (A1 & T1 & S1).
  cbn [app] in Hcnt |- *.
  rewrite runTilt_cons in Hcnt |- *. cbn [fst snd] in Hcnt |- *.
  set (i1 := fst (tiltDetection a (fst n) (snd n) i)) in *.
  rewrite runTilt_app in Hcnt |- *. cbn [fst snd] in Hcnt |- *.
  destruct (neutral_run_arms a ns i1 Hns A1) as (A2 & T2 & S2).
  rewrite count_cons, S1.
  unfold count at 2. rewrite concat_app, filter_app, length_app.
  fold (count OnTiltRight (snd (runTilt a ns i1))).
  fold (count OnTiltRight
          (snd (runTilt a (rs ++ [f]) (fst (runTilt a ns i1))))).
  rewrite S2.
  rewrite (armed_right_run_fires a rs f (fst (runTilt a ns i1)) Hrs A2 Hcnt).
  - reflexivity.
  - rewrite T2, T1, Hl. exact Ht.
Qed.

Lemma tilt_refires_after_neutral_witness :
  snd (tiltDetection hookArgs 20 1150 beforeFirstTilt) = [OnTiltRight] /\
  count OnTiltRight
    (snd (runTilt hookArgs
            ([(0%float, 1200%Z)] ++ steady 20 1650 3 ++ [(20%float, 1800%Z)])
            (fst (tiltDetection hookArgs 20 1150 beforeFirstTilt))))
  = 1%nat.
Proof.
  split; [reflexivity|].
  apply (@tilt_refires_after_neutral _ hookArgs beforeFirstTilt 20%float
           1150%Z [(0%float, 1200%Z)] (steady 20 1650 3) (20%float, 1800%Z)).
  - reflexivity.
  - reflexivity.
  - reflexivity.
  - reflexivity.
  - vm_compute. lia.
  - vm_compute. reflexivity.
Defined.

(** C4, as the claim has it, fails.  A right tilt fires on the fourth
    frame; after a neutral frame, exactly three right tilts follow and no
    second event fires, neither when the three frames come well after the
    debounce nor when they come at the cadence of the frame pump. *)
Lemma three_frames_after_neutral_counterexample :
  snd (runTilt hookArgs
         (steady 20 1000 4 ++ [(0%float, 1200%Z)] ++ steady 20 2000 3)
         Hook.initial)
    = [[]; []; []; [OnTiltRight]; []; []; []; []] /\
  snd (runTilt hookArgs
         (steady 20 1000 4 ++ [(0%float, 1200%Z)] ++ steady 20 1250 3)
         Hook.initial)
    = [[]; []; []; [OnTiltRight]; []; []; []; []].
Proof. split; reflexivity. Qed.

(** The debounce at work: tilted again right after the neutral frame, the
    head has to stay tilted until 600 ms after the first event. *)
Example second_tilt_waits_for_debounce :
  snd (runTilt hookArgs
         (steady 20 1000 4 ++ [(0%float, 1200%Z)] ++ steady 20 1250 12)
         Hook.initial)
    = [[]; []; []; [OnTiltRight]; [];
       []; []; []; []; []; []; []; []; []; []; []; [OnTiltRight]].
Proof. reflexivity. Qed.

(** ** The wiring of the tilt handlers *)

(** C5.  A tilt that fires reaches [onTiltLeft] when it is a left tilt and
    [onTiltRight] when it is a right tilt, and no other tilt call site is
    ever reached; the page binds [handleTiltRight], which advances to the
    next photo, to [onTiltLeft], and [handleTiltLeft], which goes back to
    the previous photo, to [onTiltRight]. *)
Theorem tilt_handlers_swapped :
  (forall (H : Type) (a : Args H) tiltAngle now i,
      snd (tiltDetection a tiltAngle now i) =
        if fires a (detectTilt a tiltAngle) now (refs i)
        then callOf (detectTilt a tiltAngle) else []) /\
  callOf TiltLeft = [OnTiltLeft] /\
  callOf TiltRight = [OnTiltRight] /\
  invoke OnTiltLeft = handleTiltRight /\
  invoke OnTiltRight = handleTiltLeft /\
  (forall p, isCalibrationRef p = false ->
             (currentIndexRef p < photosLengthRef p - 1)%Z ->
             currentIndex (invoke OnTiltLeft p) = (currentIndex p + 1)%Z) /\
  (forall p, isCalibrationRef p = false ->
             (0 < currentIndexRef p)%Z ->
             currentIndex (invoke OnTiltRight p) = (currentIndex p - 1)%Z).
Proof.
  split; [|repeat (split; [reflexivity|]); split].
  - intros H a tiltAngle now i.
    destruct (tiltDetection_refs a tiltAngle now i) as [_ Hs]. exact Hs.
  - intros p Hc Hi. unfold invoke, handlerOf, hookArgs, onTiltLeft, handleTiltRight.
    rewrite Hc. apply Z.ltb_lt in Hi. cbn. rewrite Hi. reflexivity.
  - intros p Hc Hi. unfold invoke, handlerOf, hookArgs, onTiltRight, handleTiltLeft.
    rewrite Hc. apply Z.gt_lt_iff, Z.gtb_gt in Hi. cbn. rewrite Hi. reflexivity.
Qed.

(** ** The blink classifier *)

Section BlinkClassifier.

Variable H : Type.
Variable a : Args H.

(** What one evaluation does to the refs, and which call site it reaches. *)
Lemma blinkDetection_refs : forall avgEAR now i,
  let r := refs i in
  let fire := blinkFires a avgEAR now r in
  refs (fst (blinkDetection a avgEAR now i)) =
    mkRefs (if fire then now else lastBlinkTimeRef r)
      (lastTiltTimeRef r)
      (2 <=? lowCount a avgEAR r)%nat
      (if fire then 0%Z else openSince a avgEAR now r)
      (lowCount a avgEAR r)
      (consecutiveTiltFramesRef r) (lastTiltDirectionRef r)
      (hasFiredTiltRef r) (wasNeutralRef r) /\
  snd (blinkDetection a avgEAR now i) = if fire then [OnBlink] else [].
Proof.
  intros avgEAR now [[bt tt ib eo cl ct ld hf wn] s].
  unfold blinkDetection, blinkFires, lowCount, openSince, isLow.
  cbn -[Nat.leb Z.gtb Z.sub Z.eqb].
  destruct (avgEAR <? blinkThreshold a)%float; cbn -[Nat.leb Z.gtb Z.sub Z.eqb].
  - destruct (2 <=? S cl)%nat, ib; cbn -[Z.gtb Z.sub Z.eqb];
      try (split; reflexivity).
    destruct (now - bt >? debounceMs a)%Z, (now - eo >? 150)%Z;
      cbn; split; reflexivity.
  - destruct (eo =? 0)%Z, ib; cbn; split; reflexivity.
Qed.

Lemma runBlink_cons : forall f fs i,
  runBlink a (f :: fs) i =
    (fst (runBlink a fs (fst (blinkDetection a (fst f) (snd f) i))),
     snd (blinkDetection a (fst f) (snd f) i)
       :: snd (runBlink a fs (fst (blinkDetection a (fst f) (snd f) i)))).
Proof.
  intros f fs i. unfold runBlink. cbn [runWith].
  destruct (blinkDetection a (fst f) (snd f) i) as [i1 c]. cbn [fst snd].
  match goal with |- context [runWith ?s fs i1] => destruct (runWith s fs i1) end.
  reflexivity.
Qed.

End BlinkClassifier.

(** C2, as the code has it.  On the openness sequence 0.3, 0.3, 0.05,
    0.05, 0.3 with threshold 0.18 and debounce 500, at timestamps more
    than 150 ms apart, the first one past 500, with no blink fired before
    and no open-since marker later than the first frame, exactly one blink
    fires, and it fires on the fourth frame, the second consecutive low
    one. *)
Theorem blink_fires_on_second_low_frame :
  forall (i : Instance) (t1 t2 t3 t4 t5 : Z),
  lastBlinkTimeRef (refs i) = 0%Z ->
  (eyeOpenSinceRef (refs i) <= t1)%Z ->
  (500 < t1)%Z ->
  (t1 + 150 < t2)%Z -> (t2 + 150 < t3)%Z ->
  (t3 + 150 < t4)%Z -> (t4 + 150 < t5)%Z ->
  snd (runBlink hookArgs
         [(0.3%float, t1); (0.3%float, t2); (0.05%float, t3);
          (0.05%float, t4); (0.3%float, t5)] i)
  = [[]; []; []; [OnBlink]; []].
Proof.
  intros [[bt tt ib eo cl ct ld hf wn] s] t1 t2 t3 t4 t5 Hbt Heo H1 H2 H3 H4 H5.
  cbn in Hbt, Heo. subst bt.
  unfold runBlink, runWith, blinkDetection.
  cbn -[Z.gtb Z.sub Z.eqb].
  destruct (Z.eqb_spec eo 0) as [E|E]; destruct ib;
    cbn -[Z.gtb Z.sub Z.eqb];
    repeat match goal with
      | |- context [(?x =? 0)%Z] =>
          replace (x =? 0)%Z with false
            by (symmetry; apply Z.eqb_neq; lia);
          cbn -[Z.gtb Z.sub Z.eqb]
      | |- context [(?x >? ?y)%Z] =>
          replace (x >? y)%Z with true
            by (symmetry; apply Z.gtb_gt; lia);
          cbn -[Z.gtb Z.sub Z.eqb]
      end; reflexivity.
Qed.

Lemma blink_fires_on_second_low_frame_witness :
  snd (runBlink hookArgs
         [(0.3%float, 1000%Z); (0.3%float, 1200%Z); (0.05%float, 1400%Z);
          (0.05%float, 1600%Z); (0.3%float, 1800%Z)] Hook.initial)
  = [[]; []; []; [OnBlink]; []].
Proof.
  apply (@blink_fires_on_second_low_frame Hook.initial
           1000%Z 1200%Z 1400%Z 1600%Z 1800%Z); cbn; lia.
Defined.

(** C2, as the claim has it, fails: nothing fires on the third frame, the
    first low one; the blink fires on the fourth. *)
Lemma blink_on_third_frame_counterexample :
  nth 2 (snd (runBlink hookArgs
                [(0.3%float, 1000%Z); (0.3%float, 1200%Z);
                 (0.05%float, 1400%Z); (0.05%float, 1600%Z);
                 (0.3%float, 1800%Z)] Hook.initial)) [] = [] /\
  nth 3 (snd (runBlink hookArgs
                [(0.3%float, 1000%Z); (0.3%float, 1200%Z);
                 (0.05%float, 1400%Z); (0.05%float, 1600%Z);
                 (0.3%float, 1800%Z)] Hook.initial)) [] = [OnBlink].
Proof. split; reflexivity. Qed.

Section BlinkHistory.

Variable H : Type.
Variable a : Args H.






(** What holds of the refs when an evaluation fires. *)
Lemma blinkDetection_fires : forall ear now i,
  snd (blinkDetection a ear now i) = [OnBlink] ->
  isLow a ear = true /\
  isBlinkingRef (refs i) = false /\
  (2 <= consecutiveLowEARRef (refs (fst (blinkDetection a ear now i))))%nat /\
  (now - lastBlinkTimeRef (refs i) > debounceMs a)%Z /\
  (now - eyeOpenSinceRef (refs i) > 150)%Z.
Proof.
  intros ear now i Hc.
  destruct (blinkDetection_refs a ear now i) as [Hr Hs]. cbv zeta in Hr, Hs.
  destruct (blinkFires a ear now (refs i)) eqn:Hfire;
    [|rewrite Hs in Hc; discriminate Hc].
  rewrite Hr. cbn [consecutiveLowEARRef].
  unfold blinkFires, lowCount, openSince in *.
  destruct (isLow a ear); [|discriminate Hfire].
  apply andb_prop in Hfire as [Hfire H4].
  apply andb_prop in Hfire as [Hfire H3].
  apply andb_prop in Hfire as [H1 H2].
  apply Nat.leb_le in H1. apply negb_true_iff in H2.
  apply Z.gtb_gt in H3, H4. auto.
Qed.


End BlinkHistory.




(** ** Calibration *)

Lemma evaluateFrame_eq : forall (H : Type) (a : Args H) e t n i,
  evaluateFrame a e t n i =
    (fst (tiltDetection a t n (fst (blinkDetection a e n i))),
     snd (blinkDetection a e n i)
       ++ snd (tiltDetection a t n (fst (blinkDetection a e n i)))).
Proof.
  intros H a e t n i. unfold evaluateFrame.
  destruct (blinkDetection a e n i) as [i1 c1]. cbn [fst snd].
  destruct (tiltDetection a t n i1) as [i2 c2]. reflexivity.
Qed.

(** The count of fired blinks after an evaluation. *)
Lemma blinkDetection_blinkCount : forall (H : Type) (a : Args H) e n i,
  blinkCount (state (fst (blinkDetection a e n i))) =
    if blinkFires a e n (refs i) then S (blinkCount (state i))
    else blinkCount (state i).
Proof.
  intros H a e n [[bt tt ib eo cl ct ld hf wn] [ii il er bc bl lb fd ht]].
  unfold blinkDetection, blinkFires, lowCount, openSince, isLow.
  cbn -[Nat.leb Z.gtb Z.sub Z.eqb].
  destruct (e <? blinkThreshold a)%float; cbn -[Nat.leb Z.gtb Z.sub Z.eqb].
  - destruct (2 <=? S cl)%nat, ib; cbn -[Z.gtb Z.sub Z.eqb];
      try reflexivity.
    destruct (n - bt >? debounceMs a)%Z, (n - eo >? 150)%Z;
      reflexivity.
  - destruct (eo =? 0)%Z, ib; reflexivity.
Qed.

Lemma tiltDetection_blinkCount : forall (H : Type) (a : Args H) t n i,
  blinkCount (state (fst (tiltDetection a t n i))) = blinkCount (state i).
Proof.
  intros H a t n [[bt tt ib eo cl ct ld hf wn] [ii il er bc bl lb fd ht]].
  unfold tiltDetection.
  destruct (detectTilt a t), ld, hf, wn, ht;
    cbn -[Nat.leb Z.gtb Z.sub];
    try reflexivity;
    destruct (3 <=? S ct)%nat; cbn -[Z.gtb Z.sub];
    try reflexivity;
    destruct (n - tt >? tiltDebounceMs a)%Z; reflexivity.
Qed.

(** While the page calibrates, the tilt handlers do nothing. *)
Lemma tilt_calls_ignored_in_calibration : forall t n i p,
  isCalibrationRef p = true ->
  fold_left (fun p c => invoke c p) (snd (tiltDetection hookArgs t n i)) p = p.
Proof.
  intros t n i p Hc.
  destruct (tiltDetection_refs hookArgs t n i) as [_ Hs]. cbv zeta in Hs.
  rewrite Hs.
  destruct (fires hookArgs (detectTilt hookArgs t) n (refs i)); [|reflexivity].
  destruct (detectTilt hookArgs t); cbn; try reflexivity.
  - unfold handleTiltRight. rewrite Hc. reflexivity.
  - unfold handleTiltLeft. rewrite Hc. reflexivity.
Qed.

(** C7, as the code has it.  While the page calibrates, a frame that fires
    a blink counts it; the frame that fires the third one ends the
    calibration: the active flag and its ref clear, the calibration count
    returns to 0 and the hook's [blinkCount] returns to 0.  The refs of the
    blink classifier are not reset: they are as the frame left them, the
    counter of low frames at two or more, the latch set, the last blink
    time at this frame. *)
Theorem calibration_completes_on_third_blink :
  forall (s : System) (avgEAR tiltAngle : float) (now : Z),
  isCalibrating (page s) = true ->
  isCalibrationRef (page s) = true ->
  snd (blinkDetection hookArgs avgEAR now (hook s)) = [OnBlink] ->
  let s' := onMeasurement avgEAR tiltAngle now s in
  ((calibrationBlinks (page s) < 2)%nat ->
   isCalibrating (page s') = true /\
   calibrationBlinks (page s') = S (calibrationBlinks (page s)) /\
   blinkCount (state (hook s')) = S (blinkCount (state (hook s)))) /\
  (calibrationBlinks (page s) = 2%nat ->
   isCalibrating (page s') = false /\
   isCalibrationRef (page s') = false /\
   calibrationBlinks (page s') = 0%nat /\
   blinkCount (state (hook s')) = 0%nat /\
   refs (hook s') =
     refs (fst (evaluateFrame hookArgs avgEAR tiltAngle now (hook s))) /\
   (2 <= consecutiveLowEARRef (refs (hook s')))%nat /\
   isBlinkingRef (refs (hook s')) = true /\
   lastBlinkTimeRef (refs (hook s')) = now).
Proof.
  intros s e t n Hcal Href Hfire. cbv zeta.
  unfold onMeasurement. rewrite evaluateFrame_eq. rewrite Hfire.
  cbn [app fst snd]. unfold deliver. cbn [page hook fold_left].
  set (h1 := fst (blinkDetection hookArgs e n (hook s))).
  set (h2 := fst (tiltDetection hookArgs t n h1)).
  assert (Hb : invoke OnBlink (page s)
               = set_calibrationBlinks (S (calibrationBlinks (page s))) (page s)).
  { unfold invoke, handlerOf, hookArgs, onBlink, handleBlink.
    rewrite Href. reflexivity. }
  rewrite Hb.
  rewrite tilt_calls_ignored_in_calibration by exact Href.
  (* the refs and the count the frame leaves *)
  destruct (blinkDetection_refs hookArgs e n (hook s)) as [Hr1 Hs1].
  cbv zeta in Hr1, Hs1.
  destruct (blinkFires hookArgs e n (refs (hook s))) eqn:Hbf;
    [|rewrite Hs1 in Hfire; discriminate Hfire].
  destruct (blinkDetection_fires hookArgs e n (hook s) Hfire)
    as (_ & _ & Hcnt & _ & _).
  fold h1 in Hr1, Hcnt.
  destruct (tiltDetection_refs hookArgs t n h1) as [Hr2 _].
  cbv zeta in Hr2. fold h2 in Hr2.
  assert (Hbc : blinkCount (state h2) = S (blinkCount (state (hook s)))).
  { subst h2 h1. rewrite tiltDetection_blinkCount, blinkDetection_blinkCount.
    rewrite Hbf. reflexivity. }
  destruct (page s) as [as_ ph ci ic cb sf stf icr asr cir plr] eqn:Hp.
  cbn in Hcal, Href. subst ic icr. cbn [calibrationBlinks].
  split.
  - intros Hlt. unfold settle, commit, calibrationEffect, syncRefs.
    cbn -[Nat.leb].
    destruct cb as [|[|cb]]; [| |lia]; cbn; auto.
  - intros ->. unfold settle, commit, calibrationEffect, syncRefs. cbn.
    assert (Hl : isBlinkingRef (refs h1) = true /\ lastBlinkTimeRef (refs h1) = n).
    { rewrite Hr1 in Hcnt |- *. cbn in Hcnt |- *.
      apply Nat.leb_le in Hcnt. auto. }
    destruct Hl as [Hl1 Hl2].
    repeat split; try reflexivity; rewrite Hr2; cbn; assumption.
Qed.

Lemma calibration_completes_on_third_blink_witness :
  isCalibrating (page afterTwoBlinks) = true /\
  calibrationBlinks (page afterTwoBlinks) = 2%nat /\
  isCalibrating (page (onMeasurement 0.05 0 2600 afterTwoBlinks)) = false /\
  calibrationBlinks (page (onMeasurement 0.05 0 2600 afterTwoBlinks)) = 0%nat /\
  blinkCount (state (hook (onMeasurement 0.05 0 2600 afterTwoBlinks))) = 0%nat /\
  (2 <= consecutiveLowEARRef
          (refs (hook (onMeasurement 0.05 0 2600 afterTwoBlinks))))%nat.
Proof.
  split; [reflexivity|]. split; [reflexivity|].
  destruct (@calibration_completes_on_third_blink afterTwoBlinks
              0.05%float 0%float 2600%Z eq_refl eq_refl eq_refl) as [_ W].
  destruct (W eq_refl) as (W1 & _ & W3 & W4 & _ & W6 & _).
  repeat split; assumption.
Defined.

(** C7, as the claim has it, fails.  After the three calibration blinks
    the calibration is over and both counts are back at 0, but the blink
    classifier is not reset: its counter of low frames stands at 2, its
    latch is set and its last blink time is that of the third blink. *)
Lemma classifier_not_reset_counterexample :
  isCalibrating (page (session threeBlinks calibrationStart)) = false /\
  calibrationBlinks (page (session threeBlinks calibrationStart)) = 0%nat /\
  blinkCount (state (hook (session threeBlinks calibrationStart))) = 0%nat /\
  consecutiveLowEARRef (refs (hook (session threeBlinks calibrationStart)))
    = 2%nat /\
  isBlinkingRef (refs (hook (session threeBlinks calibrationStart))) = true /\
  lastBlinkTimeRef (refs (hook (session threeBlinks calibrationStart)))
    = 2600%Z.
Proof. repeat split; reflexivity. Qed.

(** The calibration counts as the blinks come in. *)
Example calibration_counts :
  map (fun k => calibrationBlinks
                  (page (session (firstn k threeBlinks) calibrationStart)))
      [0; 3; 6; 8; 9]%nat
  = [0; 1; 2; 2; 0]%nat.
Proof. reflexivity. Qed.

(** A render after the effects have run changes nothing more. *)
Lemma settle_stable : forall s, commit (settle s) = settle s.
Proof.
  intros [[as_ ph ci ic cb sf stf icr asr cir plr] h].
  unfold settle, commit, calibrationEffect, syncRefs. cbn -[Nat.leb].
  destruct (3 <=? cb)%nat eqn:E, ic;
    do 3 (cbn -[Nat.leb]; rewrite ?E); reflexivity.
Qed.

(** ** The frame callback on whole faces *)

(** On a face on which [calculateEAR] returns for both eyes, [onResults]
    is the two classifiers on the averaged eye aspect ratio and the roll
    angle. *)
Lemma onResults_face :
  forall atan2_approx (H : Type) (a : Args H) face faces leftEAR rightEAR now i,
  calculateEAR (Some (eyeOf face LEFT_EYE_INDICES)) = Return leftEAR ->
  calculateEAR (Some (eyeOf face RIGHT_EYE_INDICES)) = Return rightEAR ->
  onResults atan2_approx a (Some (face :: faces)) now i =
    evaluateFrame a ((leftEAR + rightEAR) / 2)%float
      (calculateHeadTilt atan2_approx face) now
      {| refs := refs i; state := set_faceDetected true (state i) |}.
Proof.
  intros f H a face faces l r now i Hl Hr. unfold onResults. cbv zeta.
  rewrite Hl, Hr. reflexivity.
Qed.

(** A sustained tilt on whole faces: with the ears one above the other the
    roll angle is 90 degrees, a right tilt for the hook, which the page
    answers by going back one photo. *)
Example vertical_ears_tilt_right :
  forall atan2_approx,
    detectTilt hookArgs (calculateHeadTilt atan2_approx earsVertical)
    = TiltRight.
Proof.
  intros f. rewrite (calculateHeadTilt_axes f (fun _ _ => nan)) by reflexivity.
  reflexivity.
Qed.

(** The swapped handlers seen from the camera: four frames of a right tilt
    take the review from the second photo back to the first, four frames
    of a left tilt take it on to the third. *)
Example right_tilt_goes_back_left_tilt_goes_on :
  forall atan2_approx,
    currentIndex
      (page (faceSession atan2_approx
               [(earsVertical, 1000); (earsVertical, 1050);
                (earsVertical, 1100); (earsVertical, 1150)]%Z reviewing))
    = 0%Z /\
    currentIndex
      (page (faceSession atan2_approx
               [(earsVerticalLeft, 1000); (earsVerticalLeft, 1050);
                (earsVerticalLeft, 1100); (earsVerticalLeft, 1150)]%Z
               reviewing))
    = 2%Z.
Proof. intros f. split; vm_compute; reflexivity. Qed.

(** ** More on the frame callback *)

Import Frames.

(** The three ways a call of [onResults] can go. *)
Lemma onResults_cases :
  forall atan2_approx (H : Type) (a : Args H) m now i,
  onResults atan2_approx a m now i
    = ({| refs := refs i; state := set_faceDetected false (state i) |}, []) \/
  onResults atan2_approx a m now i
    = ({| refs := refs i; state := set_faceDetected true (state i) |}, []) \/
  exists e t,
    onResults atan2_approx a m now i
    = evaluateFrame a e t now
        {| refs := refs i; state := set_faceDetected true (state i) |}.
Proof.
  intros f H a m now i. unfold onResults.
  destruct m as [[|face faces]|]; auto. cbv zeta.
  destruct (calculateEAR (Some (eyeOf face LEFT_EYE_INDICES))); auto.
  destruct (calculateEAR (Some (eyeOf face RIGHT_EYE_INDICES))); auto.
  right; right. eauto.
Qed.

Lemma onResults_one_call_each_aux :
  forall atan2_approx (H : Type) (a : Args H) m now i,
  exists b t,
    snd (onResults atan2_approx a m now i) = b ++ t /\
    (b = [] \/ b = [OnBlink]) /\
    (t = [] \/ t = [OnTiltLeft] \/ t = [OnTiltRight]).
Proof.
  intros f H a m now i.
  destruct (onResults_cases f a m now i) as [E|[E|(e & t & E)]]; rewrite E.
  - exists [], []. auto.
  - exists [], []. auto.
  - rewrite evaluateFrame_eq. cbn [snd].
    eexists. eexists. split; [reflexivity|]. split.
    + match goal with |- context [blinkDetection a e now ?j] =>
        destruct (blinkDetection_refs a e now j) as [_ Hs] end.
      cbv zeta in Hs. rewrite Hs.
      match goal with |- context [if ?c then _ else _] => destruct c end; auto.
    + match goal with |- context [tiltDetection a t now ?j] =>
        destruct (tiltDetection_refs a t now j) as [_ Hs] end.
      cbv zeta in Hs. rewrite Hs.
      match goal with |- context [if ?c then _ else _] => destruct c end; auto.
      destruct (detectTilt a t); cbn; auto.
Qed.

(** One call of [onResults] reaches the blink call site at most once, then
    one tilt call site at most once, and nothing else. *)
Theorem onResults_one_call_each :
  forall atan2_approx (H : Type) (a : Args H) m now i,
  exists b t,
    snd (onResults atan2_approx a m now i) = b ++ t /\
    (b = [] \/ b = [OnBlink]) /\
    (t = [] \/ t = [OnTiltLeft] \/ t = [OnTiltRight]).
Proof.
  intros f H a m now i.
  destruct (onResults_one_call_each_aux f a m now i) as (b & t & E & Hb & Ht).
  exists b, t. auto.
Qed.

Section BlinkLatch.

Variable H : Type.
Variable a : Args H.

(** While a closure is held, low frames fire nothing and keep it held. *)
Lemma held_frame_silent : forall f i,
  isLow a (fst f) = true ->
  held (refs i) = true ->
  snd (blinkDetection a (fst f) (snd f) i) = [] /\
  held (refs (fst (blinkDetection a (fst f) (snd f) i))) = true.
Proof.
  intros f i Hlow Hheld.
  destruct (blinkDetection_refs a (fst f) (snd f) i) as [Hr Hs].
  cbv zeta in Hr, Hs. unfold held in Hheld.
  apply andb_prop in Hheld as [Hib Hcnt]. apply Nat.leb_le in Hcnt.
  assert (Hfire : blinkFires a (fst f) (snd f) (refs i) = false).
  { unfold blinkFires. rewrite Hib. cbn [negb].
    rewrite andb_false_r. reflexivity. }
  rewrite Hfire in Hr, Hs. split; [exact Hs|].
  rewrite Hr. unfold held, lowCount. rewrite Hlow.
  cbn [isBlinkingRef consecutiveLowEARRef].
  assert (E : (2 <=? S (consecutiveLowEARRef (refs i)))%nat = true)
    by (apply Nat.leb_le; lia).
  rewrite E. reflexivity.
Qed.

Lemma held_run_silent : forall fs i,
  allLow a fs = true ->
  held (refs i) = true ->
  count OnBlink (snd (runBlink a fs i)) = 0%nat.
Proof.
  induction fs as [|f fs IH]; intros i Hfs Hi; [reflexivity|].
  unfold allLow in Hfs. cbn [forallb] in Hfs.
  apply andb_prop in Hfs as [Hf Hfs].
  destruct (held_frame_silent f i Hf Hi) as [Hs Hh].
  rewrite runBlink_cons. cbn [snd]. rewrite count_cons, Hs.
  rewrite (IH _ Hfs Hh). reflexivity.
Qed.

(** A frame that fires leaves the closure held. *)
Lemma fired_frame_held : forall e n i,
  snd (blinkDetection a e n i) = [OnBlink] ->
  held (refs (fst (blinkDetection a e n i))) = true.
Proof.
  intros e n i Hfire.
  destruct (blinkDetection_fires a e n i Hfire) as (_ & _ & Hc & _ & _).
  destruct (blinkDetection_refs a e n i) as [Hr _]. cbv zeta in Hr.
  rewrite Hr in Hc |- *. cbn [consecutiveLowEARRef] in Hc. unfold held.
  cbn [isBlinkingRef consecutiveLowEARRef].
  assert (E : (2 <=? lowCount a e (refs i))%nat = true)
    by (apply Nat.leb_le; exact Hc).
  assert (E1 : (1 <=? lowCount a e (refs i))%nat = true)
    by (apply Nat.leb_le; lia).
  rewrite E, E1. reflexivity.
Qed.

(** The call sites an evaluation of the blink classifier can reach. *)
Lemma blinkDetection_calls : forall e n i,
  snd (blinkDetection a e n i) = [] \/ snd (blinkDetection a e n i) = [OnBlink].
Proof.
  intros e n i. destruct (blinkDetection_refs a e n i) as [_ Hs].
  cbv zeta in Hs. rewrite Hs. destruct (blinkFires a e n (refs i)); auto.
Qed.

End BlinkLatch.

(** Eyes held closed blink once: over frames that are all low the blink
    classifier fires at most one blink, whatever the state it starts from,
    the timestamps and the number of frames. *)
Theorem held_closure_fires_once :
  forall (H : Type) (a : Args H) (fs : list Sample) (i : Instance),
  allLow a fs = true ->
  (count OnBlink (snd (runBlink a fs i)) <= 1)%nat.
Proof.
  intros H a. induction fs as [|f fs IH]; intros i Hfs; [cbn; lia|].
  pose proof Hfs as Hall. unfold allLow in Hfs. cbn [forallb] in Hfs.
  apply andb_prop in Hfs as [Hf Hfs].
  rewrite runBlink_cons. cbn [snd]. rewrite count_cons.
  destruct (blinkDetection_calls a (fst f) (snd f) i) as [E|E].
  - rewrite E. specialize (IH (fst (blinkDetection a (fst f) (snd f) i)) Hfs).
    cbn. exact IH.
  - rewrite (held_run_silent a fs _ Hfs (fired_frame_held a _ _ i E)).
    rewrite E. cbn. lia.
Qed.

Lemma held_closure_fires_once_witness :
  allLow hookArgs (steady 0.05 1000 40) = true /\
  (count OnBlink (snd (runBlink hookArgs (steady 0.05 1000 40) Hook.initial))
   <= 1)%nat /\
  count OnBlink (snd (runBlink hookArgs (steady 0.05 1000 40) Hook.initial))
  = 1%nat.
Proof.
  split; [reflexivity|]. split; [|reflexivity].
  apply (@held_closure_fires_once _ hookArgs (steady 0.05 1000 40)
           Hook.initial). reflexivity.
Defined.

(** A blink needs two low frames in a row: of two frames evaluated one
    after the other, the second fires nothing when either of them is
    open, whatever the state and the timestamps. *)
Theorem lone_low_frame_fires_nothing :
  forall (H : Type) (a : Args H) (i : Instance) (f1 f2 : Sample),
  isLow a (fst f1) && isLow a (fst f2) = false ->
  nth 1 (snd (runBlink a [f1; f2] i)) [] = [].
Proof.
  intros H a i f1 f2 Hopen.
  rewrite !runBlink_cons. cbn [snd nth].
  set (i1 := fst (blinkDetection a (fst f1) (snd f1) i)).
  destruct (blinkDetection_refs a (fst f1) (snd f1) i) as [Hr1 _].
  destruct (blinkDetection_refs a (fst f2) (snd f2) i1) as [_ Hs2].
  cbv zeta in Hr1, Hs2. fold i1 in Hr1. rewrite Hs2.
  assert (Hno : blinkFires a (fst f2) (snd f2) (refs i1) = false);
    [|rewrite Hno; reflexivity].
  unfold blinkFires, lowCount. rewrite Hr1. cbn [consecutiveLowEARRef].
  unfold lowCount.
  destruct (isLow a (fst f2)); [|reflexivity].
  rewrite andb_true_r in Hopen. rewrite Hopen. reflexivity.
Qed.

Lemma lone_low_frame_fires_nothing_witness :
  isLow hookArgs 0.3 && isLow hookArgs 0.05 = false /\
  nth 1 (snd (runBlink hookArgs [(0.3%float, 5000%Z); (0.05%float, 9000%Z)]
                midSession)) [] = [].
Proof.
  split; [reflexivity|].
  apply (@lone_low_frame_fires_nothing _ hookArgs midSession
           (0.3%float, 5000%Z) (0.05%float, 9000%Z)). reflexivity.
Defined.

Section TiltDebounce.

Variable H : Type.
Variable a : Args H.

(** [lastTiltTimeRef] is the timestamp of the last frame that fired. *)
Lemma lastTiltTimeRef_lastFired : forall fs i,
  lastTiltTimeRef (refs (fst (runTilt a fs i))) =
  lastFired (lastTiltTimeRef (refs i)) fs (snd (runTilt a fs i)).
Proof.
  induction fs as [|f fs IH]; intros i; [reflexivity|].
  rewrite runTilt_cons. cbn [fst snd lastFired]. rewrite IH.
  destruct (tiltDetection_refs a (fst f) (snd f) i) as [Hr Hc].
  cbv zeta in Hr, Hc. rewrite Hr, Hc.
  destruct (fires a (detectTilt a (fst f)) (snd f) (refs i)) eqn:Hfire;
    [|reflexivity].
  unfold fires in Hfire.
  destruct (detectTilt a (fst f)); cbn [callOf]; try reflexivity.
  cbn in Hfire. rewrite andb_false_r in Hfire. discriminate Hfire.
Qed.

End TiltDebounce.

(** Tilt events keep their distance: a frame that fires a tilt event comes
    more than [tiltDebounceMs] after the last frame of the run that fired
    one, and after the last tilt time the instance had recorded before the
    run when none did. *)
Theorem tilt_events_debounced :
  forall (H : Type) (a : Args H) (pre : list Sample) (f : Sample)
         (i : Instance),
  nonEmpty (snd (tiltDetection a (fst f) (snd f) (fst (runTilt a pre i))))
    = true ->
  (snd f - lastFired (lastTiltTimeRef (refs i)) pre (snd (runTilt a pre i))
   > tiltDebounceMs a)%Z.
Proof.
  intros H a pre f i Hfire.
  rewrite <- lastTiltTimeRef_lastFired.
  set (j := fst (runTilt a pre i)) in *.
  destruct (tiltDetection_refs a (fst f) (snd f) j) as [_ Hs].
  cbv zeta in Hs. rewrite Hs in Hfire.
  destruct (fires a (detectTilt a (fst f)) (snd f) (refs j)) eqn:E;
    [|discriminate Hfire].
  unfold fires in E. apply andb_prop in E as [_ E].
  apply Z.gtb_gt in E. exact E.
Qed.

Lemma tilt_events_debounced_witness :
  nonEmpty
    (snd (tiltDetection hookArgs 20 1800
            (fst (runTilt hookArgs
                    (steady 20 1000 4 ++ [(0%float, 1200%Z)]
                     ++ steady 20 1250 11) Hook.initial)))) = true /\
  (1800 - lastFired 0
            (steady 20 1000 4 ++ [(0%float, 1200%Z)] ++ steady 20 1250 11)
            (snd (runTilt hookArgs
                    (steady 20 1000 4 ++ [(0%float, 1200%Z)]
                     ++ steady 20 1250 11) Hook.initial))
   > 600)%Z.
Proof.
  split; [reflexivity|].
  apply (@tilt_events_debounced _ hookArgs
           (steady 20 1000 4 ++ [(0%float, 1200%Z)] ++ steady 20 1250 11)
           (20%float, 1800%Z) Hook.initial).
  reflexivity.
Defined.

(** ** The exposed state over runs of the callback *)

Section ExposedState.

Variable atan2_approx : float -> float -> float.
Variable H : Type.
Variable a : Args H.

Lemma runResults_cons : forall f fs i,
  runResults atan2_approx a (f :: fs) i =
    (fst (runResults atan2_approx a fs
            (fst (onResults atan2_approx a (fst f) (snd f) i))),
     snd (onResults atan2_approx a (fst f) (snd f) i)
       :: snd (runResults atan2_approx a fs
                 (fst (onResults atan2_approx a (fst f) (snd f) i)))).
Proof.
  intros f fs i. unfold runResults. cbn [runWith].
  destruct (onResults atan2_approx a (fst f) (snd f) i) as [i1 c].
  cbn [fst snd].
  match goal with |- context [runWith ?s fs i1] => destruct (runWith s fs i1) end.
  reflexivity.
Qed.

(** One evaluated frame adds to [blinkCount] what it fires. *)
Lemma evaluateFrame_blinkCount : forall e t n i,
  blinkCount (state (fst (evaluateFrame a e t n i))) =
  (blinkCount (state i) + count OnBlink [snd (evaluateFrame a e t n i)])%nat.
Proof.
  intros e t n i. rewrite evaluateFrame_eq. cbn [fst snd].
  rewrite tiltDetection_blinkCount, blinkDetection_blinkCount.
  destruct (blinkDetection_refs a e n i) as [_ Hb].
  destruct (tiltDetection_refs a t n (fst (blinkDetection a e n i))) as [_ Ht].
  cbv zeta in Hb, Ht. rewrite Hb, Ht.
  destruct (blinkFires a e n (refs i));
    match goal with |- context [if ?c then callOf _ else _] => destruct c end;
    try destruct (detectTilt a t); cbn; lia.
Qed.

Lemma onResults_blinkCount : forall m n i,
  blinkCount (state (fst (onResults atan2_approx a m n i))) =
  (blinkCount (state i)
   + count OnBlink [snd (onResults atan2_approx a m n i)])%nat.
Proof.
  intros m n i.
  destruct (onResults_cases atan2_approx a m n i) as [E|[E|(e & t & E)]];
    rewrite E; try (cbn; lia).
  rewrite evaluateFrame_blinkCount. reflexivity.
Qed.

(** The indicator after one evaluation of the blink classifier. *)
Lemma blinkDetection_isBlinking : forall e n i,
  isBlinking (state (fst (blinkDetection a e n i))) =
    if blinkFires a e n (refs i) then true
    else if negb (isLow a e) && isBlinkingRef (refs i) then false
         else isBlinking (state i).
Proof.
  intros e n [[bt tt ib eo cl ct ld hf wn] [ii il er bc bl lb fd ht]].
  unfold blinkDetection, blinkFires, lowCount, openSince, isLow.
  cbn -[Nat.leb Z.gtb Z.sub Z.eqb].
  destruct (e <? blinkThreshold a)%float; cbn -[Nat.leb Z.gtb Z.sub Z.eqb].
  - destruct (2 <=? S cl)%nat, ib; cbn -[Z.gtb Z.sub Z.eqb];
      try reflexivity.
    destruct (n - bt >? debounceMs a)%Z, (n - eo >? 150)%Z; reflexivity.
  - destruct (eo =? 0)%Z, ib; reflexivity.
Qed.

(** The blink classifier keeps the indicator in step with the latch. *)
Lemma blinkDetection_indicator : forall e n i,
  indicatorInv i ->
  indicatorInv (fst (blinkDetection a e n i)) /\
  (isLow a e = false ->
   isBlinking (state (fst (blinkDetection a e n i))) = false).
Proof.
  intros e n i [Hlatch Hind].
  destruct (blinkDetection_refs a e n i) as [Hr _]. cbv zeta in Hr.
  pose proof (blinkDetection_isBlinking e n i) as Hb.
  unfold indicatorInv. rewrite Hr, Hb.
  cbn [isBlinkingRef consecutiveLowEARRef].
  split; [split; [reflexivity|]|].
  - destruct (blinkFires a e n (refs i)) eqn:Hfire.
    + intros _. unfold blinkFires in Hfire.
      apply andb_prop in Hfire as [Hfire _].
      apply andb_prop in Hfire as [Hfire _].
      apply andb_prop in Hfire as [Hfire _]. exact Hfire.
    + unfold lowCount. destruct (isLow a e); cbn [negb andb].
      * intros Hbl. specialize (Hind Hbl). rewrite Hlatch in Hind.
        apply Nat.leb_le in Hind. apply Nat.leb_le. lia.
      * destruct (isBlinkingRef (refs i)); [discriminate|].
        intros Hbl. specialize (Hind Hbl). discriminate Hind.
  - intros Hopen. unfold blinkFires, lowCount. rewrite Hopen.
    cbn [Nat.leb andb negb].
    destruct (isBlinkingRef (refs i)); [reflexivity|].
    destruct (isBlinking (state i)); [|reflexivity].
    specialize (Hind eq_refl). discriminate Hind.
Qed.

Lemma tiltDetection_indicator : forall t n i,
  isBlinking (state (fst (tiltDetection a t n i))) = isBlinking (state i).
Proof.
  intros t n [[bt tt ib eo cl ct ld hf wn] [ii il er bc bl lb fd ht]].
  unfold tiltDetection.
  destruct (detectTilt a t), ld, hf, wn, ht;
    cbn -[Nat.leb Z.gtb Z.sub];
    try reflexivity;
    destruct (3 <=? S ct)%nat; cbn -[Z.gtb Z.sub];
    try reflexivity;
    destruct (n - tt >? tiltDebounceMs a)%Z; reflexivity.
Qed.

Lemma evaluateFrame_indicator : forall e t n i,
  indicatorInv i ->
  indicatorInv (fst (evaluateFrame a e t n i)) /\
  (isLow a e = false ->
   isBlinking (state (fst (evaluateFrame a e t n i))) = false).
Proof.
  intros e t n i Hi. rewrite evaluateFrame_eq. cbn [fst].
  destruct (blinkDetection_indicator e n Hi) as [[L1 I1] O1].
  set (i1 := fst (blinkDetection a e n i)) in *.
  destruct (tiltDetection_refs a t n i1) as [Hr _]. cbv zeta in Hr.
  unfold indicatorInv. rewrite tiltDetection_indicator, Hr.
  cbn [isBlinkingRef consecutiveLowEARRef]. auto.
Qed.

Lemma onResults_indicator : forall m n i,
  indicatorInv i -> indicatorInv (fst (onResults atan2_approx a m n i)).
Proof.
  intros m n i Hi.
  destruct (onResults_cases atan2_approx a m n i) as [E|[E|(e & t & E)]];
    rewrite E; try exact Hi.
  apply evaluateFrame_indicator. exact Hi.
Qed.

Lemma runResults_indicator : forall fs i,
  indicatorInv i -> indicatorInv (fst (runResults atan2_approx a fs i)).
Proof.
  induction fs as [|f fs IH]; intros i Hi; [exact Hi|].
  rewrite runResults_cons. cbn [fst]. apply IH, onResults_indicator, Hi.
Qed.

End ExposedState.

(** [blinkCount] counts the blinks: over any run of the callback, with
    faces, without, or with faces that lack landmarks, it grows by the
    number of times the blink call site was reached. *)
Theorem blinkCount_counts_blinks :
  forall atan2_approx (H : Type) (a : Args H) (fs : list Results)
         (i : Instance),
  blinkCount (state (fst (runResults atan2_approx a fs i))) =
  (blinkCount (state i)
   + count OnBlink (snd (runResults atan2_approx a fs i)))%nat.
Proof.
  intros f H a. induction fs as [|r fs IH]; intros i; [cbn; lia|].
  rewrite runResults_cons. cbn [fst snd]. rewrite IH, count_cons.
  rewrite onResults_blinkCount. lia.
Qed.

(** The blinking indicator goes off when the eyes are seen open: after
    any run of the callback on a fresh hook, a face whose averaged eye
    aspect ratio is not below the threshold leaves [isBlinking] false. *)
Theorem indicator_off_when_eyes_open :
  forall atan2_approx (H : Type) (a : Args H) (pre : list Results)
         (face : list Landmark) (faces : list (list Landmark)) (now : Z)
         (e : float),
  faceEAR face = Some e ->
  isLow a e = false ->
  isBlinking
    (state (fst (onResults atan2_approx a (Some (face :: faces)) now
                   (fst (runResults atan2_approx a pre Hook.initial)))))
  = false.
Proof.
  intros f H a pre face faces now e Hface Hopen.
  assert (Hinv : indicatorInv (fst (runResults f a pre Hook.initial))).
  { apply runResults_indicator. split; [reflexivity|discriminate]. }
  set (i := fst (runResults f a pre Hook.initial)) in *.
  unfold faceEAR in Hface.
  destruct (calculateEAR (Some (eyeOf face LEFT_EYE_INDICES))) as [l|] eqn:El;
    [|discriminate Hface].
  destruct (calculateEAR (Some (eyeOf face RIGHT_EYE_INDICES))) as [r|] eqn:Er;
    [|discriminate Hface].
  injection Hface as <-.
  rewrite (onResults_face f a face faces now i El Er).
  apply evaluateFrame_indicator; [|exact Hopen].
  destruct Hinv as [L I]. split; [exact L|exact I].
Qed.

Lemma indicator_off_when_eyes_open_witness :
  faceEAR earsLevel = Some 1%float /\
  isLow hookArgs 1 = false /\
  isBlinking
    (state (fst (onResults (fun _ _ => nan) hookArgs (Some [earsLevel]) 2000
                   (fst (runResults (fun _ _ => nan) hookArgs
                           [(None, 1000%Z)] Hook.initial)))))
  = false.
Proof.
  split; [vm_compute; reflexivity|]. split; [reflexivity|].
  apply (@indicator_off_when_eyes_open (fun _ _ => nan) _ hookArgs
           [(None, 1000%Z)] earsLevel [] 2000%Z 1%float).
  - vm_compute. reflexivity.
  - reflexivity.
Defined.

(** A face mesh too short to hold the eye landmarks (387 landmarks or
    fewer) is marked as a detected face and nothing else: no ref changes
    and no call site is reached. *)
Theorem onResults_short_face :
  forall atan2_approx (H : Type) (a : Args H) (face : list Landmark)
         (faces : list (list Landmark)) (now : Z) (i : Instance),
  (List.length face <= 387)%nat ->
  onResults atan2_approx a (Some (face :: faces)) now i =
    ({| refs := refs i; state := set_faceDetected true (state i) |}, []).
Proof.
  intros f H a face faces now i Hlen. unfold onResults. cbv zeta.
  assert (E : calculateEAR (Some (eyeOf face LEFT_EYE_INDICES)) = Throw).
  { assert (E387 : nth_error face 387 = None)
      by (apply nth_error_None; exact Hlen).
    unfold eyeOf, LEFT_EYE_INDICES. cbn [map]. rewrite E387.
    generalize (nth_error face 362) (nth_error face 385)
      (nth_error face 263) (nth_error face 373) (nth_error face 380).
    intros o0 o1 o3 o4 o5. unfold calculateEAR, entry, bind.
    cbn [List.length Nat.ltb Nat.leb nth_error].
    destruct o1; [|reflexivity]. destruct o5; reflexivity. }
  rewrite E. reflexivity.
Qed.

Lemma onResults_short_face_witness :
  (List.length (repeat origin 100) <= 387)%nat /\
  onResults (fun _ _ => nan) hookArgs (Some [repeat origin 100]) 6000 midSession
  = ({| refs := refs midSession;
        state := set_faceDetected true (state midSession) |}, []).
Proof.
  split; [cbn; lia|].
  apply (@onResults_short_face (fun _ _ => nan) _ hookArgs (repeat origin 100)
           [] 6000%Z midSession). cbn. lia.
Defined.

(** ** The page under frames, keys and buttons *)

Import App.

Lemma toggleAt_length : forall l i idx,
  List.length (toggleAt i idx l) = List.length l.
Proof.
  induction l as [|p l IH]; intros i idx; [reflexivity|].
  cbn [toggleAt List.length]. rewrite IH. reflexivity.
Qed.

Lemma toggleAt_twice : forall l i idx,
  toggleAt i idx (toggleAt i idx l) = l.
Proof.
  induction l as [|p l IH]; intros i idx; [reflexivity|].
  cbn [toggleAt]. rewrite IH.
  destruct (i =? idx)%Z eqn:E; cbn [toggleAt]; [|reflexivity].
  destruct p as [pi pu pm po]. cbn. rewrite negb_involutive. reflexivity.
Qed.

(** What marking does to the marks, position by position. *)
Lemma toggleAt_marks : forall l i idx k,
  nth_error (map marked (toggleAt i idx l)) k =
  if (i + Z.of_nat k =? idx)%Z
  then option_map negb (nth_error (map marked l) k)
  else nth_error (map marked l) k.
Proof.
  induction l as [|p l IH]; intros i idx k.
  - destruct k; cbn; destruct (_ =? _)%Z; reflexivity.
  - destruct k as [|k]; cbn [toggleAt map nth_error].
    + rewrite Z.add_0_r. destruct (i =? idx)%Z; reflexivity.
    + rewrite IH. replace (i + 1 + Z.of_nat k)%Z with (i + Z.of_nat (S k))%Z
        by lia. reflexivity.
Qed.

Lemma toggleAt_rest : forall l i idx,
  map id (toggleAt i idx l) = map id l /\
  map url (toggleAt i idx l) = map url l /\
  map originalName (toggleAt i idx l) = map originalName l.
Proof.
  induction l as [|p l IH]; intros i idx; [auto|].
  cbn [toggleAt map]. destruct (IH (i + 1)%Z idx) as (E1 & E2 & E3).
  rewrite E1, E2, E3. destruct (i =? idx)%Z; auto.
Qed.

(** A blink outside calibration marks or unmarks the photo shown and no
    other: in a review whose refs mirror the state, the mark at the
    current index is negated, every other mark is kept, and the photos
    keep their ids, URLs and names. *)
Theorem blink_marks_current_photo :
  forall (p : Page) (k : nat),
  synced p ->
  isCalibrating p = false ->
  reviewingNow p = true ->
  (0 <= currentIndex p < len p)%Z ->
  nth_error (marks (invoke OnBlink p)) k =
    (if (Z.of_nat k =? currentIndex p)%Z
     then option_map negb (nth_error (marks p) k)
     else nth_error (marks p) k) /\
  map id (photos (invoke OnBlink p)) = map id (photos p) /\
  map url (photos (invoke OnBlink p)) = map url (photos p) /\
  map originalName (photos (invoke OnBlink p)) = map originalName (photos p) /\
  currentIndex (invoke OnBlink p) = currentIndex p.
Proof.
  intros p k (Hc & Ha & Hi & Hl) Hcal Hrev Hidx.
  unfold invoke, handlerOf, hookArgs, onBlink, handleBlink, marks.
  rewrite Hc, Hcal. cbn [showFlash set_showFlash appStateRef currentIndexRef
    photosLengthRef photos].
  rewrite Ha, Hi, Hl. unfold reviewingNow in Hrev.
  replace (match appState p with review | demo => true | _ => false end)
    with true by (destruct (appState p); cbn in Hrev; congruence).
  replace (currentIndex p <? len p)%Z with true
    by (symmetry; apply Z.ltb_lt; lia).
  cbn [andb set_photos photos currentIndex].
  rewrite toggleAt_marks. cbn [Z.add].
  destruct (toggleAt_rest (photos p) 0 (currentIndex p)) as (E1 & E2 & E3).
  repeat split; assumption.
Qed.

Lemma blink_marks_current_photo_witness :
  nth_error (marks (invoke OnBlink (page reviewing))) 1 = Some true /\
  nth_error (marks (invoke OnBlink (page reviewing))) 0 = Some false /\
  currentIndex (invoke OnBlink (page reviewing)) = 1%Z.
Proof.
  assert (S : synced (page reviewing)) by (repeat split).
  assert (B : (0 <= currentIndex (page reviewing) < len (page reviewing))%Z)
    by (cbn; lia).
  destruct (@blink_marks_current_photo (page reviewing) 1 S eq_refl eq_refl B)
    as (W1 & _ & _ & _ & W5).
  destruct (@blink_marks_current_photo (page reviewing) 0 S eq_refl eq_refl B)
    as (W0 & _).
  split; [exact W1|]. split; [exact W0|exact W5].
Defined.

Lemma tiltDetection_calls : forall (H : Type) (a : Args H) t n i,
  snd (tiltDetection a t n i) = [] \/
  snd (tiltDetection a t n i) = [OnTiltLeft] \/
  snd (tiltDetection a t n i) = [OnTiltRight].
Proof.
  intros H a t n i. destruct (tiltDetection_refs a t n i) as [_ Hs].
  cbv zeta in Hs. rewrite Hs.
  destruct (fires a (detectTilt a t) n (refs i)); auto.
  destruct (detectTilt a t); cbn; auto.
Qed.

(** The renders after an event leave index, photos and screen alone and
    bring the refs in step with the state. *)
Lemma settle_page : forall s,
  currentIndex (page (settle s)) = currentIndex (page s) /\
  photos (page (settle s)) = photos (page s) /\
  appState (page (settle s)) = appState (page s) /\
  synced (page (settle s)).
Proof.
  intros [[as_ ph ci ic cb sf stf icr asr cir plr] h].
  unfold settle, commit, calibrationEffect, syncRefs, synced, len.
  cbn -[Nat.leb].
  destruct (3 <=? cb)%nat eqn:E, ic;
    do 3 (cbn -[Nat.leb]; rewrite ?E); repeat split; reflexivity.
Qed.

Lemma settleApp_page : forall a,
  currentIndex (page (sys (settleApp a))) = currentIndex (page (sys a)) /\
  photos (page (sys (settleApp a))) = photos (page (sys a)) /\
  appState (page (sys (settleApp a))) = appState (page (sys a)) /\
  synced (page (sys (settleApp a))).
Proof.
  intros [s dm es ue].
  assert (R : forall b, page (sys (resultsEffect b)) = page (sys b)).
  { intros [[p h] d e u]. unfold resultsEffect. cbn.
    destruct (appState p); reflexivity. }
  assert (C : forall b, page (sys (commitApp b)) = page (commit (sys b))).
  { intros b. unfold commitApp. rewrite R. destruct b; reflexivity. }
  assert (P : forall s1 s2, page s1 = page s2 ->
                           page (commit s1) = page (commit s2)).
  { intros [p1 h1] [p2 h2] E. cbn in E. subst p2.
    unfold commit, calibrationEffect. cbn [page hook].
    destruct (_ && _); reflexivity. }
  unfold settleApp. rewrite C.
  assert (C2 : page (commit (sys (commitApp (mkApp s dm es ue))))
               = page (settle s)).
  { unfold settle. apply P. rewrite C. reflexivity. }
  rewrite C2. cbn [sys]. apply settle_page.
Qed.

(** The gesture handlers keep the index on a photo when the refs they
    read mirror the index and the number of photos. *)
Lemma invoke_indexOk : forall c p,
  currentIndexRef p = currentIndex p ->
  photosLengthRef p = len p ->
  indexOk p ->
  indexOk (invoke c p) /\
  (c = OnBlink ->
   currentIndexRef (invoke c p) = currentIndex (invoke c p) /\
   photosLengthRef (invoke c p) = len (invoke c p)).
Proof.
  intros c [as_ ph ci ic cb sf stf icr asr cir plr] Hi Hl Hok.
  unfold indexOk, len in *. cbn in Hi, Hl, Hok. subst cir plr.
  destruct c; unfold invoke, handlerOf, hookArgs; cbn [onBlink onTiltLeft
    onTiltRight]; unfold handleBlink, handleTiltRight, handleTiltLeft; cbn.
  - destruct icr; cbn; [split; [lia|auto]|].
    destruct (match asr with review | demo => true | _ => false end
              && (ci <? Z.of_nat (List.length ph))%Z); cbn;
      rewrite ?toggleAt_length; split; auto; lia.
  - split; [|discriminate]. destruct icr; cbn; [lia|].
    destruct (ci <? Z.of_nat (List.length ph) - 1)%Z eqn:E; cbn.
    + apply Z.ltb_lt in E. lia.
    + destruct (ci =? Z.of_nat (List.length ph) - 1)%Z; cbn; lia.
  - split; [|discriminate]. destruct icr; cbn; [lia|].
    destruct (ci >? 0)%Z eqn:E; cbn; [|lia].
    apply Z.gtb_gt in E. lia.
Qed.

Lemma calls_indexOk : forall b t s h,
  b = [] \/ b = [OnBlink] ->
  t = [] \/ t = [OnTiltLeft] \/ t = [OnTiltRight] ->
  synced (page s) -> indexOk (page s) ->
  indexOk (page (deliver (b ++ t) {| page := page s; hook := h |})).
Proof.
  intros b t s h Hb Ht (_ & _ & Hi & Hl) Hok.
  unfold deliver. cbn [page hook].
  set (q := fold_left _ _ _).
  assert (Hq : indexOk q).
  { subst q. rewrite fold_left_app.
    destruct Hb as [B|B]; rewrite B; cbn [fold_left].
    - destruct Ht as [T|[T|T]]; rewrite T; cbn [fold_left]; auto;
        apply invoke_indexOk; auto.
    - destruct (@invoke_indexOk OnBlink (page s) Hi Hl Hok) as [Ok1 R1].
      destruct (R1 eq_refl) as [Hi1 Hl1].
      destruct Ht as [T|[T|T]]; rewrite T; cbn [fold_left]; auto;
        apply invoke_indexOk; auto. }
  unfold indexOk, len in *.
  match goal with |- context [settle ?x] =>
    destruct (settle_page x) as (E1 & E2 & _) end.
  rewrite E1, E2. exact Hq.
Qed.

Lemma frame_indexOk : forall e t n s,
  synced (page s) -> indexOk (page s) ->
  indexOk (page (onMeasurement e t n s)).
Proof.
  intros e t n s Hs Hok.
  unfold onMeasurement. rewrite evaluateFrame_eq.
  apply calls_indexOk; auto.
  - apply blinkDetection_calls.
  - apply tiltDetection_calls.
Qed.

Lemma results_indexOk : forall f m n s,
  synced (page s) -> indexOk (page s) ->
  indexOk (page (onFrame f m n s)).
Proof.
  intros f m n s Hs Hok. unfold onFrame.
  destruct (onResults_one_call_each_aux f hookArgs m n (hook s))
    as (b & t & E & Hb & Ht).
  destruct (onResults f hookArgs m n (hook s)) as [h calls].
  cbn [snd] in E. subst calls. apply calls_indexOk; auto.
Qed.

Lemma key_indexOk : forall key a,
  indexOk (page (sys a)) -> indexOk (page (sys (handleKeyDown key a))).
Proof.
  intros key [[[as_ ph ci ic cb sf stf icr asr cir plr] h] dm es ue] Hok.
  unfold indexOk, len in *. cbn in Hok.
  unfold handleKeyDown, len. cbn [sys page appState isCalibrating currentIndex
    photos].
  destruct (negb _); [exact Hok|]. destruct ic; [exact Hok|].
  repeat match goal with
         | |- context [String.eqb key ?k] => destruct (String.eqb key k)
         end; cbn [orb];
    repeat match goal with
           | |- context [if ?c then _ else _] => destruct c eqn:?
           end; cbn; rewrite ?toggleAt_length;
    rewrite ?Z.gtb_gt, ?Z.ltb_lt in *; lia.
Qed.

(** The index always points at a photo: from the mounted page, after any
    sequence of evaluated frames, keys and buttons, the index is 0 when
    there are no photos and otherwise lies between 0 and the last photo;
    and the refs the gesture handlers read mirror the state. *)
Theorem index_always_on_a_photo :
  forall events : list Event,
  indexOk (page (sys (run events initialApp))) /\
  synced (page (sys (run events initialApp))).
Proof.
  intros events. unfold run.
  assert (Hstart : indexOk (page (sys initialApp))
                   /\ synced (page (sys initialApp))).
  { split; [unfold indexOk; cbn; lia|repeat split]. }
  revert Hstart. generalize initialApp.
  induction events as [|e events IH]; intros a Ha; [exact Ha|].
  cbn [fold_left]. apply IH. destruct Ha as [Hok Hsync].
  unfold step.
  match goal with |- context [settleApp ?x] =>
    destruct (settleApp_page x) as (E1 & E2 & _ & S) end.
  split; [|exact S].
  unfold indexOk, len in *. rewrite E1, E2.
  destruct e.
  - destruct a as [s dm es ue]. cbn [withSys sys] in *.
    apply results_indexOk; assumption.
  - destruct a as [s dm es ue]. cbn [withSys sys] in *.
    apply frame_indexOk; assumption.
  - apply key_indexOk. exact Hok.
  - destruct a as [[[as_ ph ci ic cb sf stf icr asr cir plr] h] dm es ue].
    cbn in Hok. unfold handleNextPhoto, len. cbn.
    destruct (ci <? Z.of_nat (List.length ph) - 1)%Z eqn:E; cbn;
      [apply Z.ltb_lt in E|]; lia.
  - destruct a as [[[as_ ph ci ic cb sf stf icr asr cir plr] h] dm es ue].
    cbn in Hok. unfold handlePrevPhoto. cbn.
    destruct (ci >? 0)%Z eqn:E; cbn; [apply Z.gtb_gt in E|]; lia.
  - destruct a as [[[as_ ph ci ic cb sf stf icr asr cir plr] h] dm es ue].
    cbn in Hok |- *. rewrite toggleAt_length. lia.
  - destruct a as [[[as_ ph ci ic cb sf stf icr asr cir plr] h] dm es ue].
    cbn in Hok |- *. lia.
  - cbn. lia.
  - cbn. lia.
  - unfold handleFileUpload. destruct files as [[|file files]|]; try exact Hok.
    match goal with |- context [if ?c then _ else _] => destruct c end;
      [exact Hok|].
    cbn [sys page startSession currentIndex photos]. lia.
Qed.

(** The four other ways of marking leave the photos the mark button
    leaves. *)
Lemma marking_paths_same_photos :
  forall a : App,
  synced (page (sys a)) ->
  isCalibrating (page (sys a)) = false ->
  reviewingNow (page (sys a)) = true ->
  (0 <= currentIndex (page (sys a)) < len (page (sys a)))%Z ->
  photos (invoke OnBlink (page (sys a))) = photos (page (sys (markButton a))) /\
  photos (page (sys (handleKeyDown space a)))
    = photos (page (sys (markButton a))) /\
  photos (page (sys (handleKeyDown lowerD a)))
    = photos (page (sys (markButton a))) /\
  photos (page (sys (handleKeyDown upperD a)))
    = photos (page (sys (markButton a))).
Proof.
  intros [[[as_ ph ci ic cb sf stf icr asr cir plr] h] dm es ue]
    (Hc & Ha & Hi & Hl) Hcal Hrev Hidx.
  unfold len in *. cbn in Hc, Ha, Hi, Hl, Hcal, Hrev, Hidx. subst.
  assert (E1 : (ci <? Z.of_nat (List.length ph))%Z = true)
    by (apply Z.ltb_lt; lia).
  assert (E2 : (Z.of_nat (List.length ph) >? 0)%Z = true)
    by (apply Z.gtb_gt; lia).
  unfold reviewingNow in Hrev. cbn in Hrev.
  unfold invoke, handlerOf, hookArgs, handleBlink, handleKeyDown, markButton,
    len. cbn -[Z.ltb Z.gtb Z.of_nat].
  rewrite Hrev, E1, E2. cbn. auto.
Qed.

(** Blinking, the space bar, the keys d and D and the mark button all do
    the same to the photos: in a review past calibration, with the index
    on a photo, each of them negates the mark of the photo shown, keeps
    every other mark and keeps the ids, URLs and names; so all five leave
    the same photos. *)
Theorem marking_paths_agree :
  forall (a : App) (k : nat),
  synced (page (sys a)) ->
  isCalibrating (page (sys a)) = false ->
  reviewingNow (page (sys a)) = true ->
  (0 <= currentIndex (page (sys a)) < len (page (sys a)))%Z ->
  Forall (fun ps : list PhotoItem =>
            nth_error (map marked ps) k =
              (if (Z.of_nat k =? currentIndex (page (sys a)))%Z
               then option_map negb (nth_error (marks (page (sys a))) k)
               else nth_error (marks (page (sys a))) k) /\
            map id ps = map id (photos (page (sys a))) /\
            map url ps = map url (photos (page (sys a))) /\
            map originalName ps = map originalName (photos (page (sys a))))
    [photos (invoke OnBlink (page (sys a)));
     photos (page (sys (handleKeyDown space a)));
     photos (page (sys (handleKeyDown lowerD a)));
     photos (page (sys (handleKeyDown upperD a)));
     photos (page (sys (markButton a)))] /\
  photos (invoke OnBlink (page (sys a))) = photos (page (sys (markButton a))) /\
  photos (page (sys (handleKeyDown space a)))
    = photos (page (sys (markButton a))) /\
  photos (page (sys (handleKeyDown lowerD a)))
    = photos (page (sys (markButton a))) /\
  photos (page (sys (handleKeyDown upperD a)))
    = photos (page (sys (markButton a))).
Proof.
  intros a k Hs Hcal Hrev Hidx.
  pose proof (marking_paths_same_photos a Hs Hcal Hrev Hidx) as Agree.
  split; [|exact Agree].
  destruct Agree as (E1 & E2 & E3 & E4). rewrite E1, E2, E3, E4.
  change (photos (page (sys (markButton a))))
    with (toggleAt 0 (currentIndex (page (sys a))) (photos (page (sys a)))).
  destruct (toggleAt_rest (photos (page (sys a))) 0 (currentIndex (page (sys a))))
    as (R1 & R2 & R3).
  pose proof (toggleAt_marks (photos (page (sys a))) 0
                (currentIndex (page (sys a))) k) as M.
  cbn [Z.add] in M. fold (marks (page (sys a))) in M.
  repeat (apply Forall_cons; [repeat split; assumption|]). apply Forall_nil.
Qed.

Lemma marking_paths_agree_witness :
  nth_error (marks (page reviewing)) 1 = Some false /\
  nth_error
    (map marked
       (photos (page (sys (handleKeyDown lowerD
                             (mkApp reviewing false false None)))))) 1
    = Some true /\
  nth_error
    (map marked
       (photos (page (sys (handleKeyDown lowerD
                             (mkApp reviewing false false None)))))) 0
    = Some false /\
  photos (invoke OnBlink (page reviewing))
    = photos (page (sys (markButton (mkApp reviewing false false None)))).
Proof.
  assert (S : synced (page reviewing)) by (repeat split).
  assert (B : (0 <= currentIndex (page reviewing) < len (page reviewing))%Z)
    by (cbn; lia).
  destruct (@marking_paths_agree (mkApp reviewing false false None) 1
              S eq_refl eq_refl B) as (F1 & W & _).
  destruct (@marking_paths_agree (mkApp reviewing false false None) 0
              S eq_refl eq_refl B) as (F0 & _).
  apply Forall_inv_tail, Forall_inv_tail, Forall_inv in F1.
  apply Forall_inv_tail, Forall_inv_tail, Forall_inv in F0.
  destruct F1 as (M1 & _). destruct F0 as (M0 & _).
  split; [reflexivity|]. split; [exact M1|]. split; [exact M0|exact W].
Defined.

(** Calibration, once over, is not switched on again by a render. *)
Lemma settle_isCalibrating : forall s,
  isCalibrating (page s) = false ->
  isCalibrating (page (settle s)) = false.
Proof.
  intros [[as_ ph ci ic cb sf stf icr asr cir plr] h] H.
  cbn in H. subst ic.
  unfold settle, commit, calibrationEffect, syncRefs.
  cbn [page hook isCalibrating calibrationBlinks].
  rewrite andb_false_r. cbn [page hook isCalibrating calibrationBlinks].
  rewrite andb_false_r. reflexivity.
Qed.

(** What a blink does to a page whose refs mirror its state. *)
Lemma handleBlink_synced : forall p,
  synced p ->
  isCalibrating p = false ->
  photos (invoke OnBlink p) =
    (if reviewingNow p && (currentIndex p <? len p)%Z
     then toggleAt 0 (currentIndex p) (photos p) else photos p) /\
  currentIndex (invoke OnBlink p) = currentIndex p /\
  appState (invoke OnBlink p) = appState p /\
  isCalibrating (invoke OnBlink p) = false.
Proof.
  intros [as_ ph ci ic cb sf stf icr asr cir plr] (Hc & Ha & Hi & Hl) Hcal.
  unfold len in *. cbn in Hc, Ha, Hi, Hl, Hcal. subst.
  unfold invoke, handlerOf, hookArgs, reviewingNow, len.
  cbn [onBlink]. unfold handleBlink.
  cbn [isCalibrationRef set_showFlash appStateRef currentIndexRef
       photosLengthRef photos appState currentIndex isCalibrating].
  destruct (match as_ with review | demo => true | _ => false end
            && (ci <? Z.of_nat (List.length ph))%Z);
    repeat split; reflexivity.
Qed.

(** Two blinks undo each other: past calibration, with the refs in step
    with the state, a second blink on the same photo restores the photos
    as they were. *)
Theorem second_blink_undoes_first :
  forall s : System,
  synced (page s) ->
  isCalibrating (page s) = false ->
  photos (page (deliver [OnBlink] (deliver [OnBlink] s))) = photos (page s).
Proof.
  intros s Hs Hcal.
  destruct (handleBlink_synced Hs Hcal) as (P1 & I1 & A1 & C1).
  set (s1 := deliver [OnBlink] s).
  assert (F : page s1 = page (settle {| page := invoke OnBlink (page s);
                                        hook := hook s |})) by reflexivity.
  destruct (settle_page {| page := invoke OnBlink (page s); hook := hook s |})
    as (I2 & P2 & A2 & S2).
  assert (C2 := @settle_isCalibrating
                  {| page := invoke OnBlink (page s); hook := hook s |} C1).
  rewrite <- F in I2, P2, A2, S2, C2. cbn [page] in I2, P2, A2.
  destruct (handleBlink_synced S2 C2) as (P3 & _).
  unfold deliver at 1. cbn [fold_left].
  destruct (settle_page {| page := invoke OnBlink (page s1); hook := hook s1 |})
    as (_ & P4 & _).
  rewrite P4. cbn [page]. rewrite P3.
  unfold reviewingNow, len in *. rewrite A2, I2, P2, A1, I1, P1.
  destruct (match appState (page s) with review | demo => true | _ => false end
            && (currentIndex (page s)
                <? Z.of_nat (List.length (photos (page s))))%Z) eqn:E.
  - rewrite toggleAt_length, E. apply toggleAt_twice.
  - rewrite E. reflexivity.
Qed.

Lemma second_blink_undoes_first_witness :
  photos (page (deliver [OnBlink] reviewing)) <> photos (page reviewing) /\
  photos (page (deliver [OnBlink] (deliver [OnBlink] reviewing)))
    = photos (page reviewing).
Proof.
  split; [discriminate|].
  apply (@second_blink_undoes_first reviewing); [repeat split|reflexivity].
Defined.

(** While the page calibrates no gesture acts on the review: whatever call
    sites are reached and in whatever order, the photos, the index and the
    screen stay as they are, and the calibration count grows by the number
    of blinks. *)
Theorem calibration_suppresses_gestures :
  forall (calls : list Callback) (p : Page),
  isCalibrationRef p = true ->
  photos (fold_left (fun p c => invoke c p) calls p) = photos p /\
  currentIndex (fold_left (fun p c => invoke c p) calls p) = currentIndex p /\
  appState (fold_left (fun p c => invoke c p) calls p) = appState p /\
  calibrationBlinks (fold_left (fun p c => invoke c p) calls p)
    = (calibrationBlinks p + count OnBlink [calls])%nat.
Proof.
  induction calls as [|c calls IH]; intros p Hc.
  - cbn. repeat split; lia.
  - cbn [fold_left].
    assert (Hstep : isCalibrationRef (invoke c p) = true /\
                    photos (invoke c p) = photos p /\
                    currentIndex (invoke c p) = currentIndex p /\
                    appState (invoke c p) = appState p /\
                    calibrationBlinks (invoke c p)
                      = (calibrationBlinks p + count OnBlink [[c]])%nat).
    { destruct c; unfold invoke, handlerOf, hookArgs; cbn [onBlink onTiltLeft
        onTiltRight]; unfold handleBlink, handleTiltRight, handleTiltLeft;
        rewrite Hc; cbn; repeat split; auto; lia. }
    destruct Hstep as (H1 & H2 & H3 & H4 & H5).
    destruct (IH _ H1) as (I2 & I3 & I4 & I5).
    rewrite I2, I3, I4, I5, H2, H3, H4, H5.
    repeat split. unfold count. cbn [concat]. rewrite !app_nil_r.
    cbn [filter]. destruct c; cbn; lia.
Qed.

Lemma calibration_suppresses_gestures_witness :
  isCalibrationRef (page calibrationStart) = true /\
  photos (fold_left (fun p c => invoke c p) [OnTiltLeft; OnBlink; OnTiltRight]
            (page calibrationStart)) = demoPhotos /\
  calibrationBlinks
    (fold_left (fun p c => invoke c p) [OnTiltLeft; OnBlink; OnTiltRight]
       (page calibrationStart)) = 1%nat.
Proof.
  split; [reflexivity|].
  destruct (@calibration_suppresses_gestures
              [OnTiltLeft; OnBlink; OnTiltRight] (page calibrationStart)
              eq_refl) as (W1 & _ & _ & W4).
  split; [exact W1|exact W4].
Defined.

(** The arrow keys move as the head tilts do, crosswise: in a review past
    calibration, the right arrow changes the page as a left tilt does and
    the left arrow as a right tilt does, the flash of the tilt apart. *)
Theorem arrow_keys_move_like_tilts :
  forall a : App,
  synced (page (sys a)) ->
  isCalibrating (page (sys a)) = false ->
  reviewingNow (page (sys a)) = true ->
  set_showTiltFlash (Some TiltRight) (page (sys (handleKeyDown arrowRight a)))
    = invoke OnTiltLeft (page (sys a)) /\
  set_showTiltFlash (Some TiltLeft) (page (sys (handleKeyDown arrowLeft a)))
    = invoke OnTiltRight (page (sys a)).
Proof.
  intros [[[as_ ph ci ic cb sf stf icr asr cir plr] h] dm es ue]
    (Hc & Ha & Hi & Hl) Hcal Hrev.
  unfold len in *. cbn in Hc, Ha, Hi, Hl, Hcal, Hrev. subst.
  unfold reviewingNow in Hrev. cbn in Hrev.
  unfold invoke, handlerOf, hookArgs, handleTiltRight, handleTiltLeft,
    handleKeyDown, len. cbn -[Z.ltb Z.gtb Z.eqb Z.of_nat Z.sub].
  rewrite Hrev. cbn -[Z.ltb Z.gtb Z.eqb Z.of_nat Z.sub]. split.
  - destruct (ci <? Z.of_nat (List.length ph) - 1)%Z; [reflexivity|].
    destruct (ci =? Z.of_nat (List.length ph) - 1)%Z; reflexivity.
  - destruct (ci >? 0)%Z; reflexivity.
Qed.

Lemma arrow_keys_move_like_tilts_witness :
  currentIndex (page (sys (handleKeyDown arrowRight
                             (mkApp reviewing false false None)))) = 2%Z /\
  set_showTiltFlash (Some TiltRight)
    (page (sys (handleKeyDown arrowRight (mkApp reviewing false false None))))
    = invoke OnTiltLeft (page reviewing).
Proof.
  split; [reflexivity|].
  assert (S : synced (page reviewing)) by (repeat split).
  destruct (@arrow_keys_move_like_tilts (mkApp reviewing false false None)
              S eq_refl eq_refl) as [W _].
  exact W.
Defined.

(** A render whose calibration effect has nothing to do only brings the
    refs in step with the state. *)
Lemma commit_quiet : forall s,
  (3 <=? calibrationBlinks (page s))%nat && isCalibrating (page s) = false ->
  commit s = {| page := syncRefs (page s); hook := hook s |}.
Proof.
  intros s H. unfold commit, calibrationEffect.
  cbn [page hook syncRefs calibrationBlinks isCalibrating].
  rewrite H. reflexivity.
Qed.

Lemma settle_quiet : forall s,
  (3 <=? calibrationBlinks (page s))%nat && isCalibrating (page s) = false ->
  settle s = {| page := syncRefs (page s); hook := hook s |}.
Proof.
  intros s H. unfold settle. rewrite (commit_quiet s H).
  rewrite commit_quiet; [reflexivity|exact H].
Qed.

Lemma commitApp_quiet : forall a,
  (3 <=? calibrationBlinks (page (sys a)))%nat
    && isCalibrating (page (sys a)) = false ->
  page (sys (commitApp a)) = syncRefs (page (sys a)) /\
  hook (sys (commitApp a)) =
    match appState (page (sys a)) with
    | results => stopDetection (hook (sys a))
    | _ => hook (sys a)
    end.
Proof.
  intros [[p h] dm es ue] H. cbn [sys page hook] in *.
  unfold commitApp, withSys. cbn [sys isDemoMode emailSent uploadError].
  rewrite (@commit_quiet {| page := p; hook := h |} H). cbn [page hook].
  unfold resultsEffect, withHook, withSys.
  cbn [sys page hook appState syncRefs isDemoMode emailSent uploadError].
  destruct (appState p); split; reflexivity.
Qed.

Lemma settleApp_quiet : forall a,
  (3 <=? calibrationBlinks (page (sys a)))%nat
    && isCalibrating (page (sys a)) = false ->
  page (sys (settleApp a)) = syncRefs (page (sys a)) /\
  hook (sys (settleApp a)) =
    match appState (page (sys a)) with
    | results => stopDetection (hook (sys a))
    | _ => hook (sys a)
    end.
Proof.
  intros a H. unfold settleApp.
  destruct (commitApp_quiet a H) as [P1 H1].
  destruct (commitApp_quiet (commitApp a)) as [P2 H2].
  { rewrite P1. exact H. }
  rewrite P2, H2, P1, H1.
  split; [reflexivity|].
  cbn [syncRefs appState]. destruct (appState (page (sys a))); reflexivity.
Qed.

Lemma handleStartOver_page : forall a,
  page (sys (handleStartOver a))
  = set_appState hero (set_currentIndex 0 (set_photos [] (page (sys a)))).
Proof. reflexivity. Qed.

Lemma handleStartDemo_page : forall a,
  page (sys (handleStartDemo a)) = startSession true demoPhotos (page (sys a)).
Proof. reflexivity. Qed.

Lemma restart_aux :
  forall a : App,
  isCalibrating (page (sys a)) = true ->
  (calibrationBlinks (page (sys a)) < 3)%nat ->
  page (sys (settleApp (handleStartDemo (settleApp (handleStartOver a)))))
  = syncRefs (startSession true demoPhotos
       (syncRefs (set_appState hero (set_currentIndex 0
                    (set_photos [] (page (sys a))))))).
Proof.
  intros a Hcal Hlt.
  assert (E : (3 <=? calibrationBlinks (page (sys a)))%nat = false)
    by (apply Nat.leb_gt; exact Hlt).
  destruct (@settleApp_quiet (handleStartOver a)) as [P1 _].
  { rewrite handleStartOver_page.
    change ((3 <=? calibrationBlinks (page (sys a)))%nat
            && isCalibrating (page (sys a)) = false).
    rewrite E. reflexivity. }
  destruct (@settleApp_quiet (handleStartDemo (settleApp (handleStartOver a))))
    as [P2 _].
  { rewrite handleStartDemo_page, P1, handleStartOver_page.
    change ((3 <=? calibrationBlinks (page (sys a)))%nat && true = false).
    rewrite E. reflexivity. }
  rewrite P2, handleStartDemo_page, P1, handleStartOver_page. reflexivity.
Qed.

(** Cancelling does not reset the calibration: a session cancelled while
    it calibrates and a demo started afterwards leave the page calibrating
    with the count of blinks the cancelled session had reached. *)
Theorem restart_keeps_calibration_count :
  forall a : App,
  isCalibrating (page (sys a)) = true ->
  (calibrationBlinks (page (sys a)) < 3)%nat ->
  isCalibrating (page (sys (run [StartOverButton; StartDemoButton] a))) = true /\
  calibrationBlinks (page (sys (run [StartOverButton; StartDemoButton] a)))
    = calibrationBlinks (page (sys a)) /\
  photos (page (sys (run [StartOverButton; StartDemoButton] a))) = demoPhotos /\
  currentIndex (page (sys (run [StartOverButton; StartDemoButton] a))) = 0%Z.
Proof.
  intros a Hcal Hlt.
  change (run [StartOverButton; StartDemoButton] a)
    with (settleApp (handleStartDemo (settleApp (handleStartOver a)))).
  rewrite (restart_aux a Hcal Hlt). repeat split; reflexivity.
Qed.

Lemma restart_keeps_calibration_count_witness :
  isCalibrating (page afterTwoBlinks) = true /\
  calibrationBlinks
    (page (sys (run [StartOverButton; StartDemoButton]
                  (mkApp afterTwoBlinks true false None)))) = 2%nat /\
  isCalibrating
    (page (sys (run [StartOverButton; StartDemoButton; Frame 0.3 0 9000;
                     Frame 0.05 0 9200; Frame 0.05 0 9400]
                  (mkApp afterTwoBlinks true false None)))) = false.
Proof.
  split; [reflexivity|].
  destruct (@restart_keeps_calibration_count
              (mkApp afterTwoBlinks true false None) eq_refl) as (_ & W & _).
  - vm_compute. lia.
  - split; [exact W|reflexivity].
Defined.

(** The review ends at the last photo, by any of three ways: past
    calibration and with the last photo shown, the Next button, the right
    arrow and a frame that fires a left tilt each lead to the results
    screen with the detection stopped and the photos, marks included, as
    they were. *)
Theorem review_ends_at_last_photo :
  forall (a : App) (avgEAR tiltAngle : float) (now : Z),
  synced (page (sys a)) ->
  isCalibrating (page (sys a)) = false ->
  reviewingNow (page (sys a)) = true ->
  (currentIndex (page (sys a)) = len (page (sys a)) - 1)%Z ->
  snd (evaluateFrame hookArgs avgEAR tiltAngle now (hook (sys a)))
    = [OnTiltLeft] ->
  Forall (fun e =>
            appState (page (sys (step a e))) = results /\
            photos (page (sys (step a e))) = photos (page (sys a)) /\
            isInitialized (state (hook (sys (step a e)))) = false /\
            faceDetected (state (hook (sys (step a e)))) = false /\
            headTilt (state (hook (sys (step a e)))) = TiltNeutral)
    [NextButton; Key arrowRight; Frame avgEAR tiltAngle now].
Proof.
  intros a e t n Hs Hcal Hrev Hlast Hfire.
  assert (L : (currentIndex (page (sys a)) <? len (page (sys a)) - 1)%Z
              = false) by (rewrite Hlast; apply Z.ltb_irrefl).
  assert (Q : (currentIndex (page (sys a)) =? len (page (sys a)) - 1)%Z
              = true) by (rewrite Hlast; apply Z.eqb_refl).
  (* the button and the key *)
  assert (B : forall b,
            sys b = {| page := set_appState results (page (sys a));
                       hook := stopDetection (hook (sys a)) |} ->
            appState (page (sys (settleApp b))) = results /\
            photos (page (sys (settleApp b))) = photos (page (sys a)) /\
            isInitialized (state (hook (sys (settleApp b)))) = false /\
            faceDetected (state (hook (sys (settleApp b)))) = false /\
            headTilt (state (hook (sys (settleApp b)))) = TiltNeutral).
  { intros b Eb. destruct (@settleApp_quiet b) as [P H].
    { rewrite Eb. cbn [page isCalibrating set_appState]. rewrite Hcal.
      apply andb_false_r. }
    rewrite P, H, Eb. repeat split; reflexivity. }
  (* the frame *)
  assert (T : invoke OnTiltLeft (page (sys a))
              = set_appState results
                  (set_showTiltFlash (Some TiltRight) (page (sys a)))).
  { destruct Hs as (Hc & _ & Hi & Hl).
    unfold invoke, handlerOf, hookArgs. cbn [onTiltLeft].
    unfold handleTiltRight. rewrite Hc, Hcal. cbv zeta.
    cbn [currentIndexRef photosLengthRef currentIndex set_showTiltFlash].
    rewrite Hi, Hl, L, Q. reflexivity. }
  constructor; [|constructor; [|constructor; [|constructor]]].
  - change (step a NextButton) with (settleApp (handleNextPhoto a)).
    apply B. unfold handleNextPhoto. cbv zeta. rewrite L. reflexivity.
  - change (step a (Key arrowRight))
      with (settleApp (handleKeyDown arrowRight a)).
    apply B. unfold handleKeyDown. cbv zeta.
    unfold reviewingNow in Hrev. rewrite Hrev, Hcal, L, Q. reflexivity.
  - change (step a (Frame e t n))
      with (settleApp (withSys (onMeasurement e t n) a)).
    unfold withSys, onMeasurement.
    destruct (evaluateFrame hookArgs e t n (hook (sys a))) as [h1 calls].
    cbn [snd] in Hfire. subst calls. cbv iota beta.
    unfold deliver. cbn [fold_left page hook]. rewrite T.
    rewrite settle_quiet
      by (cbn [page isCalibrating set_appState set_showTiltFlash];
          rewrite Hcal; apply andb_false_r).
    cbn [page hook].
    match goal with
    | |- context [settleApp ?b] => destruct (@settleApp_quiet b) as [P H]
    end.
    { cbn [sys page isCalibrating set_appState set_showTiltFlash syncRefs].
      rewrite Hcal. apply andb_false_r. }
    rewrite P, H. repeat split; reflexivity.
Qed.

Lemma review_ends_at_last_photo_witness :
  snd (evaluateFrame hookArgs 1 (-20) 1150 (hook (sys atLastPhoto)))
    = [OnTiltLeft] /\
  Forall (fun e =>
            appState (page (sys (step atLastPhoto e))) = results /\
            photos (page (sys (step atLastPhoto e)))
              = photos (page (sys atLastPhoto)) /\
            isInitialized (state (hook (sys (step atLastPhoto e)))) = false /\
            faceDetected (state (hook (sys (step atLastPhoto e)))) = false /\
            headTilt (state (hook (sys (step atLastPhoto e)))) = TiltNeutral)
    [NextButton; Key arrowRight; Frame 1 (-20) 1150].
Proof.
  split; [reflexivity|].
  apply (@review_ends_at_last_photo atLastPhoto 1%float (-20)%float 1150%Z).
  - repeat split.
  - reflexivity.
  - reflexivity.
  - reflexivity.
  - reflexivity.
Defined.

(** ** Uploads, names and the mail *)

Import Ascii String Mail.
Import Permutation.
Local Open Scope string_scope.

Lemma newPhotos_facts : forall clock files i,
  map originalName (newPhotos clock i files) = map name files /\
  map url (newPhotos clock i files) = map objectURL files /\
  forallb (fun p => negb (marked p)) (newPhotos clock i files) = true /\
  List.length (newPhotos clock i files) = List.length files.
Proof.
  induction files as [|f files IH]; intros i; [auto|].
  cbn [newPhotos map forallb List.length originalName url marked negb andb].
  destruct (IH (S i)) as (E1 & E2 & E3 & E4).
  rewrite E1, E2, E3, E4. auto.
Qed.

(** An upload of more than 1 GiB in total (of files of sizes that add up
    exactly as numbers, below 2^53) is refused: the page, the hook and the
    photos of a running session stay as they are, and only the upload
    error is set, to a message that gives the total in GB with two
    decimals. *)
Theorem oversized_upload_refused :
  forall (files : list UploadFile) (clock : nat -> Z) (a : App),
  Forall (fun file => 0 <= size file)%Z files ->
  (fold_left (fun sum file => sum + size file) files 0 < 2 ^ 53)%Z ->
  (fold_left (fun sum file => sum + size file) files 0 > MAX_UPLOAD_SIZE)%Z ->
  sys (handleFileUpload (Some files) clock a) = sys a /\
  isDemoMode (handleFileUpload (Some files) clock a) = isDemoMode a /\
  emailSent (handleFileUpload (Some files) clock a) = emailSent a /\
  uploadError (handleFileUpload (Some files) clock a) =
    Some ("Total file size ("
          ++ Js.gigabytesToFixed2
               (fold_left (fun sum file => sum + size file)%Z files 0%Z)
          ++ "GB) exceeds 1GB limit").
Proof.
  intros files clock a _ _ Hbig. unfold handleFileUpload.
  destruct files as [|f files]; [cbn in Hbig; discriminate Hbig|].
  apply Z.gtb_gt in Hbig. rewrite Hbig. cbn. auto.
Qed.

Lemma oversized_upload_refused_witness :
  uploadError
    (handleFileUpload
       (Some [mkUploadFile "a.png" 1073741824 "blob:1";
              mkUploadFile "b.png" 1 "blob:2"])
       (fun _ => 1700000000000%Z) (mkApp reviewing false false None))
  = Some "Total file size (1.00GB) exceeds 1GB limit" /\
  sys (handleFileUpload
         (Some [mkUploadFile "a.png" 1073741824 "blob:1";
                mkUploadFile "b.png" 1 "blob:2"])
         (fun _ => 1700000000000%Z) (mkApp reviewing false false None))
  = reviewing.
Proof.
  destruct (@oversized_upload_refused
              [mkUploadFile "a.png" 1073741824 "blob:1";
               mkUploadFile "b.png" 1 "blob:2"]
              (fun _ => 1700000000000%Z) (mkApp reviewing false false None))
    as (W1 & _ & _ & W4).
  - repeat constructor; cbn; discriminate.
  - reflexivity.
  - reflexivity.
  - split; [exact W4|exact W1].
Defined.

(** An upload of at least one file (of sizes that are not negative) and at
    most 1 GiB in total, the limit included, starts a review: one unmarked
    photo per file, in the order of the files and under their names, the
    first one shown, calibration on with the count of blinks as it was,
    the upload error cleared. *)
Theorem upload_within_limit_starts_review :
  forall (files : list UploadFile) (clock : nat -> Z) (a : App),
  files <> [] ->
  Forall (fun file => 0 <= size file)%Z files ->
  (fold_left (fun sum file => sum + size file) files 0 <= MAX_UPLOAD_SIZE)%Z ->
  let p := page (sys (handleFileUpload (Some files) clock a)) in
  map originalName (photos p) = map name files /\
  map url (photos p) = map objectURL files /\
  forallb (fun q => negb (marked q)) (photos p) = true /\
  currentIndex p = 0%Z /\
  appState p = review /\
  isCalibrating p = true /\
  isCalibrationRef p = true /\
  calibrationBlinks p = calibrationBlinks (page (sys a)) /\
  uploadError (handleFileUpload (Some files) clock a) = None /\
  isDemoMode (handleFileUpload (Some files) clock a) = false.
Proof.
  intros files clock a Hne _ Hfit. cbv zeta. unfold handleFileUpload.
  destruct files as [|f files]; [contradiction Hne; reflexivity|].
  assert (E : (fold_left (fun sum file => sum + size file) (f :: files) 0
               >? MAX_UPLOAD_SIZE)%Z = false).
  { destruct (_ >? _)%Z eqn:G; [|reflexivity]. apply Z.gtb_gt in G. lia. }
  rewrite E. cbn [sys page hook startSession photos currentIndex appState
    isCalibrating isCalibrationRef calibrationBlinks uploadError isDemoMode].
  destruct (newPhotos_facts clock (f :: files) 0) as (E1 & E2 & E3 & _).
  repeat split; assumption.
Qed.

Lemma upload_within_limit_starts_review_witness :
  map originalName
    (photos (page (sys (handleFileUpload
                          (Some [mkUploadFile "a.png" 1073741824 "blob:1"])
                          (fun _ => 1700000000000%Z) initialApp))))
  = ["a.png"] /\
  map id
    (photos (page (sys (handleFileUpload
                          (Some [mkUploadFile "a.png" 1073741824 "blob:1"])
                          (fun _ => 1700000000000%Z) initialApp))))
  = ["photo-1700000000000-0"] /\
  isCalibrating
    (page (sys (handleFileUpload
                  (Some [mkUploadFile "a.png" 1073741824 "blob:1"])
                  (fun _ => 1700000000000%Z) initialApp))) = true.
Proof.
  destruct (@upload_within_limit_starts_review
              [mkUploadFile "a.png" 1073741824 "blob:1"]
              (fun _ => 1700000000000%Z) initialApp)
    as (W1 & _ & _ & _ & _ & W6 & _).
  - discriminate.
  - repeat constructor; cbn; discriminate.
  - cbn. discriminate.
  - split; [exact W1|]. split; [reflexivity|exact W6].
Defined.

(** *** Names in the compressed zip *)

Lemma hasDot_app : forall s t, hasDot (s ++ t) = hasDot s || hasDot t.
Proof.
  induction s as [|c s IH]; intros t; [reflexivity|].
  cbn [append hasDot]. rewrite IH, orb_assoc. reflexivity.
Qed.

Lemma replaceExtension_ext : forall stem ext,
  ext <> "" -> hasDot ext = false ->
  replaceExtension (stem ++ "." ++ ext) = stem ++ ".jpg".
Proof.
  intros stem ext Hne Hnd.
  assert (Hext : (ext =? "") = false) by (apply String.eqb_neq; exact Hne).
  induction stem as [|c stem IH].
  - cbn [append replaceExtension]. rewrite Hext, Hnd. reflexivity.
  - cbn [append replaceExtension].
    change (stem ++ String "." ext) with (stem ++ "." ++ ext).
    rewrite hasDot_app. cbn [append hasDot]. rewrite Ascii.eqb_refl.
    rewrite orb_true_r, !andb_false_r.
    cbn [append] in IH. rewrite IH. reflexivity.
Qed.

Lemma replaceExtension_no_dot : forall s,
  hasDot s = false -> replaceExtension s = s.
Proof.
  induction s as [|c s IH]; intros Hnd; [reflexivity|].
  cbn [hasDot] in Hnd. apply orb_false_elim in Hnd as [Hc Hs].
  cbn [replaceExtension]. rewrite Hc, (IH Hs). reflexivity.
Qed.

(** The extension becomes [.jpg]: a photo named [stem.ext], with [ext] not
    empty and without a dot, enters the compressed zip as [stem.jpg]; so
    photos whose names differ only in their extension get one and the same
    entry name. *)
Theorem extension_becomes_jpg :
  forall (p : PhotoItem) (stem ext : string),
  originalName p = stem ++ "." ++ ext ->
  ext <> "" ->
  hasDot ext = false ->
  compressedName p = stem ++ ".jpg".
Proof.
  intros p stem ext Hname Hne Hnd. unfold compressedName.
  rewrite Hname, (replaceExtension_ext stem Hne Hnd).
  destruct (stem ++ ".jpg" =? "") eqn:E; [|reflexivity].
  apply String.eqb_eq in E. destruct stem; discriminate E.
Qed.

Lemma extension_becomes_jpg_witness :
  compressedName (mkPhoto "photo-1-0" "blob:1" false "holiday.2024.png")
    = "holiday.2024.jpg" /\
  compressedName (mkPhoto "photo-1-1" "blob:2" true "holiday.2024.gif")
    = "holiday.2024.jpg".
Proof.
  split.
  - apply (@extension_becomes_jpg
             (mkPhoto "photo-1-0" "blob:1" false "holiday.2024.png")
             "holiday.2024" "png"); [reflexivity|discriminate|reflexivity].
  - apply (@extension_becomes_jpg
             (mkPhoto "photo-1-1" "blob:2" true "holiday.2024.gif")
             "holiday.2024" "gif"); [reflexivity|discriminate|reflexivity].
Defined.

(** A name without a dot is kept as it is in the compressed zip, without
    [.jpg] being added, and an empty name gives way to the photo's id with
    [.jpg]. *)
Theorem name_without_dot_kept :
  forall p : PhotoItem,
  hasDot (originalName p) = false ->
  compressedName p =
    if originalName p =? "" then id p ++ ".jpg" else originalName p.
Proof.
  intros p Hnd. unfold compressedName.
  rewrite (replaceExtension_no_dot _ Hnd). reflexivity.
Qed.

Lemma name_without_dot_kept_witness :
  compressedName (mkPhoto "photo-1-0" "blob:1" false "IMG_0042") = "IMG_0042" /\
  compressedName (mkPhoto "photo-1-1" "blob:2" false "") = "photo-1-1.jpg".
Proof.
  split.
  - apply (@name_without_dot_kept
             (mkPhoto "photo-1-0" "blob:1" false "IMG_0042")). reflexivity.
  - apply (@name_without_dot_kept (mkPhoto "photo-1-1" "blob:2" false "")).
    reflexivity.
Defined.

(** *** The form the page posts *)

Lemma kept_deleted_partition : forall (l : list PhotoItem),
  Permutation (filter (fun p => negb (marked p)) l
               ++ filter (fun p => marked p) l)%list l.
Proof.
  induction l as [|p l IH]; [constructor|].
  cbn [filter]. destruct (marked p); cbn [negb app].
  - apply Permutation_sym, Permutation_cons_app, Permutation_sym, IH.
  - constructor. exact IH.
Qed.

(** The mail accounts for every photo: when the page posts the form, the
    session is not a demo and has photos, the lists of photos the kept and
    the deleted zip are made from hold every photo exactly once between
    them, the unmarked ones in the first and the marked ones in the second,
    and the three counts posted are the counts the page displays. *)
Theorem mailed_form_accounts_for_every_photo :
  forall (a : App) (form : list (string * FormValue)),
  sendEmailForm a = Some form ->
  isDemoMode a = false /\
  photos (page (sys a)) <> [] /\
  Permutation (zipPhotos "keptZip" form ++ zipPhotos "deletedZip" form)%list
    (photos (page (sys a))) /\
  Forall (fun p => marked p = false) (zipPhotos "keptZip" form) /\
  Forall (fun p => marked p = true) (zipPhotos "deletedZip" form) /\
  formGet "keptCount" form
    = Some (FormText (Js.toString (keptCount (page (sys a))))) /\
  formGet "deletedCount" form
    = Some (FormText (Js.toString (markedCount (page (sys a))))) /\
  formGet "totalCount" form
    = Some (FormText (Js.toString (Z.of_nat (List.length (photos (page (sys a))))))).
Proof.
  intros a form Hsend. unfold sendEmailForm in Hsend.
  destruct (isDemoMode a); [discriminate Hsend|].
  set (ps := photos (page (sys a))) in *.
  destruct (List.length ps =? 0)%nat eqn:Elen; [discriminate Hsend|].
  injection Hsend as <-.
  set (kept := filter (fun p => negb (marked p)) ps).
  set (deleted := filter (fun p => marked p) ps).
  assert (Hk : Forall (fun p => marked p = false) kept).
  { apply Forall_forall. intros p Hp. apply filter_In in Hp as [_ Hp].
    apply negb_true_iff in Hp. exact Hp. }
  assert (Hd : Forall (fun p => marked p = true) deleted).
  { apply Forall_forall. intros p Hp. apply filter_In in Hp as [_ Hp].
    exact Hp. }
  assert (Hcount : keptCount (page (sys a)) = Z.of_nat (List.length kept)).
  { assert (F : (List.length deleted + List.length kept)%nat = List.length ps)
      by (apply (filter_length (fun p => marked p) ps)).
    unfold keptCount, markedCount.
    change (filter marked (photos (page (sys a)))) with deleted.
    change (photos (page (sys a))) with ps. lia. }
  assert (Zk : zipPhotos "keptZip"
                 ((if (0 <? List.length kept)%nat
                   then [("keptZip", FormZip kept "kept.zip")] else [])
                  ++ (if (0 <? List.length deleted)%nat
                      then [("deletedZip", FormZip deleted "deleted.zip")]
                      else [])
                  ++ [("keptCount",
                       FormText (Js.toString (Z.of_nat (List.length kept))));
                      ("deletedCount",
                       FormText (Js.toString (Z.of_nat (List.length deleted))));
                      ("totalCount",
                       FormText (Js.toString (Z.of_nat (List.length ps))))])%list
               = kept).
  { destruct kept as [|k kept']; destruct deleted; reflexivity. }
  assert (Zd : zipPhotos "deletedZip"
                 ((if (0 <? List.length kept)%nat
                   then [("keptZip", FormZip kept "kept.zip")] else [])
                  ++ (if (0 <? List.length deleted)%nat
                      then [("deletedZip", FormZip deleted "deleted.zip")]
                      else [])
                  ++ [("keptCount",
                       FormText (Js.toString (Z.of_nat (List.length kept))));
                      ("deletedCount",
                       FormText (Js.toString (Z.of_nat (List.length deleted))));
                      ("totalCount",
                       FormText (Js.toString (Z.of_nat (List.length ps))))])%list
               = deleted).
  { destruct kept; destruct deleted as [|d deleted']; reflexivity. }
  rewrite Zk, Zd, Hcount. unfold markedCount.
  change (filter marked (photos (page (sys a)))) with deleted.
  split; [reflexivity|]. split.
  { intros E. rewrite E in Elen. discriminate Elen. }
  split; [apply kept_deleted_partition|].
  split; [exact Hk|]. split; [exact Hd|].
  destruct kept; destruct deleted; repeat split; reflexivity.
Qed.

Lemma mailed_form_accounts_for_every_photo_witness :
  sendEmailForm
    (mkApp {| page := invoke OnBlink (page reviewing); hook := Hook.initial |}
           false false None)
  = Some [("keptZip",
           FormZip [mkPhoto "a" "blob:a" false "a.jpg";
                    mkPhoto "c" "blob:c" false "c.jpg"] "kept.zip");
          ("deletedZip",
           FormZip [mkPhoto "b" "blob:b" true "b.jpg"] "deleted.zip");
          ("keptCount", FormText "2"); ("deletedCount", FormText "1");
          ("totalCount", FormText "3")] /\
  formGet "keptCount"
    [("keptZip",
      FormZip [mkPhoto "a" "blob:a" false "a.jpg";
               mkPhoto "c" "blob:c" false "c.jpg"] "kept.zip");
     ("deletedZip",
      FormZip [mkPhoto "b" "blob:b" true "b.jpg"] "deleted.zip");
     ("keptCount", FormText "2"); ("deletedCount", FormText "1");
     ("totalCount", FormText "3")]
  = Some (FormText
            (Js.toString (keptCount (invoke OnBlink (page reviewing))))).
Proof.
  split; [reflexivity|].
  destruct (@mailed_form_accounts_for_every_photo
              (mkApp {| page := invoke OnBlink (page reviewing);
                        hook := Hook.initial |} false false None)
              _ eq_refl) as (_ & _ & _ & _ & _ & W & _).
  exact W.
Defined.

(** *** The route that sends the mail *)

Lemma totalSize_cases : forall x y,
  totalSize [] = 0%Z /\
  totalSize [x] = fileSize (content x) /\
  totalSize [x; y] = (fileSize (content x) + fileSize (content y))%Z.
Proof. intros x y. unfold totalSize. cbn. repeat split; lia. Qed.

Lemma attachable_bounds : forall e f,
  attachable e = Some f -> (0 < fileSize f <= MAX_ATTACHMENT_SIZE)%Z.
Proof.
  intros [[g|s]|] f E; unfold attachable in E; try discriminate E.
  destruct (fileSize g >? 0)%Z eqn:E1; cbn [andb] in E; [|discriminate E].
  destruct (fileSize g <=? MAX_ATTACHMENT_SIZE)%Z eqn:E2; [|discriminate E].
  injection E as <-. apply Z.gtb_gt in E1. apply Z.leb_le in E2. lia.
Qed.

(** The route never reports a failure: the status is 200 whatever the
    request; the message is "Email disabled (no RESEND_API_KEY)" exactly
    when the key is unset or empty, and then no mail is handed over;
    otherwise it is "Email sent successfully", also when the form could not
    be read and no mail was handed over. *)
Theorem POST_always_answers_200 :
  forall r : Request,
  status (fst (POST r)) = 200%Z /\
  (orElse (RESEND_API_KEY r) "" = "" ->
   message (fst (POST r)) = "Email disabled (no RESEND_API_KEY)" /\
   snd (POST r) = None) /\
  (orElse (RESEND_API_KEY r) "" <> "" ->
   message (fst (POST r)) = "Email sent successfully" /\
   (formData r = None -> snd (POST r) = None)).
Proof.
  intros [key en fe form nk nd]. unfold POST, orElse.
  cbn [RESEND_API_KEY formData].
  destruct key as [[|c key]|].
  - cbn. split; [reflexivity|]. split.
    + intros _. split; reflexivity.
    + intros E. contradiction E. reflexivity.
  - destruct form as [form|]; cbn; (split; [reflexivity|]); split.
    + intros E. discriminate E.
    + intros _. split; [reflexivity|]. intros F. discriminate F.
    + intros E. discriminate E.
    + intros _. split; reflexivity.
  - cbn. split; [reflexivity|]. split.
    + intros _. split; reflexivity.
    + intros E. contradiction E. reflexivity.
Qed.

(** What is attached respects the limit: a mail carries one or two files,
    each of them larger than 0 and at most 40 MiB, together at most
    40 MiB, and its body lists exactly these; a mail that carries none
    says that the attachments were too large. *)
Theorem mail_attachments_within_limit :
  forall (r : Request) (mail : Email),
  snd (POST r) = Some mail ->
  match attachments mail with
  | Some files =>
      files <> [] /\
      (List.length files <= 2)%nat /\
      Forall (fun f => (0 < fileSize (content f) <= MAX_ATTACHMENT_SIZE)%Z)
        files /\
      (totalSize files <= MAX_ATTACHMENT_SIZE)%Z /\
      attachmentsSection mail = Listing files
  | None => attachmentsSection mail = TooLargeNotice
  end.
Proof.
  intros [key en fe form nk nd] mail. unfold POST.
  cbn [RESEND_API_KEY formData].
  destruct key as [[|c key]|]; try discriminate.
  destruct form as [form|]; [|discriminate].
  cbv zeta. cbn [snd]. intros E. injection E as <-.
  cbn [attachments attachmentsSection].
  assert (G : Forall (fun f => (0 < fileSize (content f)
                                <= MAX_ATTACHMENT_SIZE)%Z)
                (gathered (mkRequest (Some (String c key)) en fe (Some form)
                             nk nd) form) /\
              (List.length (gathered (mkRequest (Some (String c key)) en fe
                                        (Some form) nk nd) form) <= 2)%nat).
  { unfold gathered.
    destruct (attachable (formGet "keptZip" form)) as [k|] eqn:Ek;
      destruct (attachable (formGet "deletedZip" form)) as [d|] eqn:Ed;
      try apply attachable_bounds in Ek; try apply attachable_bounds in Ed;
      cbn [app List.length];
      (split; [repeat (apply Forall_cons; [cbn [content]; assumption|]);
               apply Forall_nil
              |lia]). }
  destruct G as [G1 G2].
  set (l := gathered _ form) in *.
  destruct (totalSize l >? MAX_ATTACHMENT_SIZE)%Z eqn:T.
  - reflexivity.
  - destruct l as [|x l']; [reflexivity|].
    cbn [List.length Nat.ltb Nat.leb].
    repeat split; try assumption.
    + discriminate.
    + destruct (Z.gtb_spec (totalSize (x :: l')) MAX_ATTACHMENT_SIZE);
        [discriminate T|assumption].
Qed.

Lemma mail_attachments_within_limit_witness :
  snd (POST smallRequest) = Some smallMail /\
  match attachments smallMail with
  | Some files =>
      files <> [] /\
      (List.length files <= 2)%nat /\
      Forall (fun f => (0 < fileSize (content f) <= MAX_ATTACHMENT_SIZE)%Z)
        files /\
      (totalSize files <= MAX_ATTACHMENT_SIZE)%Z /\
      attachmentsSection smallMail = Listing files
  | None => attachmentsSection smallMail = TooLargeNotice
  end.
Proof.
  split; [reflexivity|].
  exact (@mail_attachments_within_limit smallRequest smallMail eq_refl).
Defined.

(** All or nothing: when both zips are attachable on their own but exceed
    40 MiB together, the mail carries neither of them and says that the
    attachments were too large. *)
Theorem attachments_all_or_nothing :
  forall (r : Request) (form : list (string * Entry)) (kept deleted : File),
  orElse (RESEND_API_KEY r) "" <> "" ->
  formData r = Some form ->
  formGet "keptZip" form = Some (EFile kept) ->
  formGet "deletedZip" form = Some (EFile deleted) ->
  (0 < fileSize kept <= MAX_ATTACHMENT_SIZE)%Z ->
  (0 < fileSize deleted <= MAX_ATTACHMENT_SIZE)%Z ->
  (fileSize kept + fileSize deleted > MAX_ATTACHMENT_SIZE)%Z ->
  exists mail,
    snd (POST r) = Some mail /\
    attachments mail = None /\
    attachmentsSection mail = TooLargeNotice.
Proof.
  intros [key en fe fd nk nd] form kept deleted Hkey Hform Hk Hd Bk Bd Hsum.
  cbn [RESEND_API_KEY formData] in Hkey, Hform. subst fd. unfold POST.
  cbn [RESEND_API_KEY formData].
  destruct key as [[|c key]|];
    try (contradiction Hkey; reflexivity).
  cbv zeta. unfold gathered, attachable. rewrite Hk, Hd.
  cbn [nowKept nowDeleted].
  replace (fileSize kept >? 0)%Z with true by (symmetry; apply Z.gtb_gt; lia).
  replace (fileSize kept <=? MAX_ATTACHMENT_SIZE)%Z with true
    by (symmetry; apply Z.leb_le; lia).
  replace (fileSize deleted >? 0)%Z with true
    by (symmetry; apply Z.gtb_gt; lia).
  replace (fileSize deleted <=? MAX_ATTACHMENT_SIZE)%Z with true
    by (symmetry; apply Z.leb_le; lia).
  cbn [andb app].
  match goal with |- context [(totalSize ?l >? _)%Z] =>
    replace (totalSize l >? MAX_ATTACHMENT_SIZE)%Z with true
      by (symmetry; apply Z.gtb_gt; unfold totalSize;
          cbn [fold_left content]; lia) end.
  eexists. split; [reflexivity|]. split; reflexivity.
Qed.

Lemma attachments_all_or_nothing_witness :
  exists mail,
    snd (POST (mkRequest (Some "re_key") (Some "") None
                 (Some [("keptZip", EFile (mkFile 31457280));
                        ("deletedZip", EFile (mkFile 20971520))])
                 1700000000000 1700000000001)) = Some mail /\
    attachments mail = None /\
    attachmentsSection mail = TooLargeNotice.
Proof.
  apply (@attachments_all_or_nothing
           (mkRequest (Some "re_key") (Some "") None
              (Some [("keptZip", EFile (mkFile 31457280));
                     ("deletedZip", EFile (mkFile 20971520))])
              1700000000000 1700000000001)
           [("keptZip", EFile (mkFile 31457280));
            ("deletedZip", EFile (mkFile 20971520))]
           (mkFile 31457280) (mkFile 20971520)).
  - discriminate.
  - reflexivity.
  - reflexivity.
  - reflexivity.
  - cbn. lia.
  - cbn. lia.
  - cbn. lia.
Defined.

(** ** What the classifiers remember across sessions *)

(** The calls of a frame and the refs it leaves depend on the refs alone,
    not on the state the hook exposes. *)
Lemma evaluateFrame_by_refs : forall (H : Type) (a : Args H) e t n i j,
  refs i = refs j ->
  refs (fst (evaluateFrame a e t n i)) = refs (fst (evaluateFrame a e t n j)) /\
  snd (evaluateFrame a e t n i) = snd (evaluateFrame a e t n j).
Proof.
  intros H a e t n i j E. rewrite !evaluateFrame_eq. cbn [fst snd].
  destruct (blinkDetection_refs a e n i) as [R1 C1].
  destruct (blinkDetection_refs a e n j) as [R2 C2].
  cbv zeta in R1, C1, R2, C2. rewrite E in R1, C1.
  assert (Eb : refs (fst (blinkDetection a e n i))
               = refs (fst (blinkDetection a e n j))) by congruence.
  destruct (tiltDetection_refs a t n (fst (blinkDetection a e n i)))
    as [R3 C3].
  destruct (tiltDetection_refs a t n (fst (blinkDetection a e n j)))
    as [R4 C4].
  cbv zeta in R3, C3, R4, C4. rewrite Eb in R3, C3. split; congruence.
Qed.

Lemma onResults_by_refs :
  forall atan2_approx (H : Type) (a : Args H) m now i j,
  refs i = refs j ->
  refs (fst (onResults atan2_approx a m now i))
    = refs (fst (onResults atan2_approx a m now j)) /\
  snd (onResults atan2_approx a m now i)
    = snd (onResults atan2_approx a m now j).
Proof.
  intros f H a m now i j E. unfold onResults.
  destruct m as [[|face faces]|]; cbn [fst snd refs]; auto.
  cbv zeta.
  destruct (calculateEAR (Some (eyeOf face LEFT_EYE_INDICES)));
    cbn [fst snd refs]; auto.
  destruct (calculateEAR (Some (eyeOf face RIGHT_EYE_INDICES)));
    cbn [fst snd refs]; auto.
  apply evaluateFrame_by_refs. exact E.
Qed.

Lemma commit_refs : forall s, refs (hook (commit s)) = refs (hook s).
Proof.
  intros s. unfold commit, calibrationEffect. cbn [page hook].
  destruct (_ && _); reflexivity.
Qed.

Lemma commitApp_refs : forall a,
  refs (hook (sys (commitApp a))) = refs (hook (sys a)).
Proof.
  intros [s dm es ue]. unfold commitApp, resultsEffect, withHook, withSys.
  cbn [sys isDemoMode emailSent uploadError].
  destruct (appState (page (commit s)));
    cbn [sys hook stopDetection refs]; apply commit_refs.
Qed.

Lemma settleApp_refs : forall a,
  refs (hook (sys (settleApp a))) = refs (hook (sys a)).
Proof.
  intros a. unfold settleApp. rewrite !commitApp_refs. reflexivity.
Qed.

(** Keys, buttons and uploads leave the refs of the classifiers alone. *)
Lemma step_refs : forall a e,
  isFrame e = false ->
  refs (hook (sys (step a e))) = refs (hook (sys a)).
Proof.
  intros a e He. unfold step. rewrite settleApp_refs.
  destruct a as [[p h] dm es ue].
  destruct e as [f m n|ear t n|key| | | | | | |files clock];
    try discriminate He; clear He.
  - unfold handleKeyDown. cbv zeta. cbn [sys page].
    repeat match goal with
           | |- context [if ?b then _ else _] => destruct b
           end; reflexivity.
  - unfold handleNextPhoto. cbv zeta. cbn [sys page].
    destruct (_ <? _)%Z; reflexivity.
  - unfold handlePrevPhoto. cbv zeta. cbn [sys page].
    destruct (_ >? _)%Z; reflexivity.
  - reflexivity.
  - reflexivity.
  - reflexivity.
  - reflexivity.
  - unfold handleFileUpload. destruct files as [[|file files]|];
      try reflexivity.
    destruct (_ >? _)%Z; reflexivity.
Qed.

Lemma run_refs : forall events a,
  forallb (fun e => negb (isFrame e)) events = true ->
  refs (hook (sys (run events a))) = refs (hook (sys a)).
Proof.
  induction events as [|e events IH]; intros a Hev; [reflexivity|].
  cbn [forallb] in Hev. apply andb_true_iff in Hev as [He Hev].
  apply negb_true_iff in He.
  change (run (e :: events) a) with (run events (step a e)).
  rewrite (IH _ Hev). apply step_refs. exact He.
Qed.

(** The classifiers remember across sessions: keys, buttons and uploads,
    cancelling and starting again among them, leave their refs as they
    are, so the next frame reaches the call sites it would have reached
    without them. *)
Theorem classifier_memory_survives_sessions :
  forall (events : list Event) (a : App) atan2_approx m now,
  forallb (fun e => negb (isFrame e)) events = true ->
  refs (hook (sys (run events a))) = refs (hook (sys a)) /\
  snd (onResults atan2_approx hookArgs m now (hook (sys (run events a))))
    = snd (onResults atan2_approx hookArgs m now (hook (sys a))).
Proof.
  intros events a f m now Hev.
  pose proof (run_refs events a Hev) as E.
  split; [exact E|]. apply onResults_by_refs. exact E.
Qed.

Lemma classifier_memory_survives_sessions_witness :
  snd (onResults (fun _ _ => nan) hookArgs (Some [earsVerticalLeft]) 1150
         (hook (sys atLastPhoto))) = [OnTiltLeft] /\
  snd (onResults (fun _ _ => nan) hookArgs (Some [earsVerticalLeft]) 1150
         (hook (sys (run [StartOverButton; StartDemoButton; SkipButton]
                       atLastPhoto))))
    = snd (onResults (fun _ _ => nan) hookArgs (Some [earsVerticalLeft]) 1150
             (hook (sys atLastPhoto))).
Proof.
  split; [vm_compute; reflexivity|].
  apply (@classifier_memory_survives_sessions
           [StartOverButton; StartDemoButton; SkipButton] atLastPhoto
           (fun _ _ => nan) (Some [earsVerticalLeft]) 1150%Z eq_refl).
Defined.

(** ** Images for the mail *)

Import Images.

(** Compression never makes an image larger: whatever the browser makes of
    the image, [compressImage] resolves with the blob it was given or with
    a strictly smaller one, which is then the JPEG the canvas gave. *)
Theorem compressImage_never_larger :
  forall (blob : Blob) (maxWidth quality : float) (img : Image),
  compressImage blob maxWidth quality img = blob \/
  (blobSize (compressImage blob maxWidth quality img) < blobSize blob)%Z.
Proof.
  intros blob maxWidth quality [|w h ctx toBlob]; [left; reflexivity|].
  unfold compressImage.
  destruct (maxWidth <? w)%float; destruct ctx; cbn [negb]; auto;
    match goal with
    | |- context [toBlob ?a ?b ?c ?d] => destruct (toBlob a b c d) as [cb|]
    end; auto;
    destruct (Z.ltb_spec (blobSize cb) (blobSize blob)); auto.
Qed.
